(** * WattTrace carbon-footprint analyzer: counters, walkers and reducer

    A shallow embedding of the analyzer core of the WattTrace extension
    (src/carbonFootprint: constants.ts, models.ts,
    pythonTreeSitterAnalyzer.ts, cFamilyTreeSitterAnalyzer.ts,
    languageDetection.ts, index.ts) together with the properties its
    specification states about it.

    Conventions of the embedding.
    - A JavaScript [number] that holds an operation count, a loop bound or a
      multiplier is an integer of [Z]; JavaScript computes with binary64
      values, which are exact on integers below 2^53.
    - Energy and carbon figures are genuine binary64 values ([PrimFloat]).
    - A [Map] is a [gmap]; [m.get(k) || 0] is [default 0 (m !! k)].
    - A tree-sitter [SyntaxNode] is a finite tree; the fields the walkers
      read ([type], [text], [isNamed], [startPosition.row], the field name
      under which the parent holds the node, [children]) are record fields. *)

From Stdlib Require Import ZArith List Ascii String Sorting.Permutation Sorting.Sorted Floats.
From stdpp Require Import gmap strings list fin_maps pretty.

Local Open Scope Z_scope.

(* Decimal literals such as 1.58 denote the nearest binary64 value, as they
   do in JavaScript. *)
Set Warnings "-inexact-float,-register-all".

(* ===================================================================== *)
(** ** constants.ts                                                       *)
(* ===================================================================== *)

(** [enum OpType]: the twelve operation kinds. *)
Inductive OpType : Type :=
  | ADDITION | SUBTRACTION | MULTIPLICATION | DIVISION
  | ASSIGNMENT | COMPARISON | ARRAY_ACCESS | FUNCTION_CALL
  | MEMORY_ALLOC | CONDITIONAL | IO_OPERATION | NETWORK_OP.

#[global] Instance OpType_eq_dec : EqDecision OpType.
Proof. solve_decision. Defined.

Definition OpType_index (op : OpType) : nat :=
  match op with
  | ADDITION => 0 | SUBTRACTION => 1 | MULTIPLICATION => 2 | DIVISION => 3
  | ASSIGNMENT => 4 | COMPARISON => 5 | ARRAY_ACCESS => 6 | FUNCTION_CALL => 7
  | MEMORY_ALLOC => 8 | CONDITIONAL => 9 | IO_OPERATION => 10 | NETWORK_OP => 11
  end%nat.

(** [ALL_OP_TYPES = Object.values(OpType)], in declaration order. *)
Definition ALL_OP_TYPES : list OpType :=
  [ADDITION; SUBTRACTION; MULTIPLICATION; DIVISION; ASSIGNMENT; COMPARISON;
   ARRAY_ACCESS; FUNCTION_CALL; MEMORY_ALLOC; CONDITIONAL; IO_OPERATION;
   NETWORK_OP].

#[global] Instance OpType_countable : Countable OpType.
Proof.
  refine (inj_countable' OpType_index
            (fun n => nth n ALL_OP_TYPES ADDITION) _).
  intros []; reflexivity.
Defined.

(** The enum's string values, used as keys of the serialised summary. *)
Definition OpType_value (op : OpType) : string :=
  match op with
  | ADDITION => "addition" | SUBTRACTION => "subtraction"
  | MULTIPLICATION => "multiplication" | DIVISION => "division"
  | ASSIGNMENT => "assignment" | COMPARISON => "comparison"
  | ARRAY_ACCESS => "array_access" | FUNCTION_CALL => "function_call"
  | MEMORY_ALLOC => "memory_allocation" | CONDITIONAL => "conditional_branch"
  | IO_OPERATION => "io_operation" | NETWORK_OP => "network_operation"
  end.

(** [OPERATION_WEIGHTS]. *)
Definition OPERATION_WEIGHTS (op : OpType) : Z :=
  match op with
  | ADDITION => 1 | SUBTRACTION => 1 | MULTIPLICATION => 2 | DIVISION => 3
  | ASSIGNMENT => 1 | COMPARISON => 1 | ARRAY_ACCESS => 2 | FUNCTION_CALL => 5
  | MEMORY_ALLOC => 10 | CONDITIONAL => 1 | IO_OPERATION => 50
  | NETWORK_OP => 100
  end.

Definition DEFAULT_LOOP_ITERATIONS : Z := 100.
Definition DEFAULT_RECURSION_DEPTH : Z := 10.

Definition ENERGY_PER_OPERATION_JOULES : float := 3e-9%float.
Definition JOULES_PER_KWH : float := 3600000%float.
Definition CARBON_INTENSITY_G_PER_KWH : float := 475%float.
Definition ASSUMED_DAILY_USER_EXECUTIONS : float := 1000%float.
Definition ASSUMED_DAILY_SERVER_REQUESTS : float := 10000%float.
Definition SERVER_PUE : float := 1.58%float.
Definition NETWORK_ENERGY_PER_REQUEST_J : float := 0.001%float.
Definition DEVICE_POWER_OVERHEAD : float := 1.2%float.
Definition DEV_ENVIRONMENT_MULTIPLIER : float := 5%float.

(* ===================================================================== *)
(** ** models.ts                                                          *)
(* ===================================================================== *)

(** [class OperationCount]: the object is its [counts] map. *)
Abbreviation OperationCount := (gmap OpType Z).

(** [this.counts.get(opType) || 0]. *)
Definition count_of (this : OperationCount) (opType : OpType) : Z :=
  default 0 (this !! opType).

Module OperationCount.

(** The constructor sets every kind of [ALL_OP_TYPES] to 0. *)
Definition new : OperationCount :=
  fold_left (fun counts op => <[op := 0]> counts) ALL_OP_TYPES ∅.

(** [add(opType, count)]. *)
Definition add (this : OperationCount) (opType : OpType) (count : Z)
  : OperationCount :=
  <[opType := count_of this opType + count]> this.

(** [merge(other)]: one [set] per entry of [other.counts]. *)
Definition merge (this other : OperationCount) : OperationCount :=
  map_fold (fun opType count acc => <[opType := count_of acc opType + count]> acc)
           this other.

(** [scale(factor)]: a fresh counter holding every entry times [factor]. *)
Definition scale (this : OperationCount) (factor : Z) : OperationCount :=
  map_fold (fun opType count scaled => <[opType := count * factor]> scaled)
           new this.

(** [get totalWeighted]. *)
Definition totalWeighted (this : OperationCount) : Z :=
  map_fold (fun op count total => total + count * OPERATION_WEIGHTS op) 0 this.

(** [get totalRaw]. *)
Definition totalRaw (this : OperationCount) : Z :=
  map_fold (fun _ count total => total + count) 0 this.

(** [summaryDict()]: the entries whose count is positive. *)
Definition summaryDict (this : OperationCount) : gmap string Z :=
  map_fold (fun op count result =>
              if 0 <? count then <[OpType_value op := count]> result
              else result) ∅ this.

End OperationCount.

(** Number of a JavaScript integer as a binary64 value. *)
Definition float_of_Z (z : Z) : float :=
  match z with
  | Z0 => 0%float
  | Zpos p => PrimFloat.of_uint63 (Uint63.of_Z (Zpos p))
  | Zneg p => PrimFloat.opp (PrimFloat.of_uint63 (Uint63.of_Z (Zpos p)))
  end.

(** [class FunctionAnalysis]. *)
Record FunctionAnalysis : Type := mkFunctionAnalysis {
  name : string;
  lineNumber : Z;
  operations : OperationCount;
  loopDepth : Z;
  maxNesting : Z;
  isRecursive : bool;
  calls : list string;
}.

Module FunctionAnalysis.

Definition new (name : string) (lineNumber : Z) : FunctionAnalysis :=
  {| name := name; lineNumber := lineNumber;
     operations := OperationCount.new; loopDepth := 0; maxNesting := 0;
     isRecursive := false; calls := [] |}.

Definition weightedOps (f : FunctionAnalysis) : Z :=
  OperationCount.totalWeighted (operations f).

Definition energyJoules (f : FunctionAnalysis) : float :=
  (float_of_Z (weightedOps f) * ENERGY_PER_OPERATION_JOULES)%float.

Definition energyKwh (f : FunctionAnalysis) : float :=
  (energyJoules f / JOULES_PER_KWH)%float.

Definition carbonGrams (f : FunctionAnalysis) : float :=
  (energyKwh f * CARBON_INTENSITY_G_PER_KWH)%float.

End FunctionAnalysis.

(** [interface CategoryFootprint] and [interface CarbonBreakdown]. *)
Record CategoryFootprint : Type := mkCategoryFootprint {
  label : string;
  description : string;
  energyJoules : float;
  carbonGrams : float;
}.

Record CarbonBreakdown : Type := mkCarbonBreakdown {
  userEnd : CategoryFootprint;
  developerEnd : CategoryFootprint;
  serverSide : CategoryFootprint;
  total : CategoryFootprint;
}.

(** [Array.prototype.sort(compareFn)] on a copy of the array.  ECMAScript
    requires the sort to be stable; with a consistent comparator the result
    is the one stable ordering, which insertion from the right computes:
    [x] moves behind [y] only when [compareFn(x, y) > 0]. *)
Section ArraySort.
Context {A : Type} (compareFn : A -> A -> Z).

Fixpoint sort_insert (x : A) (l : list A) : list A :=
  match l with
  | [] => [x]
  | y :: l' => if 0 <? compareFn x y then y :: sort_insert x l'
               else x :: y :: l'
  end.

Fixpoint array_sort (l : list A) : list A :=
  match l with
  | [] => []
  | x :: l' => sort_insert x (array_sort l')
  end.
End ArraySort.

(** [class AnalysisResult]. *)
Record AnalysisResult : Type := mkAnalysisResult {
  language : string;
  filePath : option string;
  functions : list FunctionAnalysis;
  globalOperations : OperationCount;
  assumptions : list string;
}.

Module AnalysisResult.

Definition new (language : string) (filePath : option string)
  : AnalysisResult :=
  {| language := language; filePath := filePath; functions := [];
     globalOperations := OperationCount.new; assumptions := [] |}.

(** [this.assumptions.push(...lines)]. *)
Definition log (r : AnalysisResult) (lines : list string) : AnalysisResult :=
  {| language := language r; filePath := filePath r;
     functions := functions r; globalOperations := globalOperations r;
     assumptions := assumptions r ++ lines |}.

(** [this.functions.push(func)], after the lines [func]'s analysis pushed. *)
Definition push_function (r : AnalysisResult) (func : FunctionAnalysis)
    (lines : list string) : AnalysisResult :=
  {| language := language r; filePath := filePath r;
     functions := functions r ++ [func];
     globalOperations := globalOperations r;
     assumptions := assumptions r ++ lines |}.

(** [this.globalOperations.merge(ops)], after the lines the analysis of
    the statement pushed. *)
Definition merge_global (r : AnalysisResult) (ops : OperationCount)
    (lines : list string) : AnalysisResult :=
  {| language := language r; filePath := filePath r;
     functions := functions r;
     globalOperations := OperationCount.merge (globalOperations r) ops;
     assumptions := assumptions r ++ lines |}.

(** Several pushes and merges at once: [funcs] pushed onto [functions],
    [ops] merged into [globalOperations], [lines] pushed onto
    [assumptions]. *)
Definition extend (r : AnalysisResult) (funcs : list FunctionAnalysis)
    (ops : OperationCount) (lines : list string) : AnalysisResult :=
  {| language := language r; filePath := filePath r;
     functions := functions r ++ funcs;
     globalOperations := OperationCount.merge (globalOperations r) ops;
     assumptions := assumptions r ++ lines |}.

(** [get totalOperations]. *)
Definition totalOperations (r : AnalysisResult) : OperationCount :=
  fold_left (fun total func => OperationCount.merge total (operations func))
            (functions r)
            (OperationCount.merge OperationCount.new (globalOperations r)).

Definition totalWeightedOps (r : AnalysisResult) : Z :=
  OperationCount.totalWeighted (totalOperations r).

Definition energyJoules (r : AnalysisResult) : float :=
  (float_of_Z (totalWeightedOps r) * ENERGY_PER_OPERATION_JOULES)%float.

Definition energyKwh (r : AnalysisResult) : float :=
  (energyJoules r / JOULES_PER_KWH)%float.

Definition carbonGrams (r : AnalysisResult) : float :=
  (energyKwh r * CARBON_INTENSITY_G_PER_KWH)%float.

(** [get carbonBreakdown].  The two [toLocaleString()] renderings are
    those of the en-US locale. *)
Definition carbonBreakdown (r : AnalysisResult) : CarbonBreakdown :=
  let baseJ := energyJoules r in
  let userJ :=
    (baseJ * DEVICE_POWER_OVERHEAD * ASSUMED_DAILY_USER_EXECUTIONS)%float in
  let userCO2 := (userJ / JOULES_PER_KWH * CARBON_INTENSITY_G_PER_KWH)%float in
  let devJ := (baseJ * DEV_ENVIRONMENT_MULTIPLIER)%float in
  let devCO2 := (devJ / JOULES_PER_KWH * CARBON_INTENSITY_G_PER_KWH)%float in
  let serverComputeJ :=
    (baseJ * SERVER_PUE * ASSUMED_DAILY_SERVER_REQUESTS)%float in
  let networkJ :=
    (NETWORK_ENERGY_PER_REQUEST_J * ASSUMED_DAILY_SERVER_REQUESTS)%float in
  let serverJ := (serverComputeJ + networkJ)%float in
  let serverCO2 :=
    (serverJ / JOULES_PER_KWH * CARBON_INTENSITY_G_PER_KWH)%float in
  let totalJ := (userJ + devJ + serverJ)%float in
  let totalCO2 := (userCO2 + devCO2 + serverCO2)%float in
  {| userEnd :=
       mkCategoryFootprint "User End"
         "1,000 daily executions × 1.2x device overhead" userJ userCO2;
     developerEnd :=
       mkCategoryFootprint "Developer End"
         "5x dev-environment overhead (IDE, build, test)" devJ devCO2;
     serverSide :=
       mkCategoryFootprint "Server Side"
         "10,000 daily requests × PUE 1.58" serverJ serverCO2;
     total :=
       mkCategoryFootprint "Total"
         "Combined daily carbon footprint across all tiers"
         totalJ totalCO2 |}.

(** [get hotspots]:
    [[...functions].sort((a, b) => b.weightedOps - a.weightedOps).slice(0, 5)]. *)
Definition hotspots (r : AnalysisResult) : list FunctionAnalysis :=
  firstn 5
    (array_sort (fun a b => FunctionAnalysis.weightedOps b
                            - FunctionAnalysis.weightedOps a)
                (functions r)).

End AnalysisResult.

(* ===================================================================== *)
(** ** treeSitterManager.ts: the syntax-node interface                    *)
(* ===================================================================== *)

(** [SyntaxNode] of web-tree-sitter, with the members the walkers read.
    [fieldName] is the field under which the parent holds the node
    ([parent.childForFieldName(f)] is the first child whose field is [f]). *)
Inductive SyntaxNode : Type := mkNode {
  type : string;
  text : string;
  isNamed : bool;
  startRow : Z;
  fieldName : option string;
  children : list SyntaxNode;
}.

Local Infix "==" := String.eqb (at level 70, no associativity).

Definition has_field (name : string) (c : SyntaxNode) : bool :=
  bool_decide (fieldName c = Some name).

(** [c.type === t] for a named child [c]. *)
Definition named_of_type (t : string) (c : SyntaxNode) : bool :=
  isNamed c && (type c == t).

(** [s] is one of the strings of [l] ([l.includes(s)], [set.has(s)]). *)
Definition one_of (l : list string) (s : string) : bool :=
  existsb (String.eqb s) l.

Definition namedChildren (n : SyntaxNode) : list SyntaxNode :=
  List.filter isNamed (children n).

Definition namedChildCount (n : SyntaxNode) : Z :=
  Z.of_nat (length (namedChildren n)).

Definition childForFieldName (n : SyntaxNode) (name : string)
  : option SyntaxNode :=
  List.find (has_field name) (children n).

(** [a || b] on two possibly absent nodes. *)
Definition or_else {A} (a b : option A) : option A :=
  match a with Some _ => a | None => b end.

(** The walkers recurse on nodes they reach through a lookup.  The
    continuation forms below run [k] on the looked-up child, so that the
    recursion stays structural; each one is the lookup followed by [k]
    (lemmas [first_child_find], [nth_named_nth], [each_named_filter]). *)
Definition first_child {A} (p : SyntaxNode -> bool) (kids : list SyntaxNode)
  (k : SyntaxNode -> A) (d : A) : A :=
  fold_right (fun c rest => if p c then k c else rest) d kids.

(** [k (namedChildren[i])], or [d] when there is no such child. *)
Definition nth_named {A} (i : nat) (kids : list SyntaxNode)
  (k : SyntaxNode -> A) (d : A) : A :=
  fold_right
    (fun c rest i =>
       if isNamed c then match i with O => k c | S j => rest j end
       else rest i)
    (fun _ => d) kids i.

(** [for (const c of namedChildren) acc = f(acc, c)]. *)
Definition each_named {A} (f : A -> SyntaxNode -> A) (kids : list SyntaxNode)
  (a : A) : A :=
  fold_left (fun acc c => if isNamed c then f acc c else acc) kids a.

(** [for (const c of namedChildren.filter(p)) acc = f(acc, c)]. *)
Definition each_named_if {A} (p : SyntaxNode -> bool) (f : A -> SyntaxNode -> A)
  (kids : list SyntaxNode) (a : A) : A :=
  each_named (fun acc c => if p c then f acc c else acc) kids a.

(** A JavaScript string used as a condition: absent and empty are false. *)
Definition truthy (s : option string) : bool :=
  match s with Some s => negb (s == "") | None => false end.

(** [s.includes(sub)]. *)
Definition includes (s sub : string) : bool :=
  match String.index 0 sub s with Some _ => true | None => false end.

(** [text.replace(/_/g, '')]. *)
Fixpoint remove_underscores (s : string) : string :=
  match s with
  | EmptyString => EmptyString
  | String c s' =>
      if Ascii.eqb c "_"%char then remove_underscores s'
      else String c (remove_underscores s')
  end.

(** [Math.ceil(a / b)] for [b <> 0]. *)
Definition ceil_div (a b : Z) : Z := - ((- a) / b).

(** The assumption log and the counter of one call: the walkers push onto
    [this.result.assumptions] while they count, so a call returns its counter
    together with the lines it pushed, in order. *)
Definition Counted : Type := OperationCount * list string.

Definition counted_new : Counted := (OperationCount.new, []).

Definition counted_add (st : Counted) (op : OpType) (n : Z) : Counted :=
  (OperationCount.add st.1 op n, st.2).

(** [ops.merge(this.analyzeNode(...))]: the callee's lines follow ours. *)
Definition counted_merge (st r : Counted) : Counted :=
  (OperationCount.merge st.1 r.1, st.2 ++ r.2).

(** [ops.merge(this.analyzeExpression(...))] for a walker whose expression
    analysis pushes nothing. *)
Definition counted_merge_ops (st : Counted) (o : OperationCount) : Counted :=
  (OperationCount.merge st.1 o, st.2).

(** [this.result.assumptions.push(line)]. *)
Definition counted_push (st : Counted) (line : string) : Counted :=
  (st.1, st.2 ++ [line]).

(** The language-specific classification tables of constants.ts. *)
Definition IO_FUNCTIONS (lang : string) : list string :=
  if lang == "python" then
    ["print"; "input"; "open"; "read"; "write"; "readline"; "readlines";
     "writelines"; "close"; "flush"; "seek"; "tell"]
  else if lang == "java" then
    ["println"; "printf"; "print"; "read"; "write"; "readLine"]
  else if lang == "c" then
    ["printf"; "scanf"; "fprintf"; "fscanf"; "fopen"; "fclose"; "fread";
     "fwrite"; "puts"; "gets"; "getchar"; "putchar"; "fgets"; "fputs"]
  else if lang == "cpp" then
    ["cout"; "cin"; "cerr"; "clog"; "printf"; "scanf"; "getline"]
  else if lang == "javascript" then
    ["log"; "error"; "warn"; "info"; "debug"; "trace"; "alert"; "prompt";
     "confirm"; "readFile"; "writeFile"; "readFileSync"; "writeFileSync"]
  else [].

Definition IO_CALL_SUBSTRINGS (lang : string) : list string :=
  if lang == "python" then ["print"; "write"; "read"; "input"; "open"]
  else if lang == "java" then
    ["System.out"; "System.err"; "System.in"; "Scanner"; "BufferedReader";
     "FileReader"; "FileWriter"; "PrintWriter"]
  else if lang == "javascript" then
    ["console.log"; "console.error"; "console.warn"; "console.info";
     "console.debug"; "console.trace"; "document.write"; "fs.";
     "process.stdout"; "process.stderr"; "process.stdin"]
  else [].

Definition NETWORK_FUNCTIONS (lang : string) : list string :=
  if lang == "python" then
    ["request"; "get"; "post"; "put"; "delete"; "patch"; "urlopen"; "connect";
     "send"; "recv"; "socket"; "fetch"; "download"; "upload"]
  else if lang == "java" then
    ["HttpURLConnection"; "URL"; "Socket"; "ServerSocket"; "HttpClient";
     "HttpRequest"; "RestTemplate"; "WebClient"]
  else if lang == "c" then
    ["socket"; "connect"; "send"; "recv"; "bind"; "listen"; "accept"]
  else if lang == "cpp" then ["socket"; "connect"; "send"; "recv"]
  else if lang == "javascript" then
    ["fetch"; "axios"; "XMLHttpRequest"; "WebSocket"]
  else [].

Definition NETWORK_CALL_SUBSTRINGS (lang : string) : list string :=
  if lang == "python" then ["request"; "urlopen"; "socket"; "fetch"]
  else if lang == "cpp" then ["boost::asio"; "curl_"; "httplib"]
  else if lang == "javascript" then
    ["http.request"; "https.request"; "net.connect"]
  else [].

Definition ALLOC_FUNCTIONS (lang : string) : list string :=
  if lang == "python" then
    ["list"; "dict"; "set"; "tuple"; "bytearray"; "array"; "zeros"; "ones";
     "empty"; "malloc"; "calloc"; "DataFrame"; "Series"; "ndarray";
     "deepcopy"; "copy"]
  else if lang == "c" then ["malloc"; "calloc"; "realloc"; "free"; "alloca"]
  else if lang == "cpp" then ["malloc"; "calloc"; "make_shared"; "make_unique"]
  else [].

(** The fixed lines both walkers and the fallback push first. *)
Definition energy_assumption : string := "Energy per operation: 3e-9 J".
Definition carbon_assumption : string :=
  "Carbon intensity: 475 gCO2/kWh (global average)".

Definition recursive_assumption (name : string) : string :=
  "Function '" +:+ name +:+ "' is recursive — assumed "
  +:+ pretty DEFAULT_RECURSION_DEPTH +:+ " recursive calls".

(** [`Line ${node.startPosition.row + 1}`]. *)
Definition line_of (node : SyntaxNode) : string :=
  "Line " +:+ pretty (startRow node + 1).

(** [className ? `${className}.${funcName}` : funcName]. *)
Definition qualified_name (className : option string) (funcName : string)
  : string :=
  if truthy className then default "" className +:+ "." +:+ funcName
  else funcName.

(** [node?.text || fallback]. *)
Definition text_or (node : option SyntaxNode) (fallback : string) : string :=
  match node with
  | Some n => if text n == "" then fallback else text n
  | None => fallback
  end.
(* ===================================================================== *)
(** ** pythonTreeSitterAnalyzer.ts                                        *)
(* ===================================================================== *)

Module PythonTreeSitterAnalyzer.
Section Analyzer.

(** JavaScript built-ins applied to the text of a literal:
    [numberFloor s] is [Math.floor(Number(s))] and [parseFloatFloor s] is
    [Math.floor(parseFloat(s))], absent when the conversion gives NaN. *)
Variable numberFloor : string -> option Z.
Variable parseFloatFloor : string -> option Z.

Definition ioFunctions : list string := IO_FUNCTIONS "python".
Definition networkFunctions : list string := NETWORK_FUNCTIONS "python".
Definition allocFunctions : list string := ALLOC_FUNCTIONS "python".
Definition ioCallSubstrings : list string := IO_CALL_SUBSTRINGS "python".
Definition networkCallSubstrings : list string :=
  NETWORK_CALL_SUBSTRINGS "python".

(** *** Helper methods *)

Definition parseIntLiteral (text : string) : option Z :=
  numberFloor (remove_underscores text).

Definition isComparisonOp (t : string) : bool :=
  one_of ["<"; ">"; "<="; ">="; "=="; "!="; "<>"; "in"; "is"; "not"] t.

Definition getOperatorText (node : SyntaxNode) : string :=
  match childForFieldName node "operator" with
  | Some opNode => type opNode
  | None =>
      match List.find
              (fun child =>
                 negb (isNamed child)
                 && one_of ["+"; "-"; "*"; "/"; "//"; "%"; "**"; "@";
                            "|"; "&"; "^"; "<<"; ">>"; "~";
                            "+="; "-="; "*="; "/="; "//="; "%="; "**="; "@=";
                            ">>="; "<<="; "&="; "^="; "|=";
                            "not"; "and"; "or"] (type child))
              (children node) with
      | Some child => type child
      | None => ""
      end
  end.

Definition getAugmentedOperator (node : SyntaxNode) : string :=
  match List.find
          (fun child =>
             negb (isNamed child)
             && one_of ["+="; "-="; "*="; "/="; "//="; "%="; "**="; "@=";
                        ">>="; "<<="; "&="; "^="; "|="] (type child))
          (children node) with
  | Some child => type child
  | None => ""
  end.

Definition getCallName (node : SyntaxNode) : option string :=
  match childForFieldName node "function" with
  | None => None
  | Some funcNode =>
      if type funcNode == "identifier" then Some (text funcNode)
      else if type funcNode == "attribute" then
        option_map text (childForFieldName funcNode "attribute")
      else None
  end.

(** [callName === s]. *)
Definition name_is (callName : option string) (s : string) : bool :=
  match callName with Some c => c == s | None => false end.

(** The [parts] that the loop of [getFullCallName] collects from
    [current]: the object's parts, then the attribute's text. *)
Fixpoint attributeParts (current : SyntaxNode) : list string :=
  if type current == "attribute" then
    first_child (has_field "object") (children current)
      (fun object => attributeParts object) []
    ++ match childForFieldName current "attribute" with
       | Some attr => [text attr]
       | None => []
       end
  else if type current == "identifier" then [text current]
  else [].

Definition getFullCallName (node : SyntaxNode) : option string :=
  match childForFieldName node "function" with
  | None => None
  | Some funcNode =>
      match attributeParts funcNode with
      | [] => None
      | parts => Some (String.concat "." parts)
      end
  end.

Definition positional (c : SyntaxNode) : bool :=
  isNamed c
  && negb (one_of ["keyword_argument"; "dictionary_splat"; "list_splat"]
                  (type c)).

Definition getCallArguments (callNode : SyntaxNode) : list SyntaxNode :=
  match childForFieldName callNode "arguments" with
  | None => []
  | Some argsNode => List.filter positional (children argsNode)
  end.

Definition isStatementNode (node : SyntaxNode) : bool :=
  one_of ["expression_statement"; "assignment"; "augmented_assignment";
          "return_statement"; "if_statement"; "for_statement";
          "while_statement"; "try_statement"; "with_statement";
          "delete_statement"; "raise_statement"; "pass_statement";
          "break_statement"; "continue_statement"; "global_statement";
          "nonlocal_statement"; "assert_statement"; "import_statement";
          "import_from_statement"; "function_definition";
          "class_definition"; "decorated_definition"] (type node).

Definition findChildByType (node : SyntaxNode) (t : string)
  : option SyntaxNode :=
  List.find (named_of_type t) (children node).

Definition findBlockChild (node : SyntaxNode) : option SyntaxNode :=
  List.find (named_of_type "block") (children node).

(** *** Constant extraction *)

(** [resolveConstantExpr].  The source is a sequence of [if] blocks on
    [node.type]; the types are distinct strings, so a block that falls
    through ends in the final [return undefined]. *)
Fixpoint resolveConstantExpr (variableConstants : gmap string Z)
    (node : SyntaxNode) {struct node} : option Z :=
  let kids := children node in
  if type node == "integer" then parseIntLiteral (text node)
  else if type node == "float" then parseFloatFloor (text node)
  else if type node == "identifier" then variableConstants !! text node
  else if type node == "parenthesized_expression" then
    nth_named 0 kids
      (fun inner => resolveConstantExpr variableConstants inner) None
  else if type node == "binary_operator" then
    let operator := getOperatorText node in
    first_child (has_field "left") kids
      (fun leftNode =>
         first_child (has_field "right") kids
           (fun rightNode =>
              match resolveConstantExpr variableConstants leftNode,
                    resolveConstantExpr variableConstants rightNode with
              | Some leftVal, Some rightVal =>
                  if operator == "+" then Some (leftVal + rightVal)
                  else if operator == "-" then Some (leftVal - rightVal)
                  else if operator == "*" then Some (leftVal * rightVal)
                  else if operator == "//" then
                    if rightVal =? 0 then None else Some (leftVal / rightVal)
                  else if operator == "%" then
                    if rightVal =? 0 then None
                    else Some (Z.rem leftVal rightVal)
                  else None
              | _, _ => None
              end)
           None)
      None
  else if type node == "unary_operator" then
    let op := getOperatorText node in
    first_child
      (fun c => isNamed c && one_of ["integer"; "float"; "identifier"] (type c))
      kids
      (fun operand =>
         match resolveConstantExpr variableConstants operand with
         | Some val =>
             if op == "-" then Some (- val)
             else if op == "+" then Some val
             else None
         | None => None
         end)
      None
  else if type node == "call" then
    if name_is (getCallName node) "len" then Some DEFAULT_LOOP_ITERATIONS
    else None
  else None.

(** [extractConstants]: records [name = constant] assignments, the node
    first and then its named children, in order. *)
Fixpoint extractConstants (node : SyntaxNode)
    (variableConstants : gmap string Z) {struct node} : gmap string Z :=
  let variableConstants :=
    if type node == "assignment" then
      match childForFieldName node "left", childForFieldName node "right" with
      | Some leftNode, Some rightNode =>
          if type leftNode == "identifier" then
            match resolveConstantExpr variableConstants rightNode with
            | Some val => <[text leftNode := val]> variableConstants
            | None => variableConstants
            end
          else variableConstants
      | _, _ => variableConstants
      end
    else variableConstants in
  each_named (fun vc child => extractConstants child vc) (children node)
             variableConstants.

(** *** Loop iteration estimation *)

(** The [range(...)] branch of [estimateForIterations]. *)
Definition estimateRange (variableConstants : gmap string Z)
    (iterable : SyntaxNode) : Z :=
  let args := getCallArguments iterable in
  let resolvedArgs := map (resolveConstantExpr variableConstants) args in
  match args, resolvedArgs with
  | [_], [Some r0] => Z.max 0 r0
  | [_; _], [Some r0; Some r1] => Z.max 0 (r1 - r0)
  | [_; _; _], [Some start; Some stop; Some step] =>
      if step =? 0 then DEFAULT_LOOP_ITERATIONS
      else Z.max 0 (ceil_div (stop - start) step)
  | [a0], _ =>
      if type a0 == "identifier" then
        match variableConstants !! text a0 with
        | Some v => v
        | None => DEFAULT_LOOP_ITERATIONS
        end
      else DEFAULT_LOOP_ITERATIONS
  | _, _ => DEFAULT_LOOP_ITERATIONS
  end.

Fixpoint estimateForIterations (variableConstants : gmap string Z)
    (iterable _forNode : SyntaxNode) {struct iterable} : Z :=
  let callName := getCallName iterable in
  if (type iterable == "call") && name_is callName "range" then
    estimateRange variableConstants iterable
  else if (type iterable == "call") && name_is callName "enumerate" then
    first_child (has_field "arguments") (children iterable)
      (fun argsNode =>
         first_child positional (children argsNode)
           (fun innerIterable =>
              if (type innerIterable == "call")
                 && name_is (getCallName innerIterable) "range"
              then estimateForIterations variableConstants innerIterable
                                         _forNode
              else DEFAULT_LOOP_ITERATIONS)
           DEFAULT_LOOP_ITERATIONS)
      DEFAULT_LOOP_ITERATIONS
  else if (type iterable == "call") && name_is callName "zip" then
    DEFAULT_LOOP_ITERATIONS
  else if type iterable == "identifier" then
    match variableConstants !! text iterable with
    | Some v => v
    | None => DEFAULT_LOOP_ITERATIONS
    end
  else if type iterable == "string" then
    let content_length :=
      Z.max 0 (Z.of_nat (String.length (text iterable)) - 2) in
    if content_length =? 0 then DEFAULT_LOOP_ITERATIONS else content_length
  else if (type iterable == "list") || (type iterable == "tuple") then
    namedChildCount iterable
  else if type iterable == "dictionary" then
    Z.of_nat (length (List.filter (named_of_type "pair") (children iterable)))
  else DEFAULT_LOOP_ITERATIONS.

(** The test the body scan of [estimateWhileIterations] makes on one
    statement: the step of [varName += step] when it resolves to a
    positive constant. *)
Definition incrementStep (variableConstants : gmap string Z)
    (varName : string) (stmt : SyntaxNode) : option Z :=
  if type stmt == "augmented_assignment" then
    let augLeft := childForFieldName stmt "left" in
    let augRight := childForFieldName stmt "right" in
    let augOp := getAugmentedOperator stmt in
    if name_is (option_map text augLeft) varName && (augOp == "+=") then
      match augRight with
      | Some r =>
          match resolveConstantExpr variableConstants r with
          | Some step => if 0 <? step then Some step else None
          | None => None
          end
      | None => None
      end
    else None
  else None.

(** [compOps]: the types of the anonymous children of the condition that
    are comparison operators. *)
Definition comparisonOps (condition : SyntaxNode) : list string :=
  map type
      (List.filter (fun child => negb (isNamed child)
                                 && isComparisonOp (type child))
                   (children condition)).

Definition estimateWhileIterations (variableConstants : gmap string Z)
    (condition whileNode : SyntaxNode) : Z :=
  if type condition == "comparison_operator" then
    let named := namedChildren condition in
    match named, last named with
    | leftExpr :: _ :: _, Some rightExpr =>
        let compOps := comparisonOps condition in
        match compOps with
        | [op] =>
            if type leftExpr == "identifier" then
              let varName := text leftExpr in
              let upper :=
                if (op == "<") || (op == "<=") then
                  resolveConstantExpr variableConstants rightExpr
                else None in
              match upper with
              | Some upper =>
                  let body :=
                    match childForFieldName whileNode "body" with
                    | Some body => namedChildren body
                    | None => []
                    end in
                  fold_right
                    (fun stmt rest =>
                       match incrementStep variableConstants varName stmt with
                       | Some step => Z.max 1 (upper / step)
                       | None => rest
                       end)
                    upper body
              | None =>
                  let decreasing :=
                    if (op == ">") || (op == ">=") then
                      match resolveConstantExpr variableConstants rightExpr,
                            variableConstants !! varName with
                      | Some lower, Some start =>
                          Some (Z.max 1 (Z.abs (start - lower)))
                      | _, _ => None
                      end
                    else None in
                  match decreasing with
                  | Some n => n
                  | None =>
                      if op == "<=" then 20 else DEFAULT_LOOP_ITERATIONS
                  end
              end
            else DEFAULT_LOOP_ITERATIONS
        | _ => DEFAULT_LOOP_ITERATIONS
        end
    | _, _ => DEFAULT_LOOP_ITERATIONS
    end
  else DEFAULT_LOOP_ITERATIONS.

Definition estimateComprehensionIterations
    (variableConstants : gmap string Z) (node : SyntaxNode) : Z :=
  match findChildByType node "for_in_clause" with
  | None => DEFAULT_LOOP_ITERATIONS
  | Some forClause =>
      match last (namedChildren forClause) with
      | None => DEFAULT_LOOP_ITERATIONS
      | Some iterableNode =>
          let args := getCallArguments iterableNode in
          let resolved := map (resolveConstantExpr variableConstants) args in
          let ranged :=
            if (type iterableNode == "call")
               && name_is (getCallName iterableNode) "range" then
              match resolved with
              | [Some r0] => Some r0
              | Some r0 :: Some r1 :: _ => Some (Z.max 0 (r1 - r0))
              | _ => None
              end
            else None in
          match ranged with
          | Some n => n
          | None =>
              if (type iterableNode == "list") || (type iterableNode == "tuple")
              then namedChildCount iterableNode
              else if type iterableNode == "identifier" then
                match variableConstants !! text iterableNode with
                | Some v => v
                | None => DEFAULT_LOOP_ITERATIONS
                end
              else DEFAULT_LOOP_ITERATIONS
          end
      end
  end.

(** *** Loop depth *)

Fixpoint getMaxLoopDepth (node : SyntaxNode) (currentDepth : Z)
    {struct node} : Z :=
  each_named
    (fun maxDepth child =>
       if (type child == "for_statement") || (type child == "while_statement")
       then Z.max maxDepth (getMaxLoopDepth child (currentDepth + 1))
       else Z.max maxDepth (getMaxLoopDepth child currentDepth))
    (children node) currentDepth.

(** *** Function analysis: recursion detection *)

(** [walkForCalls]: the state is [(func.calls, func.isRecursive)]. *)
Fixpoint walkForCalls (node : SyntaxNode) (funcName : string)
    (func : list string * bool) {struct node} : list string * bool :=
  let func :=
    if type node == "call" then
      let callName := getCallName node in
      if truthy callName then
        (func.1 ++ [default "" callName],
         if name_is callName funcName then true else func.2)
      else func
    else func in
  each_named (fun func child => walkForCalls child funcName func)
             (children node) func.

(** *** Expression analysis *)

Fixpoint analyzeExpression (variableConstants : gmap string Z)
    (node : SyntaxNode) (multiplier : Z) {struct node} : OperationCount :=
  let ops := OperationCount.new in
  let kids := children node in
  let ty := type node in
  let sub (ops : OperationCount) (m : Z) (c : SyntaxNode) :=
    OperationCount.merge ops (analyzeExpression variableConstants c m) in
  if ty == "binary_operator" then
    let operator := getOperatorText node in
    let ops :=
      if operator == "+" then OperationCount.add ops ADDITION multiplier
      else if operator == "-" then
        OperationCount.add ops SUBTRACTION multiplier
      else if (operator == "*") || (operator == "@") then
        OperationCount.add ops MULTIPLICATION multiplier
      else if (operator == "/") || (operator == "//") || (operator == "%")
      then OperationCount.add ops DIVISION multiplier
      else if operator == "**" then
        OperationCount.add ops MULTIPLICATION (multiplier * 10)
      else OperationCount.add ops ADDITION multiplier in
    let ops := first_child (has_field "left") kids (sub ops multiplier) ops in
    let ops := first_child (has_field "right") kids (sub ops multiplier) ops in
    ops
  else if ty == "comparison_operator" then
    let compCount :=
      Z.of_nat (length (List.filter
                          (fun child => negb (isNamed child)
                                        && isComparisonOp (type child))
                          kids)) in
    let ops :=
      OperationCount.add ops COMPARISON (multiplier * Z.max 1 compCount) in
    each_named (fun ops child => sub ops multiplier child) kids ops
  else if ty == "boolean_operator" then
    let ops := OperationCount.add ops COMPARISON multiplier in
    let ops := first_child (has_field "left") kids (sub ops multiplier) ops in
    let ops := first_child (has_field "right") kids (sub ops multiplier) ops in
    ops
  else if ty == "not_operator" then
    let ops := OperationCount.add ops COMPARISON multiplier in
    nth_named 0 kids (sub ops multiplier) ops
  else if ty == "call" then
    let callName := getCallName node in
    let fullCallName := getFullCallName node in
    let matches (substrings : list string) :=
      match fullCallName with
      | Some full => negb (full == "") && existsb (includes full) substrings
      | None => false
      end in
    let ops :=
      if truthy callName then
        let callName := default "" callName in
        if one_of ioFunctions callName || matches ioCallSubstrings then
          OperationCount.add ops IO_OPERATION multiplier
        else if one_of networkFunctions callName
                || matches networkCallSubstrings then
          OperationCount.add ops NETWORK_OP multiplier
        else if one_of allocFunctions callName then
          OperationCount.add ops MEMORY_ALLOC multiplier
        else if (callName == "sorted") || (callName == "sort") then
          let ops :=
            OperationCount.add ops COMPARISON
              (multiplier * DEFAULT_LOOP_ITERATIONS * 7) in
          OperationCount.add ops ASSIGNMENT
            (multiplier * DEFAULT_LOOP_ITERATIONS * 7)
        else if one_of ["sum"; "min"; "max"; "any"; "all"] callName then
          let ops :=
            OperationCount.add ops ADDITION
              (multiplier * DEFAULT_LOOP_ITERATIONS) in
          OperationCount.add ops COMPARISON
            (multiplier * DEFAULT_LOOP_ITERATIONS)
        else if one_of ["enumerate"; "zip"; "map"; "filter"; "reversed"]
                       callName then
          OperationCount.add ops FUNCTION_CALL multiplier
        else if callName == "range" then
          OperationCount.add ops FUNCTION_CALL multiplier
        else if callName == "len" then
          OperationCount.add ops FUNCTION_CALL multiplier
        else if callName == "append" then
          OperationCount.add ops MEMORY_ALLOC multiplier
        else OperationCount.add ops FUNCTION_CALL multiplier
      else OperationCount.add ops FUNCTION_CALL multiplier in
    first_child (has_field "arguments") kids
      (fun argsNode =>
         each_named
           (fun ops arg =>
              if type arg == "keyword_argument" then
                first_child (has_field "value") (children arg)
                  (sub ops multiplier) ops
              else sub ops multiplier arg)
           (children argsNode) ops)
      ops
  else if ty == "subscript" then
    let ops := OperationCount.add ops ARRAY_ACCESS multiplier in
    let ops :=
      first_child (has_field "value") kids (sub ops multiplier)
        (nth_named 0 kids (sub ops multiplier) ops) in
    let ops :=
      first_child (has_field "subscript") kids (sub ops multiplier)
        (nth_named 1 kids (sub ops multiplier) ops) in
    ops
  else if (ty == "list_comprehension") || (ty == "set_comprehension")
          || (ty == "generator_expression") then
    let compIter := estimateComprehensionIterations variableConstants node in
    let innerMult := multiplier * compIter in
    let ops := OperationCount.add ops MEMORY_ALLOC multiplier in
    let body (ops : OperationCount) (compBody : SyntaxNode) :=
      if negb (type compBody == "for_in_clause")
         && negb (type compBody == "if_clause")
      then sub ops innerMult compBody else ops in
    let ops :=
      first_child (has_field "body") kids (body ops)
        (nth_named 0 kids (body ops) ops) in
    each_named
      (fun ops child =>
         if type child == "for_in_clause" then
           let ops := OperationCount.add ops COMPARISON innerMult in
           first_child (has_field "value") (children child)
             (sub ops multiplier)
             (first_child
                (fun c => isNamed c && negb (type c == "identifier")
                          && negb (type c == "pattern_list"))
                (children child) (sub ops multiplier) ops)
         else if type child == "if_clause" then
           let ops := OperationCount.add ops CONDITIONAL innerMult in
           each_named (fun ops ifChild => sub ops innerMult ifChild)
                      (children child) ops
         else ops)
      kids ops
  else if ty == "dictionary_comprehension" then
    let dictCompIter := estimateComprehensionIterations variableConstants node in
    let dictInnerMult := multiplier * dictCompIter in
    let ops := OperationCount.add ops MEMORY_ALLOC multiplier in
    let ops :=
      first_child (named_of_type "pair") kids
        (fun pair =>
           let pkids := children pair in
           let ops :=
             first_child (has_field "key") pkids (sub ops dictInnerMult)
               (nth_named 0 pkids (sub ops dictInnerMult) ops) in
           first_child (has_field "value") pkids (sub ops dictInnerMult)
             (nth_named 1 pkids (sub ops dictInnerMult) ops))
        ops in
    each_named
      (fun ops child =>
         if type child == "for_in_clause" then
           nth_named (Nat.pred (length (namedChildren child))) (children child)
             (sub ops multiplier) ops
         else ops)
      kids ops
  else if ty == "unary_operator" then
    let ops := OperationCount.add ops ADDITION multiplier in
    nth_named 0 kids (sub ops multiplier) ops
  else if ty == "attribute" then
    first_child (has_field "object") kids (sub ops multiplier)
      (nth_named 0 kids (sub ops multiplier) ops)
  else if ty == "conditional_expression" then
    let ops := OperationCount.add ops CONDITIONAL multiplier in
    if 3 <=? namedChildCount node then
      let ops := nth_named 0 kids (sub ops multiplier) ops in
      let ops := nth_named 1 kids (sub ops multiplier) ops in
      let ops := nth_named 2 kids (sub ops multiplier) ops in
      ops
    else each_named (fun ops child => sub ops multiplier child) kids ops
  else if (ty == "list") || (ty == "tuple") || (ty == "set") then
    let ops :=
      if 0 <? namedChildCount node then
        let ops := OperationCount.add ops MEMORY_ALLOC multiplier in
        OperationCount.add ops ASSIGNMENT (multiplier * namedChildCount node)
      else ops in
    each_named (fun ops elt => sub ops multiplier elt) kids ops
  else if ty == "dictionary" then
    let pairs :=
      Z.of_nat (length (List.filter (named_of_type "pair") kids)) in
    let ops :=
      if 0 <? pairs then
        let ops := OperationCount.add ops MEMORY_ALLOC multiplier in
        OperationCount.add ops ASSIGNMENT (multiplier * pairs)
      else ops in
    let ops :=
      each_named_if (fun c => type c == "pair")
        (fun ops p =>
           let pkids := children p in
           let ops :=
             first_child (has_field "key") pkids (sub ops multiplier)
               (nth_named 0 pkids (sub ops multiplier) ops) in
           first_child (has_field "value") pkids (sub ops multiplier)
             (nth_named 1 pkids (sub ops multiplier) ops))
        kids ops in
    each_named_if (fun c => type c == "dictionary_splat")
      (fun ops child =>
         nth_named 0 (children child) (sub ops multiplier)
           (OperationCount.merge ops OperationCount.new))
      kids ops
  else if (ty == "string") || (ty == "concatenated_string") then
    each_named_if (fun c => type c == "interpolation")
      (fun ops child =>
         nth_named 0 (children child)
           (fun interpExpr =>
              OperationCount.add (sub ops multiplier interpExpr)
                                 FUNCTION_CALL multiplier)
           ops)
      kids ops
  else if (ty == "list_splat") || (ty == "dictionary_splat") then
    nth_named 0 kids (sub ops multiplier) ops
  else if ty == "parenthesized_expression" then
    nth_named 0 kids (sub ops multiplier) ops
  else if ty == "await" then
    nth_named 0 kids (sub ops multiplier) ops
  else if ty == "yield" then
    nth_named 0 kids (sub ops multiplier) ops
  else if ty == "lambda" then
    let ops := OperationCount.add ops FUNCTION_CALL multiplier in
    first_child (has_field "body") kids (sub ops multiplier) ops
  else if ty == "named_expression" then
    let ops := OperationCount.add ops ASSIGNMENT multiplier in
    first_child (has_field "value") kids (sub ops multiplier)
      (nth_named 1 kids (sub ops multiplier) ops)
  else if ty == "assignment" then
    let ops := OperationCount.add ops ASSIGNMENT multiplier in
    first_child (has_field "right") kids (sub ops multiplier) ops
  else if one_of ["identifier"; "integer"; "float"; "true"; "false"; "none";
                  "ellipsis"; "comment"] ty then
    ops
  else each_named (fun ops child => sub ops multiplier child) kids ops.

(** *** Statement analysis *)

(** [analyzeNode]: the counter of the node at [loopMultiplier], with the
    assumption lines pushed on the way. *)
Fixpoint analyzeNode (variableConstants : gmap string Z)
    (node : SyntaxNode) (loopMultiplier : Z) {struct node} : Counted :=
  let st := counted_new in
  let kids := children node in
  let ty := type node in
  let expr (st : Counted) (c : SyntaxNode) :=
    counted_merge_ops st (analyzeExpression variableConstants c loopMultiplier) in
  let field_expr (st : Counted) (f : string) :=
    match childForFieldName node f with
    | Some c => expr st c
    | None => st
    end in
  let stmts (m : Z) (st : Counted) (block : SyntaxNode) :=
    each_named
      (fun st stmt => counted_merge st (analyzeNode variableConstants stmt m))
      (children block) st in
  let else_of_loop (st : Counted) :=
    first_child (named_of_type "else_clause") kids
      (fun alt =>
         first_child (has_field "body") (children alt)
           (stmts loopMultiplier st)
           (first_child (named_of_type "block") (children alt)
              (stmts loopMultiplier st) st))
      st in
  if ty == "assignment" then
    let st := counted_add st ASSIGNMENT loopMultiplier in
    field_expr st "right"
  else if ty == "augmented_assignment" then
    let st := counted_add st ASSIGNMENT loopMultiplier in
    let st := field_expr st "right" in
    let augOp := getAugmentedOperator node in
    if augOp == "+=" then counted_add st ADDITION loopMultiplier
    else if augOp == "-=" then counted_add st SUBTRACTION loopMultiplier
    else if (augOp == "*=") || (augOp == "@=") then
      counted_add st MULTIPLICATION loopMultiplier
    else if (augOp == "/=") || (augOp == "//=") || (augOp == "%=") then
      counted_add st DIVISION loopMultiplier
    else st
  else if ty == "type_alias_statement" then
    counted_add st ASSIGNMENT loopMultiplier
  else if ty == "for_statement" then
    let iterations :=
      match childForFieldName node "right" with
      | Some iterable =>
          estimateForIterations variableConstants iterable node
      | None => DEFAULT_LOOP_ITERATIONS
      end in
    let innerMultiplier := loopMultiplier * iterations in
    let st :=
      counted_push st
        (if iterations =? DEFAULT_LOOP_ITERATIONS then
           line_of node +:+ ": for-loop iterations unknown, assumed "
           +:+ pretty DEFAULT_LOOP_ITERATIONS
         else
           line_of node +:+ ": for-loop resolved to " +:+ pretty iterations
           +:+ " iterations") in
    let st := counted_add st COMPARISON (loopMultiplier * iterations) in
    let st :=
      first_child (has_field "body") kids (stmts innerMultiplier st) st in
    else_of_loop st
  else if ty == "while_statement" then
    let condition := childForFieldName node "condition" in
    let iterations :=
      match condition with
      | Some condition =>
          estimateWhileIterations variableConstants condition node
      | None => DEFAULT_LOOP_ITERATIONS
      end in
    let innerMultiplier := loopMultiplier * iterations in
    let st :=
      counted_push st
        (line_of node +:+ ": while-loop estimated " +:+ pretty iterations
         +:+ " iterations") in
    let st := counted_add st COMPARISON (loopMultiplier * iterations) in
    let st := field_expr st "condition" in
    let st :=
      first_child (has_field "body") kids (stmts innerMultiplier st) st in
    else_of_loop st
  else if (ty == "if_statement") || (ty == "elif_clause") then
    let st := counted_add st CONDITIONAL loopMultiplier in
    let st := field_expr st "condition" in
    let st :=
      first_child (has_field "consequence") kids (stmts loopMultiplier st)
        (first_child (has_field "body") kids (stmts loopMultiplier st) st) in
    first_child (has_field "alternative") kids
      (fun alternative =>
         if type alternative == "elif_clause" then
           counted_merge st
             (analyzeNode variableConstants alternative loopMultiplier)
         else if type alternative == "else_clause" then
           first_child (has_field "body") (children alternative)
             (stmts loopMultiplier st)
             (first_child (named_of_type "block") (children alternative)
                (stmts loopMultiplier st)
                (stmts loopMultiplier st alternative))
         else st)
      st
  else if ty == "expression_statement" then
    fold_left expr (namedChildren node) st
  else if ty == "return_statement" then
    fold_left expr (namedChildren node) st
  else if ty == "try_statement" then
    each_named
      (fun st child =>
         if type child == "block" then stmts loopMultiplier st child
         else if (type child == "except_clause")
                 || (type child == "finally_clause")
                 || (type child == "else_clause") then
           first_child (named_of_type "block") (children child)
             (stmts loopMultiplier st) st
         else st)
      kids st
  else if ty == "with_statement" then
    let st :=
      match findChildByType node "with_clause" with
      | Some withClause =>
          fold_left
            (fun st item =>
               if type item == "with_item" then
                 match or_else (childForFieldName item "value")
                               (head (namedChildren item)) with
                 | Some valueNode => expr st valueNode
                 | None => st
                 end
               else st)
            (namedChildren withClause) st
      | None =>
          fold_left
            (fun st child =>
               if type child == "with_item" then
                 match head (namedChildren child) with
                 | Some valueNode => expr st valueNode
                 | None => st
                 end
               else st)
            (namedChildren node) st
      end in
    first_child (has_field "body") kids (stmts loopMultiplier st) st
  else if ty == "delete_statement" then
    counted_add st MEMORY_ALLOC loopMultiplier
  else if one_of ["global_statement"; "nonlocal_statement"; "pass_statement";
                  "break_statement"; "continue_statement"] ty then
    st
  else if ty == "raise_statement" then
    counted_add st FUNCTION_CALL loopMultiplier
  else if ty == "assert_statement" then
    let st := counted_add st COMPARISON loopMultiplier in
    fold_left expr (namedChildren node) st
  else if one_of ["import_statement"; "import_from_statement"] ty then st
  else if one_of ["function_definition"; "class_definition";
                  "decorated_definition"] ty then
    st
  else
    each_named
      (fun st child =>
         if isStatementNode child then
           counted_merge st
             (analyzeNode variableConstants child loopMultiplier)
         else st)
      kids st.

(** *** Function, class and module analysis *)

(** The statements of a function body, each at multiplier 1, merged into
    the function's fresh counter. *)
Definition analyzeBody (variableConstants : gmap string Z)
    (node : SyntaxNode) : Counted :=
  match childForFieldName node "body" with
  | Some body =>
      fold_left
        (fun st stmt =>
           counted_merge st (analyzeNode variableConstants stmt 1))
        (namedChildren body) counted_new
  | None => counted_new
  end.

(** [analyzeFunction]: the record of the function and the lines pushed.
    The constant table is extended for the walk and restored on exit, so
    the caller's table is unchanged. *)
Definition analyzeFunction (variableConstants : gmap string Z)
    (node : SyntaxNode) (className : option string)
  : FunctionAnalysis * list string :=
  let funcName := text_or (childForFieldName node "name") "unknown" in
  let name := qualified_name className funcName in
  let scoped := extractConstants node variableConstants in
  let walked := walkForCalls node funcName ([], false) in
  let body := analyzeBody scoped node in
  let recursive := walked.2 in
  ({| name := name;
      lineNumber := startRow node + 1;
      operations :=
        if recursive then
          OperationCount.scale body.1 DEFAULT_RECURSION_DEPTH
        else body.1;
      loopDepth := 0;
      maxNesting := getMaxLoopDepth node 0;
      isRecursive := recursive;
      calls := walked.1 |},
   if recursive then body.2 ++ [recursive_assumption name] else body.2).

(** [this.result.functions.push(this.analyzeFunction(...))]. *)
Definition push_function (variableConstants : gmap string Z)
    (result : AnalysisResult) (node : SyntaxNode) (className : option string)
  : AnalysisResult :=
  let analysed := analyzeFunction variableConstants node className in
  AnalysisResult.push_function result analysed.1 analysed.2.

Definition analyzeClass (variableConstants : gmap string Z)
    (result : AnalysisResult) (classNode : SyntaxNode) : AnalysisResult :=
  let className :=
    Some (text_or (childForFieldName classNode "name") "UnknownClass") in
  match childForFieldName classNode "body" with
  | None => result
  | Some body =>
      fold_left
        (fun result item =>
           if type item == "function_definition" then
             push_function variableConstants result item className
           else if type item == "decorated_definition" then
             match findChildByType item "function_definition" with
             | Some innerDef =>
                 push_function variableConstants result innerDef className
             | None => result
             end
           else result)
        (namedChildren body) result
  end.

(** One step of the loop of [analyze] over the module's named children. *)
Definition analyzeTopLevel (variableConstants : gmap string Z)
    (result : AnalysisResult) (child : SyntaxNode) : AnalysisResult :=
  if type child == "function_definition" then
    push_function variableConstants result child None
  else if type child == "decorated_definition" then
    match List.find
            (fun c => isNamed c
                      && ((type c == "function_definition")
                          || (type c == "class_definition")))
            (children child) with
    | Some innerDef =>
        if type innerDef == "function_definition" then
          push_function variableConstants result innerDef None
        else analyzeClass variableConstants result innerDef
    | None => result
    end
  else if type child == "class_definition" then
    analyzeClass variableConstants result child
  else
    let ops := analyzeNode variableConstants child 1 in
    AnalysisResult.merge_global result ops.1 ops.2.

(** [analyze(rootNode, filePath)].  [collectFunctionNames] fills a set
    that nothing reads; it is left out. *)
Definition analyze (rootNode : SyntaxNode) (filePath : option string)
  : AnalysisResult :=
  let result :=
    AnalysisResult.new "python" (if truthy filePath then filePath else None) in
  let variableConstants := extractConstants rootNode ∅ in
  let result :=
    AnalysisResult.log result [energy_assumption; carbon_assumption] in
  fold_left (analyzeTopLevel variableConstants) (namedChildren rootNode)
            result.
End Analyzer.
End PythonTreeSitterAnalyzer.

(* ===================================================================== *)
(** ** cFamilyTreeSitterAnalyzer.ts                                       *)
(* ===================================================================== *)

Module CFamilyTreeSitterAnalyzer.
Section Analyzer.

(** [Math.floor(Number(s))] on the text of a literal, absent when NaN. *)
Variable numberFloor : string -> option Z.

(** The constructor's argument. *)
Variable language : string.

Definition langKey : string :=
  if language == "typescript" then "javascript" else language.
Definition ioFunctions : list string := IO_FUNCTIONS langKey.
Definition networkFunctions : list string := NETWORK_FUNCTIONS langKey.
Definition allocFunctions : list string := ALLOC_FUNCTIONS langKey.
Definition ioCallSubstrings : list string := IO_CALL_SUBSTRINGS langKey.
Definition networkCallSubstrings : list string :=
  NETWORK_CALL_SUBSTRINGS langKey.

(** *** Node classification and helper methods *)

Definition isFunctionDef (node : SyntaxNode) : bool :=
  one_of ["function_definition"; "function_declaration";
          "method_declaration"; "method_definition"; "arrow_function";
          "generator_function_declaration"] (type node).

Definition isClassDef (node : SyntaxNode) : bool :=
  one_of ["class_declaration"; "class_definition"; "struct_specifier"]
         (type node).

Definition isVariableDeclaration (node : SyntaxNode) : bool :=
  one_of ["variable_declaration"; "lexical_declaration";
          "local_variable_declaration"; "declaration"] (type node).

Definition isNumberLiteral (node : SyntaxNode) : bool :=
  one_of ["number"; "number_literal"; "decimal_integer_literal";
          "integer_literal"; "hex_integer_literal"; "octal_integer_literal";
          "binary_integer_literal"; "decimal_floating_point_literal";
          "float_literal"] (type node).

Definition isCallNode (node : SyntaxNode) : bool :=
  one_of ["call_expression"; "method_invocation"] (type node).

Definition isBlockNode (node : SyntaxNode) : bool :=
  one_of ["compound_statement"; "statement_block"; "block"; "class_body";
          "switch_body"; "switch_block"] (type node).

Definition named_block (c : SyntaxNode) : bool := isNamed c && isBlockNode c.

Definition getStatementBody (node : SyntaxNode) : option SyntaxNode :=
  or_else (childForFieldName node "body")
          (List.find named_block (children node)).

(** [s.replace(/[lLfFdD]$/, '')]. *)
Fixpoint strip_type_suffix (s : string) : string :=
  match s with
  | EmptyString => EmptyString
  | String c EmptyString =>
      if one_of ["l"; "L"; "f"; "F"; "d"; "D"] (String c EmptyString)
      then EmptyString else s
  | String c s' => String c (strip_type_suffix s')
  end.

Definition parseNumericLiteral (text : string) : option Z :=
  numberFloor (strip_type_suffix (remove_underscores text)).

Definition getOperatorText (node : SyntaxNode) : string :=
  match childForFieldName node "operator" with
  | Some opNode => if type opNode == "" then text opNode else type opNode
  | None =>
      match List.find
              (fun child =>
                 negb (isNamed child)
                 && one_of ["+"; "-"; "*"; "/"; "%"; "**";
                            "<"; ">"; "<="; ">="; "=="; "!="; "==="; "!==";
                            "&&"; "||"; "&"; "|"; "^"; "<<"; ">>"; ">>>";
                            "+="; "-="; "*="; "/="; "%="; "&="; "|="; "^=";
                            "<<="; ">>="; "instanceof"; "in"] (type child))
              (children node) with
      | Some child => type child
      | None => ""
      end
  end.

Definition getUpdateOp (node : SyntaxNode) : string :=
  match List.find
          (fun child => negb (isNamed child)
                        && ((type child == "++") || (type child == "--")))
          (children node) with
  | Some child => type child
  | None => "++"
  end.

Definition getUnaryOp (node : SyntaxNode) : string :=
  match List.find
          (fun child =>
             negb (isNamed child)
             && one_of ["-"; "+"; "!"; "~"; "typeof"; "void"; "delete"]
                       (type child))
          (children node) with
  | Some child => type child
  | None => ""
  end.

(** [node.childForFieldName('function') || node.childForFieldName('name')]. *)
Definition calleeNode (node : SyntaxNode) : option SyntaxNode :=
  or_else (childForFieldName node "function") (childForFieldName node "name").

Definition getCallName (node : SyntaxNode) : option string :=
  match calleeNode node with
  | None => None
  | Some funcNode =>
      if one_of ["identifier"; "property_identifier"] (type funcNode) then
        Some (text funcNode)
      else if one_of ["member_expression"; "field_access"] (type funcNode)
      then
        option_map text
          (or_else (childForFieldName funcNode "property")
                   (childForFieldName funcNode "field"))
      else None
  end.

Definition name_is (callName : option string) (s : string) : bool :=
  match callName with Some c => c == s | None => false end.

(** The [parts] that the loop of [getFullCallName] collects from
    [current]. *)
Fixpoint memberParts (current : SyntaxNode) : list string :=
  if one_of ["member_expression"; "field_access"] (type current) then
    first_child (has_field "object") (children current)
      (fun object => memberParts object) []
    ++ match or_else (childForFieldName current "property")
                     (childForFieldName current "field") with
       | Some prop => [text prop]
       | None => []
       end
  else if one_of ["identifier"; "property_identifier"] (type current) then
    [text current]
  else [].

Definition getFullCallName (node : SyntaxNode) : option string :=
  match calleeNode node with
  | None => None
  | Some funcNode =>
      match memberParts funcNode with
      | [] => None
      | parts => Some (String.concat "." parts)
      end
  end.

Fixpoint getDeclaratorName (node : SyntaxNode) : option string :=
  if type node == "identifier" then Some (text node)
  else if one_of ["variable_declarator"; "init_declarator"] (type node) then
    first_child (has_field "name") (children node)
      (fun inner => getDeclaratorName inner)
      (first_child (has_field "declarator") (children node)
         (fun inner => getDeclaratorName inner) None)
  else if type node == "pointer_declarator" then
    first_child (has_field "declarator") (children node)
      (fun inner => getDeclaratorName inner) None
  else None.

Definition getFunctionName (node : SyntaxNode) : string :=
  match or_else (childForFieldName node "name")
                (childForFieldName node "declarator") with
  | Some nameNode =>
      if one_of ["identifier"; "property_identifier"] (type nameNode) then
        text nameNode
      else
        match (if type nameNode == "function_declarator"
               then childForFieldName nameNode "declarator" else None) with
        | Some inner => text inner
        | None =>
            let declared := getDeclaratorName nameNode in
            if truthy declared then default "" declared else "unknown"
        end
  | None => "unknown"
  end.

Definition getFunctionBody (node : SyntaxNode) : option SyntaxNode :=
  or_else (childForFieldName node "body")
          (List.find
             (fun c => isNamed c
                       && one_of ["compound_statement"; "statement_block";
                                  "block"] (type c))
             (children node)).

(** *** Constant extraction *)

Fixpoint resolveConstantExpr (variableConstants : gmap string Z)
    (node : SyntaxNode) {struct node} : option Z :=
  let kids := children node in
  if isNumberLiteral node then parseNumericLiteral (text node)
  else if type node == "identifier" then variableConstants !! text node
  else if type node == "parenthesized_expression" then
    nth_named 0 kids
      (fun inner => resolveConstantExpr variableConstants inner) None
  else if type node == "binary_expression" then
    let op := getOperatorText node in
    first_child (has_field "left") kids
      (fun leftNode =>
         first_child (has_field "right") kids
           (fun rightNode =>
              match resolveConstantExpr variableConstants leftNode,
                    resolveConstantExpr variableConstants rightNode with
              | Some lv, Some rv =>
                  if op == "+" then Some (lv + rv)
                  else if op == "-" then Some (lv - rv)
                  else if op == "*" then Some (lv * rv)
                  else if op == "/" then
                    if rv =? 0 then None else Some (lv / rv)
                  else if op == "%" then
                    if rv =? 0 then None else Some (Z.rem lv rv)
                  else None
              | _, _ => None
              end)
           None)
      None
  else if type node == "unary_expression" then
    match head (namedChildren node) with
    | Some operand =>
        if isNumberLiteral operand then
          match parseNumericLiteral (text operand) with
          | Some val =>
              let op := getUnaryOp node in
              if op == "-" then Some (- val)
              else if op == "+" then Some val
              else None
          | None => None
          end
        else None
    | None => None
    end
  else None.

Definition extractFromDeclaration (node : SyntaxNode)
    (variableConstants : gmap string Z) : gmap string Z :=
  fold_left
    (fun vc child =>
       match or_else (childForFieldName child "name")
                     (childForFieldName child "declarator"),
             childForFieldName child "value" with
       | Some nameNode, Some valueNode =>
           let name := getDeclaratorName nameNode in
           if truthy name then
             match resolveConstantExpr vc valueNode with
             | Some val => <[default "" name := val]> vc
             | None => vc
             end
           else vc
       | _, _ => vc
       end)
    (namedChildren node) variableConstants.

Fixpoint extractConstants (node : SyntaxNode)
    (variableConstants : gmap string Z) {struct node} : gmap string Z :=
  let variableConstants :=
    if isVariableDeclaration node then
      extractFromDeclaration node variableConstants
    else variableConstants in
  let variableConstants :=
    if type node == "assignment_expression" then
      match childForFieldName node "left", childForFieldName node "right" with
      | Some leftNode, Some rightNode =>
          if type leftNode == "identifier" then
            match resolveConstantExpr variableConstants rightNode with
            | Some val => <[text leftNode := val]> variableConstants
            | None => variableConstants
            end
          else variableConstants
      | _, _ => variableConstants
      end
    else variableConstants in
  each_named (fun vc child => extractConstants child vc) (children node)
             variableConstants.

(** *** Recursion detection *)

Fixpoint containsCallTo (node : SyntaxNode) (funcName : string)
    {struct node} : bool :=
  (isCallNode node && name_is (getCallName node) funcName)
  || existsb (fun child => isNamed child && containsCallTo child funcName)
             (children node).

(** *** Loop iteration estimation *)

Definition extractInitValue (variableConstants : gmap string Z)
    (init : SyntaxNode) : option Z :=
  match List.find
          (fun child => bool_decide (is_Some (childForFieldName child "value")))
          (namedChildren init) with
  | Some child =>
      match childForFieldName child "value" with
      | Some val => resolveConstantExpr variableConstants val
      | None => None
      end
  | None =>
      if type init == "assignment_expression" then
        match childForFieldName init "right" with
        | Some rightNode => resolveConstantExpr variableConstants rightNode
        | None => None
        end
      else None
  end.

(** [right ? this.resolveConstantExpr(right) ?? 1 : 1]. *)
Definition stepOf (variableConstants : gmap string Z)
    (update : SyntaxNode) : Z :=
  match childForFieldName update "right" with
  | Some rightNode =>
      default 1 (resolveConstantExpr variableConstants rightNode)
  | None => 1
  end.

Definition extractStep (variableConstants : gmap string Z)
    (forNode : SyntaxNode) : Z :=
  match childForFieldName forNode "update" with
  | None => 1
  | Some update =>
      if type update == "update_expression" then 1
      else if type update == "augmented_assignment_expression" then
        stepOf variableConstants update
      else
        match List.find
                (fun child =>
                   one_of ["update_expression";
                           "augmented_assignment_expression"] (type child))
                (namedChildren update) with
        | Some child =>
            if type child == "update_expression" then 1
            else stepOf variableConstants child
        | None => 1
        end
  end.

(** [estimateForIterations].  A step that resolves to 0 makes JavaScript
    divide by zero (an infinite or NaN count); [ceil_div] gives 0 there,
    and the properties below do not rely on that value. *)
Definition estimateForIterations (variableConstants : gmap string Z)
    (forNode : SyntaxNode) : Z :=
  match childForFieldName forNode "condition" with
  | None => DEFAULT_LOOP_ITERATIONS
  | Some condition =>
      if type condition == "binary_expression" then
        match childForFieldName condition "left",
              childForFieldName condition "right" with
        | Some leftNode, Some rightNode =>
            let op := getOperatorText condition in
            let startVal :=
              match or_else (childForFieldName forNode "initializer")
                            (childForFieldName forNode "init") with
              | Some init =>
                  default 0 (extractInitValue variableConstants init)
              | None => 0
              end in
            let bounded :=
              match resolveConstantExpr variableConstants rightNode with
              | Some endVal =>
                  let stepVal := extractStep variableConstants forNode in
                  if op == "<" then
                    Some (Z.max 0 (ceil_div (endVal - startVal) stepVal))
                  else if op == "<=" then
                    Some (Z.max 0 (ceil_div (endVal - startVal + 1) stepVal))
                  else if op == ">" then
                    Some (Z.max 0 (ceil_div (startVal - endVal) stepVal))
                  else if op == ">=" then
                    Some (Z.max 0 (ceil_div (startVal - endVal + 1) stepVal))
                  else None
              | None => None
              end in
            match bounded with
            | Some n => n
            | None =>
                match resolveConstantExpr variableConstants leftNode,
                      (if type rightNode == "identifier"
                       then variableConstants !! text rightNode else None) with
                | Some leftVal, Some rightVar =>
                    if op == "<" then Z.max 0 (rightVar - leftVal)
                    else if op == "<=" then Z.max 0 (rightVar - leftVal + 1)
                    else DEFAULT_LOOP_ITERATIONS
                | _, _ => DEFAULT_LOOP_ITERATIONS
                end
            end
        | _, _ => DEFAULT_LOOP_ITERATIONS
        end
      else DEFAULT_LOOP_ITERATIONS
  end.

(** [estimateWhileIterations].  The source ends the identifier case with
    a test [op === '<='] that returns 20; the branch for [<] and [<=]
    above it always returns, so that test is never reached. *)
Definition estimateWhileIterations (variableConstants : gmap string Z)
    (whileNode : SyntaxNode) : Z :=
  match childForFieldName whileNode "condition" with
  | None => DEFAULT_LOOP_ITERATIONS
  | Some condition =>
      let cond :=
        match namedChildren condition with
        | [inner] =>
            if type condition == "parenthesized_expression" then inner
            else condition
        | _ => condition
        end in
      if type cond == "binary_expression" then
        match childForFieldName cond "left", childForFieldName cond "right" with
        | Some leftNode, Some rightNode =>
            let op := getOperatorText cond in
            match (if type leftNode == "identifier"
                   then resolveConstantExpr variableConstants rightNode
                   else None) with
            | Some rightVal =>
                let startVal := variableConstants !! text leftNode in
                if (op == "<") || (op == "<=") then
                  match startVal with
                  | Some startVal => Z.max 1 (Z.abs (rightVal - startVal))
                  | None =>
                      if 0 <? rightVal then rightVal
                      else DEFAULT_LOOP_ITERATIONS
                  end
                else
                  match (if (op == ">") || (op == ">=") then startVal
                         else None) with
                  | Some startVal => Z.max 1 (startVal - rightVal)
                  | None => DEFAULT_LOOP_ITERATIONS
                  end
            | None => DEFAULT_LOOP_ITERATIONS
            end
        | _, _ => DEFAULT_LOOP_ITERATIONS
        end
      else DEFAULT_LOOP_ITERATIONS
  end.

(** *** Loop depth *)

Fixpoint getMaxLoopDepth (node : SyntaxNode) (currentDepth : Z)
    {struct node} : Z :=
  each_named
    (fun maxDepth child =>
       if one_of ["for_statement"; "while_statement"; "do_statement";
                  "enhanced_for_statement"; "for_in_statement"] (type child)
       then Z.max maxDepth (getMaxLoopDepth child (currentDepth + 1))
       else Z.max maxDepth (getMaxLoopDepth child currentDepth))
    (children node) currentDepth.

(** *** Statement and expression analysis *)

(** The two walkers call each other (an inline arrow function is an
    expression whose block body holds statements), and both may push
    assumption lines.  Their bodies are written over the two recursive
    calls, which the fixpoint below ties. *)
Section Walkers.
Variable analyzeNode analyzeExpression :
  gmap string Z -> SyntaxNode -> Z -> Counted.

Definition analyzeNode_body (variableConstants : gmap string Z)
    (node : SyntaxNode) (loopMultiplier : Z) : Counted :=
  let st := counted_new in
  let kids := children node in
  let ty := type node in
  let expr (m : Z) (st : Counted) (c : SyntaxNode) :=
    counted_merge st (analyzeExpression variableConstants c m) in
  let stmt (m : Z) (st : Counted) (c : SyntaxNode) :=
    counted_merge st (analyzeNode variableConstants c m) in
  let stmts (m : Z) (st : Counted) (block : SyntaxNode) :=
    each_named (stmt m) (children block) st in
  let body_stmts (m : Z) (owner : SyntaxNode) (st : Counted) :=
    first_child (has_field "body") (children owner) (stmts m st)
      (first_child named_block (children owner) (stmts m st) st) in
  let block_or_stmt (st : Counted) (c : SyntaxNode) :=
    if isBlockNode c then stmts loopMultiplier st c
    else stmt loopMultiplier st c in
  if one_of ["variable_declaration"; "lexical_declaration";
             "local_variable_declaration"; "declaration"] ty then
    each_named
      (fun st child =>
         if one_of ["variable_declarator"; "init_declarator"] (type child)
         then
           let st := counted_add st ASSIGNMENT loopMultiplier in
           first_child (has_field "value") (children child)
             (expr loopMultiplier st) st
         else st)
      kids st
  else if ty == "expression_statement" then
    each_named (expr loopMultiplier) kids st
  else if ty == "for_statement" then
    let iterations := estimateForIterations variableConstants node in
    let innerMultiplier := loopMultiplier * iterations in
    let st :=
      counted_push st
        (line_of node +:+ ": for-loop estimated " +:+ pretty iterations
         +:+ " iterations") in
    let st := counted_add st COMPARISON (loopMultiplier * iterations) in
    let st :=
      first_child (has_field "initializer") kids (stmt loopMultiplier st)
        (first_child (has_field "init") kids (stmt loopMultiplier st) st) in
    let st :=
      first_child (has_field "condition") kids (expr loopMultiplier st) st in
    let st :=
      first_child (has_field "update") kids
        (expr (loopMultiplier * iterations) st) st in
    body_stmts innerMultiplier node st
  else if one_of ["enhanced_for_statement"; "for_in_statement"] ty then
    let eachIterations := DEFAULT_LOOP_ITERATIONS in
    let eachInner := loopMultiplier * eachIterations in
    let st :=
      counted_push st
        (line_of node +:+ ": for-each loop assumed " +:+ pretty eachIterations
         +:+ " iterations") in
    let st := counted_add st COMPARISON (loopMultiplier * eachIterations) in
    body_stmts eachInner node st
  else if ty == "while_statement" then
    let whileIter := estimateWhileIterations variableConstants node in
    let whileInner := loopMultiplier * whileIter in
    let st :=
      counted_push st
        (line_of node +:+ ": while-loop estimated " +:+ pretty whileIter
         +:+ " iterations") in
    let st := counted_add st COMPARISON (loopMultiplier * whileIter) in
    let st :=
      first_child (has_field "condition") kids (expr loopMultiplier st) st in
    body_stmts whileInner node st
  else if ty == "do_statement" then
    let doIter := DEFAULT_LOOP_ITERATIONS in
    let doInner := loopMultiplier * doIter in
    let st :=
      counted_push st
        (line_of node +:+ ": do-while loop assumed " +:+ pretty doIter
         +:+ " iterations") in
    let st := counted_add st COMPARISON (loopMultiplier * doIter) in
    body_stmts doInner node st
  else if ty == "if_statement" then
    let st := counted_add st CONDITIONAL loopMultiplier in
    let st :=
      first_child (has_field "condition") kids (expr loopMultiplier st) st in
    let st :=
      first_child (has_field "consequence") kids (block_or_stmt st)
        (first_child (has_field "body") kids (block_or_stmt st)
           (first_child named_block kids (block_or_stmt st) st)) in
    first_child (has_field "alternative") kids
      (fun alternative =>
         if one_of ["else_clause"; "if_statement"] (type alternative) then
           stmt loopMultiplier st alternative
         else block_or_stmt st alternative)
      st
  else if ty == "else_clause" then
    first_child (has_field "body") kids (block_or_stmt st)
      (first_child named_block kids (block_or_stmt st)
         (each_named (stmt loopMultiplier) kids st))
  else if one_of ["switch_statement"; "switch_expression"] ty then
    let st := counted_add st CONDITIONAL loopMultiplier in
    let cases (switchBody : SyntaxNode) :=
      each_named (fun st caseClause => stmts loopMultiplier st caseClause)
                 (children switchBody) st in
    first_child (has_field "body") kids cases
      (first_child
         (fun c => isNamed c
                   && one_of ["switch_body"; "switch_block"] (type c))
         kids cases st)
  else if ty == "return_statement" then
    each_named (expr loopMultiplier) kids st
  else if one_of ["try_statement"; "try_with_resources_statement"] ty then
    each_named
      (fun st child =>
         if isBlockNode child then stmts loopMultiplier st child
         else if one_of ["catch_clause"; "except_clause"; "finally_clause"]
                        (type child) then
           body_stmts loopMultiplier child st
         else st)
      kids st
  else if ty == "throw_statement" then
    counted_add st FUNCTION_CALL loopMultiplier
  else if one_of ["break_statement"; "continue_statement";
                  "empty_statement"] ty then
    st
  else if ty == "delete_expression" then
    counted_add st MEMORY_ALLOC loopMultiplier
  else if one_of ["function_definition"; "function_declaration";
                  "method_declaration"; "class_declaration";
                  "class_definition"] ty then
    st
  else if ty == "labeled_statement" then
    each_named (stmt loopMultiplier) kids st
  else each_named (stmt loopMultiplier) kids st.

Definition analyzeExpression_body (variableConstants : gmap string Z)
    (node : SyntaxNode) (multiplier : Z) : Counted :=
  let st := counted_new in
  let kids := children node in
  let ty := type node in
  let expr (st : Counted) (c : SyntaxNode) :=
    counted_merge st (analyzeExpression variableConstants c multiplier) in
  let stmt (st : Counted) (c : SyntaxNode) :=
    counted_merge st (analyzeNode variableConstants c multiplier) in
  let is_arguments (c : SyntaxNode) :=
    isNamed c && one_of ["arguments"; "argument_list"] (type c) in
  let arguments_of (st : Counted) (argsNode : SyntaxNode) :=
    each_named expr (children argsNode) st in
  if ty == "binary_expression" then
    let operator := getOperatorText node in
    let st :=
      if one_of ["+"] operator then counted_add st ADDITION multiplier
      else if one_of ["-"] operator then
        counted_add st SUBTRACTION multiplier
      else if one_of ["*"] operator then
        counted_add st MULTIPLICATION multiplier
      else if one_of ["/"; "%"] operator then
        counted_add st DIVISION multiplier
      else if one_of ["<"; ">"; "<="; ">="; "=="; "!="; "==="; "!==";
                      "instanceof"] operator then
        counted_add st COMPARISON multiplier
      else if one_of ["&&"; "||"; "and"; "or"] operator then
        counted_add st COMPARISON multiplier
      else counted_add st ADDITION multiplier in
    let st := first_child (has_field "left") kids (expr st) st in
    let st := first_child (has_field "right") kids (expr st) st in
    st
  else if ty == "unary_expression" then
    let st := counted_add st ADDITION multiplier in
    first_child (has_field "argument") kids (expr st)
      (nth_named 0 kids (expr st) st)
  else if ty == "update_expression" then
    let updateOp := getUpdateOp node in
    let st :=
      if updateOp == "++" then counted_add st ADDITION multiplier
      else if updateOp == "--" then counted_add st SUBTRACTION multiplier
      else st in
    counted_add st ASSIGNMENT multiplier
  else if ty == "assignment_expression" then
    let st := counted_add st ASSIGNMENT multiplier in
    first_child (has_field "right") kids (expr st) st
  else if ty == "augmented_assignment_expression" then
    let st := counted_add st ASSIGNMENT multiplier in
    let augOp := getOperatorText node in
    let st :=
      if augOp == "+=" then counted_add st ADDITION multiplier
      else if augOp == "-=" then counted_add st SUBTRACTION multiplier
      else if augOp == "*=" then counted_add st MULTIPLICATION multiplier
      else if (augOp == "/=") || (augOp == "%=") then
        counted_add st DIVISION multiplier
      else st in
    first_child (has_field "right") kids (expr st) st
  else if one_of ["call_expression"; "method_invocation"] ty then
    let callName := getCallName node in
    let fullCallName := getFullCallName node in
    let matches (substrings : list string) :=
      match fullCallName with
      | Some full => negb (full == "") && existsb (includes full) substrings
      | None => false
      end in
    let st :=
      if truthy callName then
        let callName := default "" callName in
        if one_of ioFunctions callName || matches ioCallSubstrings then
          counted_add st IO_OPERATION multiplier
        else if one_of networkFunctions callName
                || matches networkCallSubstrings then
          counted_add st NETWORK_OP multiplier
        else if one_of allocFunctions callName then
          counted_add st MEMORY_ALLOC multiplier
        else counted_add st FUNCTION_CALL multiplier
      else counted_add st FUNCTION_CALL multiplier in
    first_child (has_field "arguments") kids (arguments_of st)
      (first_child is_arguments kids (arguments_of st) st)
  else if one_of ["new_expression"; "object_creation_expression"] ty then
    let st := counted_add st MEMORY_ALLOC multiplier in
    first_child is_arguments kids (arguments_of st) st
  else if one_of ["subscript_expression"; "array_access"] ty then
    let st := counted_add st ARRAY_ACCESS multiplier in
    each_named expr kids st
  else if one_of ["member_expression"; "field_access"; "field_expression"] ty
  then
    first_child (has_field "object") kids (expr st)
      (nth_named 0 kids (expr st) st)
  else if one_of ["ternary_expression"; "conditional_expression"] ty then
    let st := counted_add st CONDITIONAL multiplier in
    each_named expr kids st
  else if one_of ["array"; "array_initializer"] ty then
    let st :=
      if 0 <? namedChildCount node then
        let st := counted_add st MEMORY_ALLOC multiplier in
        counted_add st ASSIGNMENT (multiplier * namedChildCount node)
      else st in
    each_named expr kids st
  else if ty == "object" then
    let is_prop (c : SyntaxNode) :=
      one_of ["pair"; "property"; "shorthand_property_identifier_pattern";
              "spread_element"; "method_definition"] (type c) in
    let props :=
      Z.of_nat (length (List.filter is_prop (namedChildren node))) in
    let st :=
      if 0 <? props then
        let st := counted_add st MEMORY_ALLOC multiplier in
        counted_add st ASSIGNMENT (multiplier * props)
      else st in
    each_named_if is_prop
      (fun st prop =>
         first_child (has_field "value") (children prop) (expr st)
           (nth_named (Nat.pred (length (namedChildren prop)))
                      (children prop) (expr st) st))
      kids st
  else if ty == "template_string" then
    each_named_if (fun c => type c == "template_substitution")
      (fun st child =>
         nth_named 0 (children child)
           (fun e => counted_add (expr st e) FUNCTION_CALL multiplier) st)
      kids st
  else if ty == "spread_element" then
    nth_named 0 kids (expr st) st
  else if one_of ["comma_expression"; "sequence_expression"] ty then
    each_named expr kids st
  else if ty == "parenthesized_expression" then
    nth_named 0 kids (expr st) st
  else if ty == "cast_expression" then
    let st := counted_add st FUNCTION_CALL multiplier in
    first_child (has_field "value") kids (expr st)
      (nth_named (Nat.pred (length (namedChildren node))) kids (expr st) st)
  else if ty == "sizeof_expression" then
    counted_add st FUNCTION_CALL multiplier
  else if ty == "arrow_function" then
    let st := counted_add st FUNCTION_CALL multiplier in
    first_child (has_field "body") kids
      (fun arrowBody =>
         if isBlockNode arrowBody then
           each_named stmt (children arrowBody) st
         else expr st arrowBody)
      st
  else if one_of ["number"; "number_literal"; "decimal_integer_literal";
                  "integer_literal"; "float_literal";
                  "decimal_floating_point_literal"; "hex_integer_literal";
                  "octal_integer_literal"; "binary_integer_literal";
                  "string"; "string_literal"; "character_literal"; "true";
                  "false"; "null"; "null_literal"; "undefined"; "this";
                  "super"; "identifier"; "property_identifier";
                  "shorthand_property_identifier"; "type_identifier";
                  "comment"; "line_comment"; "block_comment"] ty then
    st
  else each_named expr kids st.

End Walkers.

Fixpoint analyzeNode (variableConstants : gmap string Z)
    (node : SyntaxNode) (loopMultiplier : Z) {struct node} : Counted :=
  analyzeNode_body analyzeNode analyzeExpression
                   variableConstants node loopMultiplier
with analyzeExpression (variableConstants : gmap string Z)
    (node : SyntaxNode) (multiplier : Z) {struct node} : Counted :=
  analyzeExpression_body analyzeNode analyzeExpression
                         variableConstants node multiplier.

(** *** Function, class and file analysis *)

Definition analyzeBody (variableConstants : gmap string Z)
    (node : SyntaxNode) : Counted :=
  match getFunctionBody node with
  | Some body =>
      fold_left
        (fun st stmt =>
           counted_merge st (analyzeNode variableConstants stmt 1))
        (namedChildren body) counted_new
  | None => counted_new
  end.

Definition analyzeFunction (variableConstants : gmap string Z)
    (node : SyntaxNode) (className : option string)
  : FunctionAnalysis * list string :=
  let funcName := getFunctionName node in
  let name := qualified_name className funcName in
  let scoped := extractConstants node variableConstants in
  let recursive := containsCallTo node funcName in
  let body := analyzeBody scoped node in
  ({| name := name;
      lineNumber := startRow node + 1;
      operations :=
        if recursive then
          OperationCount.scale body.1 DEFAULT_RECURSION_DEPTH
        else body.1;
      loopDepth := 0;
      maxNesting := getMaxLoopDepth node 0;
      isRecursive := recursive;
      calls := [] |},
   if recursive then body.2 ++ [recursive_assumption name] else body.2).

Definition push_function (variableConstants : gmap string Z)
    (result : AnalysisResult) (node : SyntaxNode) (className : option string)
  : AnalysisResult :=
  let analysed := analyzeFunction variableConstants node className in
  AnalysisResult.push_function result analysed.1 analysed.2.

Definition analyzeClass (variableConstants : gmap string Z)
    (result : AnalysisResult) (classNode : SyntaxNode) : AnalysisResult :=
  let className :=
    Some (text_or (childForFieldName classNode "name") "UnknownClass") in
  match or_else (childForFieldName classNode "body")
                (List.find
                   (fun c => isNamed c
                             && one_of ["class_body"; "declaration_list";
                                        "field_declaration_list"] (type c))
                   (children classNode)) with
  | None => result
  | Some body =>
      fold_left
        (fun result item =>
           if isFunctionDef item then
             push_function variableConstants result item className
           else result)
        (namedChildren body) result
  end.

Definition analyzeTopLevel (variableConstants : gmap string Z)
    (result : AnalysisResult) (child : SyntaxNode) : AnalysisResult :=
  if isFunctionDef child then
    push_function variableConstants result child None
  else if isClassDef child then
    analyzeClass variableConstants result child
  else
    let ops := analyzeNode variableConstants child 1 in
    AnalysisResult.merge_global result ops.1 ops.2.

Definition analyze (rootNode : SyntaxNode) (filePath : option string)
  : AnalysisResult :=
  let result :=
    AnalysisResult.log
      (AnalysisResult.new language (if truthy filePath then filePath else None))
      ["Tree-sitter AST-based analysis for " +:+ language;
       energy_assumption; carbon_assumption] in
  let variableConstants := extractConstants rootNode ∅ in
  fold_left (analyzeTopLevel variableConstants) (namedChildren rootNode)
            result.
End Analyzer.
End CFamilyTreeSitterAnalyzer.

(* ===================================================================== *)
(** ** languageDetection.ts                                               *)
(* ===================================================================== *)

(** [EXT_MAP], and [ext in EXT_MAP]. *)
Definition EXT_MAP (ext : string) : option string :=
  if ext == ".py" then Some "python"
  else if ext == ".java" then Some "java"
  else if ext == ".c" then Some "c"
  else if one_of [".cpp"; ".cc"; ".cxx"; ".hpp"] ext then Some "cpp"
  else if ext == ".h" then Some "c"
  else if one_of [".js"; ".mjs"; ".jsx"] ext then Some "javascript"
  else if one_of [".ts"; ".tsx"] ext then Some "typescript"
  else None.

(** The regular expressions of the content heuristics of [detectLanguage]. *)
Inductive Heuristic : Type :=
  | PYTHON_DEF        (* /\bdef\s+\w+\s*\(/ *)
  | COLON_AT_EOL      (* /:\s*$/m *)
  | JAVA_PUBLIC_CLASS (* /\bpublic\s+(static\s+)?class\b/ *)
  | INCLUDE           (* /#include\s*</ *)
  | PRINTF            (* /\bprintf\b/ *)
  | COUT_OR_STD       (* /\bcout\b|\bstd::/ *)
  | TS_DECLARATION    (* /\b(interface|type)\s+\w+/ *)
  | TS_ANNOTATION     (* /:\s*\w+/ *)
  | JS_FUNCTION.      (* /\bfunction\b|\bconst\b.*=>|\bconsole\.log\b/ *)

(** What the line scanner of the fallback analyzer adds to a result: the
    functions it pushes, what it merges into [globalOperations] and the
    assumption lines it pushes. *)
Record Scan : Type := mkScan {
  scanFunctions : list FunctionAnalysis;
  scanGlobal : OperationCount;
  scanLines : list string;
}.

Section Orchestrator.

(** Collaborators outside the embedding:
    - [extnameLower p] is [path.extname(p).toLowerCase()];
    - [test h code] is [regex.test(code)] for the heuristic [h];
    - [scan language code] is what [removeComments], [extractConstants]
      and [extractFunctions] of regexAnalyzer.ts add to the result;
    - [isTreeSitterReady], [isGrammarAvailable] and [parseCode] are those
      of treeSitterManager.ts ([parseCode] gives no node when it fails);
    - [numberFloor] and [parseFloatFloor] are the numeric conversions the
      two walkers use. *)
Variable extnameLower : string -> string.
Variable test : Heuristic -> string -> bool.
Variable scan : string -> string -> Scan.
Variable isTreeSitterReady : bool.
Variable isGrammarAvailable : string -> bool.
Variable parseCode : string -> string -> option SyntaxNode.
Variable numberFloor : string -> option Z.
Variable parseFloatFloor : string -> option Z.

(** [detectLanguage(filePath, code)]. *)
Definition detectLanguage (filePath : option string) (code : string)
  : string :=
  match (if truthy filePath
         then EXT_MAP (extnameLower (default "" filePath)) else None) with
  | Some lang => lang
  | None =>
      if negb (code == "") then
        if test PYTHON_DEF code && test COLON_AT_EOL code then "python"
        else if test JAVA_PUBLIC_CLASS code then "java"
        else if test INCLUDE code && test PRINTF code then "c"
        else if test INCLUDE code && test COUT_OR_STD code then "cpp"
        else if test TS_DECLARATION code && test TS_ANNOTATION code then
          "typescript"
        else if test JS_FUNCTION code then "javascript"
        else "python"
      else "python"
  end.

(** [getTreeSitterGrammarName(language)]: [grammarMap[language] || language]. *)
Definition getTreeSitterGrammarName (language : string) : string :=
  if one_of ["python"; "java"; "c"; "cpp"; "javascript"; "typescript"]
            language
  then language else language.

(* =================================================================== *)
(** ** regexAnalyzer.ts, index.ts                                       *)
(* =================================================================== *)

(** [new RegexAnalyzer(language).analyze(code, filePath)]: the three
    opening assumption lines, then the scanner. *)
Definition RegexAnalyzer_analyze (language code : string)
    (filePath : option string) : AnalysisResult :=
  let result :=
    AnalysisResult.new language (if truthy filePath then filePath else None) in
  let result :=
    AnalysisResult.log result
      ["Regex-based analysis (tree-sitter unavailable) for " +:+ language;
       energy_assumption; carbon_assumption] in
  let scanned := scan language code in
  AnalysisResult.extend result (scanFunctions scanned) (scanGlobal scanned)
                        (scanLines scanned).

Definition undetected_assumption : string :=
  "Language could not be detected — no analysis performed".

(** The result both entry points return when [!language]. *)
Definition undetected (filePath : option string) : AnalysisResult :=
  AnalysisResult.log
    (AnalysisResult.new "unknown" (if truthy filePath then filePath else None))
    [undetected_assumption].

(** [languageOverride || detectLanguage(filePath, code)]. *)
Definition chosenLanguage (code : string) (filePath languageOverride : option string)
  : string :=
  if truthy languageOverride then default "" languageOverride
  else detectLanguage filePath code.

(** [estimateCarbonFootprintSync(code, filePath, languageOverride)]. *)
Definition estimateCarbonFootprintSync (code : string)
    (filePath languageOverride : option string) : AnalysisResult :=
  let language := chosenLanguage code filePath languageOverride in
  if language == "" then undetected filePath
  else RegexAnalyzer_analyze language code filePath.

(** [estimateCarbonFootprint(code, filePath, languageOverride)], once the
    awaited parse has settled. *)
Definition estimateCarbonFootprint (code : string)
    (filePath languageOverride : option string) : AnalysisResult :=
  let language := chosenLanguage code filePath languageOverride in
  if language == "" then undetected filePath
  else
    let grammarName := getTreeSitterGrammarName language in
    match (if isTreeSitterReady && negb (grammarName == "")
              && isGrammarAvailable grammarName
           then parseCode code grammarName else None) with
    | Some rootNode =>
        if language == "python" then
          PythonTreeSitterAnalyzer.analyze numberFloor parseFloatFloor
            rootNode filePath
        else
          CFamilyTreeSitterAnalyzer.analyze numberFloor language
            rootNode filePath
    | None => RegexAnalyzer_analyze language code filePath
    end.

End Orchestrator.


(* ===================================================================== *)
(** ** treeSitterManager.ts: the parser cache                             *)
(* ===================================================================== *)

(** Each exported function is one transition of the module's variables,
    run to completion: the calls of a client are taken one after the
    other, none started while another awaits. *)
Module TreeSitterManager.
Section Manager.

(** The parsers of web-tree-sitter are opaque values. *)
Variable Parser : Type.

(** The module's variables: [parserCache], [initialized], [extensionPath]. *)
Record State : Type := mkState {
  parserCache : gmap string Parser;
  initialized : bool;
  extensionPath : string;
}.

(** What the module calls outside itself, as it answers at the time of one
    call:
    - [join parts] is [path.join(...parts)];
    - [existsSync p] is [fs.existsSync(p)];
    - [initRuntime wasm] tells whether [Parser.init] resolves, called with
      [locateFile] answering [wasm], or without options;
    - [loadGrammar wasmFile] is the parser that [Parser.Language.load],
      [new Parser()] and [setLanguage] build, or nothing when one of them
      throws;
    - [parse parser code] is [parser.parse(code).rootNode], or nothing
      when that throws. *)
Record Host : Type := mkHost {
  join : list string -> string;
  existsSync : string -> bool;
  initRuntime : option string -> bool;
  loadGrammar : string -> option Parser;
  parse : Parser -> string -> option SyntaxNode;
}.

(** The state when the module is loaded. *)
Definition initial : State :=
  {| parserCache := ∅; initialized := false; extensionPath := "" |}.

(** [initializeTreeSitter(extPath)]: the new state, and whether the promise
    resolves (it rejects when [Parser.init] does). *)
Definition initializeTreeSitter (h : Host) (st : State) (extPath : string)
  : State * bool :=
  if initialized st then (st, true)
  else
    let st := {| parserCache := parserCache st;
                 initialized := initialized st;
                 extensionPath := extPath |} in
    let wasmPath := join h [extPath; "parsers"; "tree-sitter.wasm"] in
    let resolved :=
      if existsSync h wasmPath then initRuntime h (Some wasmPath)
      else initRuntime h None in
    if resolved then
      ({| parserCache := parserCache st; initialized := true;
          extensionPath := extensionPath st |}, true)
    else (st, false).

(** [findGrammarWasm(grammarName)]. *)
Definition findGrammarWasm (h : Host) (st : State) (grammarName : string)
  : option string :=
  if extensionPath st == "" then None
  else
    List.find (existsSync h)
      [join h [extensionPath st; "parsers";
               "tree-sitter-" +:+ grammarName +:+ ".wasm"];
       join h [extensionPath st; "parsers"; grammarName +:+ ".wasm"];
       join h [extensionPath st; "node_modules"; "tree-sitter-wasms"; "out";
               "tree-sitter-" +:+ grammarName +:+ ".wasm"]].

(** [getParser(grammarName)]: the parser, if any, and the new state. *)
Definition getParser (h : Host) (st : State) (grammarName : string)
  : option Parser * State :=
  if negb (initialized st) then (None, st)
  else
    match parserCache st !! grammarName with
    | Some parser => (Some parser, st)
    | None =>
        match findGrammarWasm h st grammarName with
        | None => (None, st)
        | Some wasmFile =>
            match loadGrammar h wasmFile with
            | Some parser =>
                (Some parser,
                 {| parserCache := <[grammarName := parser]> (parserCache st);
                    initialized := initialized st;
                    extensionPath := extensionPath st |})
            | None => (None, st)
            end
        end
    end.

Definition isTreeSitterReady (st : State) : bool := initialized st.

Definition isGrammarAvailable (h : Host) (st : State) (grammarName : string)
  : bool :=
  bool_decide (is_Some (parserCache st !! grammarName))
  || bool_decide (is_Some (findGrammarWasm h st grammarName)).

(** [parseCode(code, grammarName)]. *)
Definition parseCode (h : Host) (st : State) (code grammarName : string)
  : option SyntaxNode * State :=
  match getParser h st grammarName with
  | (Some parser, st) => (parse h parser code, st)
  | (None, st) => (None, st)
  end.

(** [disposeTreeSitter()]. *)
Definition disposeTreeSitter (st : State) : State :=
  {| parserCache := ∅; initialized := false;
     extensionPath := extensionPath st |}.

End Manager.

Arguments mkState {Parser}.
Arguments parserCache {Parser}.
Arguments initialized {Parser}.
Arguments extensionPath {Parser}.
Arguments mkHost {Parser}.
Arguments join {Parser}.
Arguments existsSync {Parser}.
Arguments initRuntime {Parser}.
Arguments loadGrammar {Parser}.
Arguments parse {Parser}.
Arguments initial {Parser}.
Arguments initializeTreeSitter {Parser}.
Arguments findGrammarWasm {Parser}.
Arguments getParser {Parser}.
Arguments isTreeSitterReady {Parser}.
Arguments isGrammarAvailable {Parser}.
Arguments parseCode {Parser}.
Arguments disposeTreeSitter {Parser}.

End TreeSitterManager.

(* ===================================================================== *)
(** ** regexAnalyzer.ts: the methods that scan characters                 *)
(* ===================================================================== *)

(** Strings are sequences of characters; the methods below look for ASCII
    delimiters only, and cut the text where they find them. *)
Module RegexAnalyzer.

(** [s.substring(n)]. *)
Definition substring_from (n : nat) (s : string) : string :=
  String.substring n (String.length s - n) s.

(** [s.split(c)] for a separator of one character. *)
Fixpoint split (c : ascii) (s : string) : list string :=
  match s with
  | EmptyString => [EmptyString]
  | String a s' =>
      if Ascii.eqb a c then EmptyString :: split c s'
      else match split c s' with
           | line :: lines => String a line :: lines
           | [] => [String a EmptyString]
           end
  end.

(** The line feed, and the two docstring delimiters. *)
Definition NEWLINE : ascii := "010"%char.
Definition TRIPLE_DOUBLE_QUOTE : string :=
  String "034"%char (String "034"%char (String "034"%char EmptyString)).
Definition TRIPLE_SINGLE_QUOTE : string := "'''".

(** The loop variables [inDocstring] and [docDelim] of
    [removePythonComments]. *)
Record DocState : Type := mkDocState {
  inDocstring : bool;
  docDelim : string;
}.

(** One round of the inner loop over the two delimiters, on
    [(processedLine, state)]. *)
Definition stripDocstring (delim : string) (st : string * DocState)
  : string * DocState :=
  let processedLine := st.1 in
  match String.index 0 delim processedLine with
  | Some startIdx =>
      match String.index (startIdx + 3) delim processedLine with
      | Some endIdx =>
          (String.substring 0 startIdx processedLine
           +:+ substring_from (endIdx + 3) processedLine, st.2)
      | None =>
          (String.substring 0 startIdx processedLine,
           {| inDocstring := true; docDelim := delim |})
      end
  | None => st
  end.

(** The body of the loop over the lines: the line pushed onto [cleaned],
    and the loop variables after it. *)
Definition cleanLine (state : DocState) (line : string) : string * DocState :=
  let resumed :=
    if inDocstring state then
      match String.index 0 (docDelim state) line with
      | Some endIdx =>
          Some (substring_from (endIdx + 3) line,
                {| inDocstring := false; docDelim := docDelim state |})
      | None => None
      end
    else Some (line, state) in
  match resumed with
  | None => (EmptyString, state)
  | Some st =>
      let st := stripDocstring TRIPLE_SINGLE_QUOTE
                  (stripDocstring TRIPLE_DOUBLE_QUOTE st) in
      let processedLine := st.1 in
      (match String.index 0 "#" processedLine with
       | Some hashIdx => String.substring 0 hashIdx processedLine
       | None => processedLine
       end, st.2)
  end.

(** [cleaned] and the loop variables after all the lines. *)
Definition cleanLines (lines : list string) : list string * DocState :=
  fold_left
    (fun acc line =>
       let cleaned := cleanLine acc.2 line in
       (acc.1 ++ [cleaned.1], cleaned.2))
    lines ([], {| inDocstring := false; docDelim := EmptyString |}).

(** [removePythonComments(code)]. *)
Definition removePythonComments (code : string) : string :=
  String.concat (String NEWLINE EmptyString)
                (cleanLines (split NEWLINE code)).1.

(** The loop of [extractBraceBlock] at index [i], over the rest of the
    code from there: the index of the brace that brings the depth to 0. *)
Fixpoint closingBrace (rest : string) (i : nat) (depth : Z) : option nat :=
  match rest with
  | EmptyString => None
  | String c rest' =>
      if Ascii.eqb c "{" then closingBrace rest' (S i) (depth + 1)
      else if Ascii.eqb c "}" then
        if depth - 1 =? 0 then Some i
        else closingBrace rest' (S i) (depth - 1)
      else closingBrace rest' (S i) depth
  end.

(** [extractBraceBlock(code, startIdx)]. *)
Definition extractBraceBlock (code : string) (startIdx : nat) : string :=
  match closingBrace (substring_from startIdx code) startIdx 0 with
  | Some i => String.substring (startIdx + 1) (i - (startIdx + 1)) code
  | None => substring_from (startIdx + 1) code
  end.

End RegexAnalyzer.
(* ===================================================================== *)
(** ** Notions used to state the properties                               *)
(* ===================================================================== *)

(** Every key of a counter built by the constructor and the three methods
    is present. *)
Definition full (c : OperationCount) : Prop := forall k, is_Some (c !! k).

(** The weighted sum over the twelve kinds, written out. *)
Definition weighted_sum (f : OpType -> Z) : Z :=
  fold_right (fun k acc => f k * OPERATION_WEIGHTS k + acc) 0 ALL_OP_TYPES.

(** The sum of a list of integers. *)
Definition sumZ (l : list Z) : Z := fold_right Z.add 0 l.

(** The comparator of [hotspots] for a key, and the order it sorts into. *)
Definition by_key_desc {A} (key : A -> Z) (a b : A) : Z := key b - key a.
Definition key_ge {A} (key : A -> Z) (a b : A) : Prop := key b <= key a.

(** The size of a tree, the measure of the inductions on nodes. *)
Fixpoint node_size (n : SyntaxNode) : nat :=
  S (list_sum (map node_size (children n))).

(** [a] is [c] times [b], kind by kind. *)
Definition lin (c : Z) (a b : OperationCount) : Prop :=
  forall k, count_of a k = c * count_of b k.

(** The same for a counter with its lines, which do not depend on the
    multiplier. *)
Definition linC (c : Z) (a b : Counted) : Prop :=
  lin c a.1 b.1 /\ a.2 = b.2.

(** *** Loops and loop nests *)

(** A loop nest around a statement, outermost loop first: each frame is a
    loop with the statements of its body that come before and after the
    next inner loop (or, for the innermost frame, the statement). *)
Record Frame : Type := mkFrame {
  frame_loop : SyntaxNode;
  frame_before : list SyntaxNode;
  frame_after : list SyntaxNode;
}.

Definition outermost (frames : list Frame) (stmt : SyntaxNode) : SyntaxNode :=
  match frames with
  | [] => stmt
  | f :: _ => frame_loop f
  end.

Section LoopNest.
(** A walker as the nest sees it: the counter of a node at a multiplier,
    which nodes are loops, their estimated iteration count, the statements
    of their body, and what the loop itself adds besides its body. *)
Variable walk : SyntaxNode -> Z -> OperationCount.
Variable isLoop : SyntaxNode -> bool.
Variable iterations : SyntaxNode -> Z.
Variable body : SyntaxNode -> list SyntaxNode.
Variable header : SyntaxNode -> Z -> OpType -> Z.

Fixpoint nested (frames : list Frame) (stmt : SyntaxNode) : Prop :=
  match frames with
  | [] => True
  | f :: rest =>
      isLoop (frame_loop f) = true
      /\ body (frame_loop f)
         = frame_before f ++ outermost rest stmt :: frame_after f
      /\ nested rest stmt
  end.

(** The product of the iteration counts of the loops of the nest. *)
Definition iterations_product (frames : list Frame) : Z :=
  fold_right (fun f acc => iterations (frame_loop f) * acc) 1 frames.

(** What the nest counts apart from the statement: the headers of its
    loops and the other statements of their bodies, each at the multiplier
    of its loop. *)
Fixpoint nest_overhead (frames : list Frame) (m : Z) (k : OpType) : Z :=
  match frames with
  | [] => 0
  | f :: rest =>
      let inner := m * iterations (frame_loop f) in
      header (frame_loop f) m k
      + sumZ (map (fun s => count_of (walk s inner) k)
                  (frame_before f ++ frame_after f))
      + nest_overhead rest inner k
  end.

End LoopNest.

(** [k] is COMPARISON: the loop's own [ops.add(OpType.COMPARISON, n)]. *)
Definition comparisons (n : Z) (k : OpType) : Z :=
  if decide (k = COMPARISON) then n else 0.

(** The count a possibly absent node contributes. *)
Definition count_opt (o : option OperationCount) (k : OpType) : Z :=
  match o with Some c => count_of c k | None => 0 end.

Module PythonLoops.
Section Loops.
Variable numberFloor parseFloatFloor : string -> option Z.
Variable variableConstants : gmap string Z.

Local Abbreviation analyzeNode :=
  (PythonTreeSitterAnalyzer.analyzeNode numberFloor parseFloatFloor
     variableConstants).
Local Abbreviation analyzeExpression :=
  (PythonTreeSitterAnalyzer.analyzeExpression numberFloor parseFloatFloor
     variableConstants).

Definition walk (node : SyntaxNode) (m : Z) : OperationCount :=
  (analyzeNode node m).1.

Definition isLoop (node : SyntaxNode) : bool :=
  one_of ["for_statement"; "while_statement"] (type node).

(** The estimate the walker makes for a [for] or a [while] statement. *)
Definition iterations (node : SyntaxNode) : Z :=
  if type node == "for_statement" then
    match childForFieldName node "right" with
    | Some iterable =>
        PythonTreeSitterAnalyzer.estimateForIterations
          numberFloor parseFloatFloor variableConstants iterable node
    | None => DEFAULT_LOOP_ITERATIONS
    end
  else
    match childForFieldName node "condition" with
    | Some condition =>
        PythonTreeSitterAnalyzer.estimateWhileIterations
          numberFloor parseFloatFloor variableConstants condition node
    | None => DEFAULT_LOOP_ITERATIONS
    end.

(** The statements of the loop body. *)
Definition body (node : SyntaxNode) : list SyntaxNode :=
  match childForFieldName node "body" with
  | Some block => namedChildren block
  | None => []
  end.

(** The statements of the loop's [else] clause. *)
Definition else_body (node : SyntaxNode) : list SyntaxNode :=
  match PythonTreeSitterAnalyzer.findChildByType node "else_clause" with
  | Some alt =>
      match or_else (childForFieldName alt "body")
                    (PythonTreeSitterAnalyzer.findBlockChild alt) with
      | Some block => namedChildren block
      | None => []
      end
  | None => []
  end.

(** What a loop counts at its own multiplier [m] besides the header
    comparisons: the condition of a [while], and the [else] clause. *)
Definition extras (node : SyntaxNode) (m : Z) (k : OpType) : Z :=
  (if type node == "while_statement" then
     count_opt (option_map (fun c => analyzeExpression c m)
                           (childForFieldName node "condition")) k
   else 0)
  + sumZ (map (fun s => count_of (walk s m) k) (else_body node)).

Definition header (node : SyntaxNode) (m : Z) (k : OpType) : Z :=
  comparisons (m * iterations node) k + extras node m k.

End Loops.
End PythonLoops.

Module CFamilyLoops.
Section Loops.
Variable numberFloor : string -> option Z.
Variable language : string.
Variable variableConstants : gmap string Z.

Local Abbreviation analyzeNode :=
  (CFamilyTreeSitterAnalyzer.analyzeNode numberFloor language
     variableConstants).
Local Abbreviation analyzeExpression :=
  (CFamilyTreeSitterAnalyzer.analyzeExpression numberFloor language
     variableConstants).

Definition walk (node : SyntaxNode) (m : Z) : OperationCount :=
  (analyzeNode node m).1.

Definition isLoop (node : SyntaxNode) : bool :=
  one_of ["for_statement"; "enhanced_for_statement"; "for_in_statement";
          "while_statement"; "do_statement"] (type node).

Definition iterations (node : SyntaxNode) : Z :=
  if type node == "for_statement" then
    CFamilyTreeSitterAnalyzer.estimateForIterations
      numberFloor variableConstants node
  else if type node == "while_statement" then
    CFamilyTreeSitterAnalyzer.estimateWhileIterations
      numberFloor variableConstants node
  else DEFAULT_LOOP_ITERATIONS.

Definition body (node : SyntaxNode) : list SyntaxNode :=
  match CFamilyTreeSitterAnalyzer.getStatementBody node with
  | Some block => namedChildren block
  | None => []
  end.

(** What a loop counts besides the header comparisons: the initialiser and
    the condition of a [for] at [m], its update at [m] times the iteration
    count; the condition of a [while] at [m]. *)
Definition extras (node : SyntaxNode) (m : Z) (k : OpType) : Z :=
  let expr_at (m : Z) (f : string) :=
    count_opt (option_map (fun c => (analyzeExpression c m).1)
                          (childForFieldName node f)) k in
  if type node == "for_statement" then
    count_opt (option_map (fun c => walk c m)
                 (or_else (childForFieldName node "initializer")
                          (childForFieldName node "init"))) k
    + expr_at m "condition"
    + expr_at (m * iterations node) "update"
  else if type node == "while_statement" then expr_at m "condition"
  else 0.

Definition header (node : SyntaxNode) (m : Z) (k : OpType) : Z :=
  comparisons (m * iterations node) k + extras node m k.

End Loops.
End CFamilyLoops.

(** *** Recursion *)

(** [d] is [n] or one of the nodes below it along named children: the
    nodes the recursion detection visits from [n]. *)
Inductive within : SyntaxNode -> SyntaxNode -> Prop :=
  | within_self n : within n n
  | within_child d c n :
      In c (namedChildren n) -> within d c -> within d n.

(** A call node whose short name is [fn], for each walker. *)
Definition py_calls (fn : string) (call : SyntaxNode) : Prop :=
  type call = "call" /\ PythonTreeSitterAnalyzer.getCallName call = Some fn.

Definition cfamily_calls (fn : string) (call : SyntaxNode) : Prop :=
  CFamilyTreeSitterAnalyzer.isCallNode call = true
  /\ CFamilyTreeSitterAnalyzer.getCallName call = Some fn.

(** The statements of a function body, for each walker. *)
Definition py_body_statements (node : SyntaxNode) : list SyntaxNode :=
  match childForFieldName node "body" with
  | Some body => namedChildren body
  | None => []
  end.

Definition cfamily_body_statements (node : SyntaxNode) : list SyntaxNode :=
  match CFamilyTreeSitterAnalyzer.getFunctionBody node with
  | Some body => namedChildren body
  | None => []
  end.

(** *** While loops *)

(** [stmt] is [x += S] with [S] resolving to a positive constant: the
    statement the body scan of the Python [while] estimate looks for. *)
Definition is_increment (numberFloor parseFloatFloor : string -> option Z)
    (variableConstants : gmap string Z) (x : string) (S : Z)
    (stmt : SyntaxNode) : Prop :=
  type stmt = "augmented_assignment"
  /\ (exists l, childForFieldName stmt "left" = Some l /\ text l = x)
  /\ PythonTreeSitterAnalyzer.getAugmentedOperator stmt = "+="
  /\ (exists r, childForFieldName stmt "right" = Some r
                /\ PythonTreeSitterAnalyzer.resolveConstantExpr
                     numberFloor parseFloatFloor variableConstants r = Some S)
  /\ 0 < S.

(** *** Definition order *)

(** The function definitions a walker analyses, in document order, each
    with the name of its class: those of a class body, those of one
    top-level node, and those of the whole tree. *)
Definition py_class_definitions (classNode : SyntaxNode)
  : list (SyntaxNode * option string) :=
  let className :=
    Some (text_or (childForFieldName classNode "name") "UnknownClass") in
  match childForFieldName classNode "body" with
  | None => []
  | Some body =>
      flat_map
        (fun item =>
           if type item == "function_definition" then [(item, className)]
           else if type item == "decorated_definition" then
             match PythonTreeSitterAnalyzer.findChildByType
                     item "function_definition" with
             | Some innerDef => [(innerDef, className)]
             | None => []
             end
           else [])
        (namedChildren body)
  end.

Definition py_definitions_of (child : SyntaxNode)
  : list (SyntaxNode * option string) :=
  if type child == "function_definition" then [(child, None)]
  else if type child == "decorated_definition" then
    match List.find
            (fun c => isNamed c
                      && ((type c == "function_definition")
                          || (type c == "class_definition")))
            (children child) with
    | Some innerDef =>
        if type innerDef == "function_definition" then [(innerDef, None)]
        else py_class_definitions innerDef
    | None => []
    end
  else if type child == "class_definition" then py_class_definitions child
  else [].

Definition py_definitions (rootNode : SyntaxNode)
  : list (SyntaxNode * option string) :=
  flat_map py_definitions_of (namedChildren rootNode).

Definition cfamily_class_definitions (classNode : SyntaxNode)
  : list (SyntaxNode * option string) :=
  let className :=
    Some (text_or (childForFieldName classNode "name") "UnknownClass") in
  match or_else (childForFieldName classNode "body")
                (List.find
                   (fun c => isNamed c
                             && one_of ["class_body"; "declaration_list";
                                        "field_declaration_list"] (type c))
                   (children classNode)) with
  | None => []
  | Some body =>
      map (fun item => (item, className))
          (List.filter CFamilyTreeSitterAnalyzer.isFunctionDef
                       (namedChildren body))
  end.

Definition cfamily_definitions_of (child : SyntaxNode)
  : list (SyntaxNode * option string) :=
  if CFamilyTreeSitterAnalyzer.isFunctionDef child then [(child, None)]
  else if CFamilyTreeSitterAnalyzer.isClassDef child then
    cfamily_class_definitions child
  else [].

Definition cfamily_definitions (rootNode : SyntaxNode)
  : list (SyntaxNode * option string) :=
  flat_map cfamily_definitions_of (namedChildren rootNode).

(** *** Language detection *)

(** One of the six content heuristics of [detectLanguage] matches the text:
    the conditions of its [if] chain, which is entered for a non-empty text
    only. *)
Definition heuristic_matches (test : Heuristic -> string -> bool)
    (code : string) : bool :=
  negb (code == "")
  && (test PYTHON_DEF code && test COLON_AT_EOL code
      || test JAVA_PUBLIC_CLASS code
      || test INCLUDE code && test PRINTF code
      || test INCLUDE code && test COUT_OR_STD code
      || test TS_DECLARATION code && test TS_ANNOTATION code
      || test JS_FUNCTION code).


(** *** Counters and results *)

(** The plain sum over the twelve kinds. *)
Definition raw_sum (f : OpType -> Z) : Z := sumZ (map f ALL_OP_TYPES).

(** No count of the counter is negative. *)
Definition nonneg (c : OperationCount) : Prop := forall k, 0 <= count_of c k.

Definition nonnegC (st : Counted) : Prop := nonneg st.1.

(** No count of the result is negative: the global counter and the
    counters of the functions. *)
Definition result_nonneg (r : AnalysisResult) : Prop :=
  nonneg (globalOperations r)
  /\ (forall f, In f (functions r) -> nonneg (operations f)).

(** *** Entry points *)

(** The values of [SupportedLanguage]. *)
Definition SUPPORTED_LANGUAGES : list string :=
  ["python"; "java"; "c"; "cpp"; "javascript"; "typescript"].

(** The path a result records: [filePath || null]. *)
Definition recorded_path (filePath : option string) : option string :=
  if truthy filePath then filePath else None.

(** *** Counting loops *)

(** The values a counting loop visits: from [start], moving by [step],
    while the value has not reached [stop]; they are the elements of
    Python's [range(start, stop, step)].  [fuel] bounds their number. *)
Fixpoint range_from (fuel : nat) (start stop step : Z) : list Z :=
  match fuel with
  | O => []
  | S fuel =>
      if (0 <? step) && (start <? stop) || (step <? 0) && (stop <? start)
      then start :: range_from fuel (start + step) stop step
      else []
  end.

Definition range_values (start stop step : Z) : list Z :=
  range_from (Z.to_nat (Z.abs (stop - start))) start stop step.

(** The start value the C-family for-loop estimate uses: the constant of
    the initializer, or 0 when there is none or it does not resolve. *)
Definition cfamily_for_start (numberFloor : string -> option Z)
    (vc : gmap string Z) (forNode : SyntaxNode) : Z :=
  match or_else (childForFieldName forNode "initializer")
                (childForFieldName forNode "init") with
  | Some init =>
      default 0 (CFamilyTreeSitterAnalyzer.extractInitValue numberFloor vc init)
  | None => 0
  end.

(** [p] holds of the node and of every node below it. *)
Fixpoint every_node (p : SyntaxNode -> bool) (n : SyntaxNode) : bool :=
  p n && forallb (every_node p) (children n).

(** *** Loop depth *)

(** A path from a node down its named children, with the number of loops
    on it below the node. *)
Inductive loop_path (isLoop : SyntaxNode -> bool) : SyntaxNode -> Z -> Prop :=
  | loop_path_here n : loop_path isLoop n 0
  | loop_path_child n c j :
      In c (namedChildren n) -> loop_path isLoop c j ->
      loop_path isLoop n ((if isLoop c then 1 else 0) + j).

(** *** Calls, constants and global statements *)

(** A call node within [node] whose short name is the non-empty [name]. *)
Definition py_calls_within (node : SyntaxNode) (name : string) : Prop :=
  name <> "" /\ exists call, within call node /\ py_calls name call.

(** [a] is an assignment whose target is the identifier [x]. *)
Definition py_assigns (x : string) (a : SyntaxNode) : Prop :=
  type a = "assignment"
  /\ exists l, childForFieldName a "left" = Some l
               /\ type l = "identifier" /\ text l = x.

(** The table of the Python walker after the node's own assignment, before
    its children are visited. *)
Definition py_record_assignment (numberFloor parseFloatFloor : string -> option Z)
    (node : SyntaxNode) (vc : gmap string Z) : gmap string Z :=
  if type node == "assignment" then
    match childForFieldName node "left", childForFieldName node "right" with
    | Some leftNode, Some rightNode =>
        if type leftNode == "identifier" then
          match PythonTreeSitterAnalyzer.resolveConstantExpr
                  numberFloor parseFloatFloor vc rightNode with
          | Some val => <[text leftNode := val]> vc
          | None => vc
          end
        else vc
    | _, _ => vc
    end
  else vc.

(** The top-level nodes a walker counts into [globalOperations]: those
    that are not definitions. *)
Definition py_global_statements (rootNode : SyntaxNode) : list SyntaxNode :=
  List.filter
    (fun child =>
       negb (one_of ["function_definition"; "decorated_definition";
                     "class_definition"] (type child)))
    (namedChildren rootNode).

Definition cfamily_global_statements (rootNode : SyntaxNode)
  : list SyntaxNode :=
  List.filter
    (fun child => negb (CFamilyTreeSitterAnalyzer.isFunctionDef child
                        || CFamilyTreeSitterAnalyzer.isClassDef child))
    (namedChildren rootNode).

(** *** Characters and braces *)

(** The character [c] occurs in [s]. *)
Fixpoint occurs (c : ascii) (s : string) : bool :=
  match s with
  | EmptyString => false
  | String a s' => Ascii.eqb a c || occurs c s'
  end.

(** The braces of [s] nest properly, read at depth [d]: no brace closes
    below depth 0; the result is the depth at the end. *)
Fixpoint nesting (s : string) (d : Z) : option Z :=
  match s with
  | EmptyString => Some d
  | String c s' =>
      if Ascii.eqb c "{" then nesting s' (d + 1)
      else if Ascii.eqb c "}" then
        if d <=? 0 then None else nesting s' (d - 1)
      else nesting s' d
  end.
(* ===================================================================== *)
(** ** Sample inputs                                                      *)
(* ===================================================================== *)

(** Builders for sample trees: a named node, a named leaf with its text,
    an anonymous token, and a child placed under a field. *)
Definition node (ty : string) (kids : list SyntaxNode) : SyntaxNode :=
  {| type := ty; text := ""; isNamed := true; startRow := 0;
     fieldName := None; children := kids |}.

Definition leaf (ty txt : string) : SyntaxNode :=
  {| type := ty; text := txt; isNamed := true; startRow := 0;
     fieldName := None; children := [] |}.

Definition token (ty : string) : SyntaxNode :=
  {| type := ty; text := ty; isNamed := false; startRow := 0;
     fieldName := None; children := [] |}.

Definition under (f : string) (n : SyntaxNode) : SyntaxNode :=
  {| type := type n; text := text n; isNamed := isNamed n;
     startRow := startRow n; fieldName := Some f; children := children n |}.

Definition at_row (row : Z) (n : SyntaxNode) : SyntaxNode :=
  {| type := type n; text := text n; isNamed := isNamed n;
     startRow := row; fieldName := fieldName n; children := children n |}.

(** [Math.floor(Number(s))] on strings of decimal digits; on other strings
    this sample conversion gives NaN. *)
Definition digit_value (c : ascii) : option Z :=
  let n := Z.of_nat (nat_of_ascii c) - 48 in
  if (0 <=? n) && (n <=? 9) then Some n else None.

Fixpoint decimal_from (acc : Z) (s : string) : option Z :=
  match s with
  | EmptyString => Some acc
  | String c s' =>
      match digit_value c with
      | Some d => decimal_from (10 * acc + d) s'
      | None => None
      end
  end.

Definition decimalFloor (s : string) : option Z :=
  match s with
  | EmptyString => None
  | _ => decimal_from 0 s
  end.

(** Python: a call [name(args)] and the statement made of it. *)
Definition py_call (name : string) (args : list SyntaxNode) : SyntaxNode :=
  node "call" [under "function" (leaf "identifier" name);
               under "arguments" (node "argument_list" args)].

Definition py_for (var : string) (iterable : SyntaxNode)
    (body : list SyntaxNode) : SyntaxNode :=
  node "for_statement"
    [token "for"; under "left" (leaf "identifier" var); token "in";
     under "right" iterable; token ":"; under "body" (node "block" body)].

Definition py_def (name : string) (body : list SyntaxNode) : SyntaxNode :=
  node "function_definition"
    [token "def"; under "name" (leaf "identifier" name);
     under "parameters" (node "parameters" []); token ":";
     under "body" (node "block" body)].

Definition py_print (arg : string) : SyntaxNode :=
  node "expression_statement" [py_call "print" [leaf "identifier" arg]].

(** [def h(): for i in range(4): for j in range(5): print(j)]. *)
Definition sample_print : SyntaxNode := py_print "j".

Definition sample_inner_for : SyntaxNode :=
  py_for "j" (py_call "range" [leaf "integer" "5"]) [sample_print].

Definition sample_outer_for : SyntaxNode :=
  py_for "i" (py_call "range" [leaf "integer" "4"]) [sample_inner_for].

Definition sample_nested_loops : SyntaxNode :=
  node "module" [py_def "h" [sample_outer_for]].

Definition sample_frames : list Frame :=
  [mkFrame sample_outer_for [] []; mkFrame sample_inner_for [] []].

(** [def fib(n): if n < 2: return n; return fib(n-1) + fib(n-2)]. *)
Definition py_binary (op : string) (l r : SyntaxNode) : SyntaxNode :=
  node "binary_operator"
    [under "left" l; under "operator" (token op); under "right" r].

Definition sample_fib_call : SyntaxNode :=
  under "left"
    (py_call "fib"
       [py_binary "-" (leaf "identifier" "n") (leaf "integer" "1")]).

Definition sample_fib_return : SyntaxNode :=
  node "return_statement"
    [node "binary_operator"
       [sample_fib_call; under "operator" (token "+");
        under "right"
          (py_call "fib"
             [py_binary "-" (leaf "identifier" "n") (leaf "integer" "2")])]].

Definition sample_fib_body : SyntaxNode :=
  under "body"
    (node "block"
       [node "if_statement"
          [token "if";
           under "condition"
             (node "comparison_operator"
                [leaf "identifier" "n"; token "<"; leaf "integer" "2"]);
           token ":";
           under "consequence"
             (node "block"
                [node "return_statement" [leaf "identifier" "n"]])];
        sample_fib_return]).

Definition sample_fib : SyntaxNode :=
  node "function_definition"
    [token "def"; under "name" (leaf "identifier" "fib");
     under "parameters" (node "parameters" [leaf "identifier" "n"]);
     token ":"; sample_fib_body].

(** [while i < 10: i += 2], as the Python grammar gives it: the augmented
    assignment is the child of an expression statement of the body. *)
Definition sample_while_variable : SyntaxNode := leaf "identifier" "i".
Definition sample_while_bound : SyntaxNode := leaf "integer" "10".

Definition sample_while_condition : SyntaxNode :=
  under "condition"
    (node "comparison_operator"
       [sample_while_variable; token "<"; sample_while_bound]).

Definition sample_increment : SyntaxNode :=
  node "augmented_assignment"
    [under "left" (leaf "identifier" "i"); token "+=";
     under "right" (leaf "integer" "2")].

Definition sample_while : SyntaxNode :=
  node "while_statement"
    [token "while"; sample_while_condition; token ":";
     under "body"
       (node "block" [node "expression_statement" [sample_increment]])].

(** C: [int f(int n) { return f(n - 1); }], and the same function
    returning a pointer, [int *f(int n) { return f(n - 1); }], whose
    declarator is a pointer declarator around the function declarator. *)
Definition c_function_declarator (name : string) : SyntaxNode :=
  node "function_declarator"
    [under "declarator" (leaf "identifier" name);
     under "parameters"
       (node "parameter_list"
          [token "(";
           node "parameter_declaration"
             [under "type" (leaf "primitive_type" "int");
              under "declarator" (leaf "identifier" "n")];
           token ")"])].

Definition c_return_call (name : string) : SyntaxNode :=
  node "return_statement"
    [token "return";
     node "call_expression"
       [under "function" (leaf "identifier" name);
        under "arguments"
          (node "argument_list"
             [token "(";
              node "binary_expression"
                [under "left" (leaf "identifier" "n");
                 under "operator" (token "-");
                 under "right" (leaf "number_literal" "1")];
              token ")"])];
     token ";"].

Definition c_function (declarator : SyntaxNode) (body : list SyntaxNode)
  : SyntaxNode :=
  node "function_definition"
    [under "type" (leaf "primitive_type" "int");
     under "declarator" declarator;
     under "body"
       (node "compound_statement" ([token "{"] ++ body ++ [token "}"]))].

Definition sample_c_recursive : SyntaxNode :=
  c_function (c_function_declarator "f") [c_return_call "f"].

Definition sample_c_pointer_recursive : SyntaxNode :=
  c_function
    (node "pointer_declarator"
       [token "*"; under "declarator" (c_function_declarator "f")])
    [c_return_call "f"].

(** [a ** b], as the Python and the JavaScript grammars give it. *)
Definition sample_py_power : SyntaxNode :=
  py_binary "**" (leaf "identifier" "a") (leaf "identifier" "b").

Definition sample_js_power : SyntaxNode :=
  node "binary_expression"
    [under "left" (leaf "identifier" "a"); under "operator" (token "**");
     under "right" (leaf "identifier" "b")].

(** C: [for (int v = 0; v < bound; v++) body], and [printf("x");]. *)
Definition c_for (v bound : string) (body : SyntaxNode) : SyntaxNode :=
  node "for_statement"
    [token "for"; token "(";
     under "initializer"
       (node "declaration"
          [under "type" (leaf "primitive_type" "int");
           under "declarator"
             (node "init_declarator"
                [under "declarator" (leaf "identifier" v); token "=";
                 under "value" (leaf "number_literal" "0")]);
           token ";"]);
     under "condition"
       (node "binary_expression"
          [under "left" (leaf "identifier" v); under "operator" (token "<");
           under "right" (leaf "number_literal" bound)]);
     token ";";
     under "update"
       (node "update_expression"
          [under "argument" (leaf "identifier" v);
           under "operator" (token "++")]);
     token ")"; under "body" body].

Definition sample_c_printf : SyntaxNode :=
  node "expression_statement"
    [node "call_expression"
       [under "function" (leaf "identifier" "printf");
        under "arguments"
          (node "argument_list" [leaf "string_literal" "x"])];
     token ";"].

(** [for (int i = 0; i < 4; i++) for (int j = 0; j < 5; j++) printf("x");]
    with the two bodies in braces, and without braces. *)
Definition sample_c_braced : SyntaxNode :=
  c_for "i" "4"
    (node "compound_statement"
       [token "{";
        c_for "j" "5"
          (node "compound_statement" [token "{"; sample_c_printf; token "}"]);
        token "}"]).

Definition sample_c_braceless : SyntaxNode :=
  c_for "i" "4" (c_for "j" "5" sample_c_printf).


(** Python: the call [range(2, 11, 3)]. *)
Definition sample_range_call : SyntaxNode :=
  py_call "range" [leaf "integer" "2"; leaf "integer" "11"; leaf "integer" "3"].

(** C: [for (int i = 0; i < 4; i++) printf("x");] and its condition. *)
Definition sample_c_loop : SyntaxNode := c_for "i" "4" sample_c_printf.

Definition sample_c_condition : SyntaxNode :=
  under "condition"
    (node "binary_expression"
       [under "left" (leaf "identifier" "i"); under "operator" (token "<");
        under "right" (leaf "number_literal" "4")]).

(** C: [for (i = 0; i < 10; i += 2) printf("x");]: the C grammar gives
    the update [i += 2] as an [assignment_expression]. *)
Definition sample_c_loop_by_two : SyntaxNode :=
  node "for_statement"
    [token "for"; token "(";
     under "initializer"
       (node "assignment_expression"
          [under "left" (leaf "identifier" "i"); under "operator" (token "=");
           under "right" (leaf "number_literal" "0")]);
     token ";";
     under "condition"
       (node "binary_expression"
          [under "left" (leaf "identifier" "i"); under "operator" (token "<");
           under "right" (leaf "number_literal" "10")]);
     token ";";
     under "update"
       (node "assignment_expression"
          [under "left" (leaf "identifier" "i"); under "operator" (token "+=");
           under "right" (leaf "number_literal" "2")]);
     token ")"; under "body" sample_c_printf].

(** C: [while (i < 10) { printf("x"); }]. *)
Definition sample_c_while : SyntaxNode :=
  node "while_statement"
    [token "while";
     under "condition"
       (node "parenthesized_expression"
          [token "(";
           node "binary_expression"
             [under "left" (leaf "identifier" "i");
              under "operator" (token "<");
              under "right" (leaf "number_literal" "10")];
           token ")"]);
     under "body"
       (node "compound_statement" [token "{"; sample_c_printf; token "}"])].

(** Python: [n = 8] at the top of a module, and the module made of it,
    of the definition of [h] with its two loops, and of [print(j)]. *)
Definition sample_assignment : SyntaxNode :=
  node "expression_statement"
    [node "assignment"
       [under "left" (leaf "identifier" "n"); token "=";
        under "right" (leaf "integer" "8")]].

Definition sample_module : SyntaxNode :=
  node "module" [sample_assignment; py_def "h" [sample_outer_for];
                 sample_print].
(* ===================================================================== *)
(** * Properties                                                          *)
(* ===================================================================== *)

(** ** Counters *)

Lemma count_of_empty (k : OpType) : count_of ∅ k = 0.
Proof. unfold count_of. by rewrite lookup_empty. Qed.

Lemma count_of_insert (c : OperationCount) (i k : OpType) (x : Z) :
  count_of (<[i := x]> c) k = if decide (i = k) then x else count_of c k.
Proof.
  unfold count_of. rewrite lookup_insert. by case_decide.
Qed.

Lemma count_of_None (c : OperationCount) (k : OpType) :
  c !! k = None -> count_of c k = 0.
Proof. unfold count_of. by intros ->. Qed.

Lemma new_lookup (k : OpType) : OperationCount.new !! k = Some 0.
Proof. by destruct k. Qed.

Lemma count_of_new (k : OpType) : count_of OperationCount.new k = 0.
Proof. unfold count_of. by rewrite new_lookup. Qed.

Lemma count_of_add (c : OperationCount) (i k : OpType) (n : Z) :
  count_of (OperationCount.add c i n) k
  = if decide (i = k) then count_of c k + n else count_of c k.
Proof.
  unfold OperationCount.add. rewrite count_of_insert.
  case_decide; by subst.
Qed.

Lemma count_of_merge (a b : OperationCount) (k : OpType) :
  count_of (OperationCount.merge a b) k = count_of a k + count_of b k.
Proof.
  unfold OperationCount.merge. revert k.
  apply (map_fold_weak_ind
           (fun r m => forall k, count_of r k = count_of a k + count_of m k)).
  - intros k. rewrite count_of_empty. lia.
  - intros i x m r Hi IH k. rewrite !count_of_insert.
    case_decide; subst.
    + rewrite IH, (count_of_None m k Hi). lia.
    + apply IH.
Qed.

Lemma count_of_scale (a : OperationCount) (factor : Z) (k : OpType) :
  count_of (OperationCount.scale a factor) k = count_of a k * factor.
Proof.
  unfold OperationCount.scale. revert k.
  apply (map_fold_weak_ind
           (fun r m => forall k, count_of r k = count_of m k * factor)).
  - intros k. by rewrite count_of_new, count_of_empty.
  - intros i x m r Hi IH k. rewrite !count_of_insert.
    case_decide; [done | apply IH].
Qed.


Lemma full_new : full OperationCount.new.
Proof. intros k. rewrite new_lookup. by eexists. Qed.

Lemma full_insert (c : OperationCount) i x : full c -> full (<[i := x]> c).
Proof.
  intros Hc k. rewrite lookup_insert. case_decide; [by eexists | apply Hc].
Qed.

Lemma full_add c i n : full c -> full (OperationCount.add c i n).
Proof. apply full_insert. Qed.

Lemma full_merge a b : full a -> full (OperationCount.merge a b).
Proof.
  intros Ha. unfold OperationCount.merge.
  apply (map_fold_weak_ind (fun r _ => full r)); [done |].
  intros i x m r _ Hr. by apply full_insert.
Qed.

Lemma full_scale a factor : full (OperationCount.scale a factor).
Proof.
  unfold OperationCount.scale.
  apply (map_fold_weak_ind (fun r _ => full r)); [apply full_new |].
  intros i x m r _ Hr. by apply full_insert.
Qed.

(** Two counters with every key present are equal when their counts agree. *)
Lemma full_eq (a b : OperationCount) :
  full a -> full b -> (forall k, count_of a k = count_of b k) -> a = b.
Proof.
  intros Ha Hb Hab. apply map_eq. intros k.
  destruct (Ha k) as [x Hx], (Hb k) as [y Hy].
  specialize (Hab k). unfold count_of in Hab. rewrite Hx, Hy in *.
  simpl in Hab. by subst.
Qed.


Lemma totalWeighted_sum (c : OperationCount) :
  OperationCount.totalWeighted c = weighted_sum (count_of c).
Proof.
  unfold OperationCount.totalWeighted.
  apply (map_fold_weak_ind (fun r m => r = weighted_sum (count_of m))).
  - unfold weighted_sum. simpl. rewrite !count_of_empty. lia.
  - intros i x m r Hi ->. apply count_of_None in Hi.
    unfold weighted_sum. simpl. rewrite !count_of_insert.
    destruct i; simpl; repeat case_decide; try congruence; lia.
Qed.

Lemma weighted_sum_plus (f g : OpType -> Z) :
  weighted_sum (fun k => f k + g k) = weighted_sum f + weighted_sum g.
Proof. unfold weighted_sum. simpl. lia. Qed.

Lemma weighted_sum_ext (f g : OpType -> Z) :
  (forall k, f k = g k) -> weighted_sum f = weighted_sum g.
Proof. intros H. unfold weighted_sum. simpl. by rewrite !H. Qed.

(** C8 (as the code has it).  [add(k, n)] stores the old count plus [n],
    whatever the sign of [n], and leaves the other kinds alone; the result is
    non-negative when the old count and [n] are. *)
Theorem add_is_plain_addition (c : OperationCount) (k : OpType) (n : Z) :
  count_of (OperationCount.add c k n) k = count_of c k + n
  /\ (forall k', k' <> k ->
        count_of (OperationCount.add c k n) k' = count_of c k')
  /\ (0 <= count_of c k -> 0 <= n -> 0 <= count_of (OperationCount.add c k n) k).
Proof.
  rewrite count_of_add. case_decide; [| done].
  split; [done |]. split; [| lia].
  intros k' Hk'. rewrite count_of_add. by case_decide.
Qed.

Lemma add_is_plain_addition_witness :
  0 <= count_of (OperationCount.add OperationCount.new COMPARISON 3) COMPARISON.
Proof.
  apply (add_is_plain_addition OperationCount.new COMPARISON 3); vm_compute;
    discriminate.
Defined.

(** C8 fails as stated: adding -5 to a fresh counter leaves -5. *)
Lemma add_not_saturating :
  ~ (forall (c : OperationCount) (k : OpType) (n : Z),
       0 <= count_of (OperationCount.add c k n) k)
  /\ count_of (OperationCount.add OperationCount.new COMPARISON (-5)) COMPARISON
     = -5.
Proof.
  split; [| reflexivity].
  intros H. specialize (H OperationCount.new COMPARISON (-5)).
  vm_compute in H. by apply H.
Qed.

(** C10.  The weighted total is additive over [merge]. *)
Theorem totalWeighted_merge (a b : OperationCount) :
  OperationCount.totalWeighted (OperationCount.merge a b)
  = OperationCount.totalWeighted a + OperationCount.totalWeighted b.
Proof.
  rewrite !totalWeighted_sum, <- weighted_sum_plus.
  apply weighted_sum_ext, count_of_merge.
Qed.

(** ** Results *)


Lemma count_of_fold_merge {A} (f : A -> OperationCount) (l : list A)
    (init : OperationCount) (k : OpType) :
  count_of (fold_left (fun acc x => OperationCount.merge acc (f x)) l init) k
  = count_of init k + sumZ (map (fun x => count_of (f x) k) l).
Proof.
  revert init. induction l as [| x l IH]; intros init; simpl; [lia |].
  rewrite IH, count_of_merge. lia.
Qed.

Lemma full_fold_merge {A} (f : A -> OperationCount) (l : list A)
    (init : OperationCount) :
  full init ->
  full (fold_left (fun acc x => OperationCount.merge acc (f x)) l init).
Proof.
  revert init. induction l as [| x l IH]; intros init Hinit; simpl; [done |].
  by apply IH, full_merge.
Qed.

(** C2.  Every kind is present in [totalOperations], and its count is the
    global count plus the sum of the functions' counts. *)
Theorem totalOperations_sum_of_parts (r : AnalysisResult) (k : OpType) :
  AnalysisResult.totalOperations r !! k
  = Some (count_of (globalOperations r) k
          + sumZ (map (fun func => count_of (operations func) k) (functions r))).
Proof.
  assert (Hfull : full (AnalysisResult.totalOperations r)).
  { apply full_fold_merge, full_merge, full_new. }
  destruct (Hfull k) as [x Hx]. rewrite Hx. f_equal.
  assert (Hc : count_of (AnalysisResult.totalOperations r) k = x).
  { unfold count_of. by rewrite Hx. }
  rewrite <- Hc. unfold AnalysisResult.totalOperations.
  rewrite count_of_fold_merge, count_of_merge, count_of_new. lia.
Qed.

(** C4.  The three tiers and their total, as binary64 computations on the
    base energy [B]. *)
Theorem carbonBreakdown_tiers (r : AnalysisResult) :
  let B := AnalysisResult.energyJoules r in
  let b := AnalysisResult.carbonBreakdown r in
  let co2 (j : float) := (j / 3600000 * 475)%float in
  energyJoules (userEnd b) = (B * 1.2 * 1000)%float
  /\ energyJoules (developerEnd b) = (B * 5)%float
  /\ energyJoules (serverSide b) = (B * 1.58 * 10000 + 0.001 * 10000)%float
  /\ carbonGrams (userEnd b) = co2 (energyJoules (userEnd b))
  /\ carbonGrams (developerEnd b) = co2 (energyJoules (developerEnd b))
  /\ carbonGrams (serverSide b) = co2 (energyJoules (serverSide b))
  /\ energyJoules (total b)
     = (energyJoules (userEnd b) + energyJoules (developerEnd b)
        + energyJoules (serverSide b))%float
  /\ carbonGrams (total b)
     = (carbonGrams (userEnd b) + carbonGrams (developerEnd b)
        + carbonGrams (serverSide b))%float.
Proof. repeat split. Qed.

(** ** Sorting by a key, largest first *)

Section SortByKey.
Context {A : Type} (key : A -> Z).

Lemma sort_insert_perm (x : A) (l : list A) :
  Permutation (sort_insert (by_key_desc key) x l) (x :: l).
Proof.
  induction l as [| y l IH]; simpl; [done |].
  destruct (0 <? (by_key_desc key) x y); [| done].
  rewrite IH. apply perm_swap.
Qed.

Lemma array_sort_perm (l : list A) :
  Permutation (array_sort (by_key_desc key) l) l.
Proof.
  induction l as [| x l IH]; simpl; [done |].
  by rewrite sort_insert_perm, IH.
Qed.

Lemma sort_insert_sorted (x : A) (l : list A) :
  StronglySorted (key_ge key) l ->
  StronglySorted (key_ge key) (sort_insert (by_key_desc key) x l).
Proof.
  induction 1 as [| y l Hl IH Hy]; simpl.
  - repeat constructor.
  - unfold by_key_desc at 1. destruct (Z.ltb_spec 0 (key y - key x)) as [Hlt | Hge].
    + constructor; [exact IH |].
      rewrite (sort_insert_perm x l). constructor; [unfold key_ge; lia | done].
    + constructor; [by constructor |].
      constructor; [unfold key_ge; lia |].
      eapply Forall_impl; [exact Hy |]. unfold key_ge. intros z Hz. simpl in Hz. lia.
Qed.

Lemma array_sort_sorted (l : list A) :
  StronglySorted (key_ge key) (array_sort (by_key_desc key) l).
Proof.
  induction l as [| x l IH]; simpl; [constructor |].
  by apply sort_insert_sorted.
Qed.

(** The sort is stable: elements of equal key keep their order. *)
Lemma sort_insert_stable (w : Z) (x : A) (l : list A) :
  filter (fun a => key a = w) (sort_insert (by_key_desc key) x l)
  = filter (fun a => key a = w) (x :: l).
Proof.
  induction l as [| y l IH]; simpl; [done |].
  unfold by_key_desc at 1. destruct (Z.ltb_spec 0 (key y - key x)) as [Hlt | Hge];
    [| done].
  rewrite (filter_cons _ y), IH, !filter_cons.
  repeat case_decide; try done; lia.
Qed.

Lemma array_sort_stable (w : Z) (l : list A) :
  filter (fun a => key a = w) (array_sort (by_key_desc key) l)
  = filter (fun a => key a = w) l.
Proof.
  induction l as [| x l IH]; simpl; [done |].
  by rewrite sort_insert_stable, !filter_cons, IH.
Qed.

End SortByKey.

(** ** Trees *)

Lemma child_size (n c : SyntaxNode) :
  In c (children n) -> (node_size c < node_size n)%nat.
Proof.
  destruct n as [ty txt nm row fld kids]. simpl. intros Hc.
  induction kids as [| d kids IH]; simpl in *; [done |].
  destruct Hc as [-> | Hc]; [lia |]. specialize (IH Hc). lia.
Qed.

Lemma node_size_ind (P : SyntaxNode -> Prop) :
  (forall n, (forall d, (node_size d < node_size n)%nat -> P d) -> P n) ->
  forall n, P n.
Proof.
  intros Hstep n. remember (node_size n) as s eqn:Hs.
  revert n Hs. induction s as [s IH] using lt_wf_ind. intros n ->.
  apply Hstep. intros d Hd. by eapply IH.
Qed.

Lemma In_namedChildren (n c : SyntaxNode) :
  In c (namedChildren n) -> In c (children n).
Proof. unfold namedChildren. rewrite filter_In. tauto. Qed.

(** ** The continuation forms of the lookups *)

Lemma first_child_find {A} (p : SyntaxNode -> bool) kids (k : SyntaxNode -> A) d :
  first_child p kids k d
  = match List.find p kids with Some c => k c | None => d end.
Proof.
  induction kids as [| c kids IH]; simpl; [done |]. by destruct (p c).
Qed.

Lemma nth_named_nth {A} (i : nat) kids (k : SyntaxNode -> A) d :
  nth_named i kids k d
  = match nth_error (List.filter isNamed kids) i with
    | Some c => k c
    | None => d
    end.
Proof.
  unfold nth_named. revert i.
  induction kids as [| c kids IH]; intros i; simpl.
  - by destruct i.
  - destruct (isNamed c); simpl; [| apply IH].
    destruct i; simpl; [done | apply IH].
Qed.

Lemma each_named_filter {A} (f : A -> SyntaxNode -> A) kids a :
  each_named f kids a = fold_left f (List.filter isNamed kids) a.
Proof.
  unfold each_named. revert a.
  induction kids as [| c kids IH]; intros a; simpl; [done |].
  destruct (isNamed c); simpl; apply IH.
Qed.

Section Related.
Context {A B : Type} (R : A -> B -> Prop).

Lemma first_child_rel p kids (k1 : SyntaxNode -> A) (k2 : SyntaxNode -> B) d1 d2 :
  (forall c, In c kids -> R (k1 c) (k2 c)) -> R d1 d2 ->
  R (first_child p kids k1 d1) (first_child p kids k2 d2).
Proof.
  intros Hk Hd. induction kids as [| c kids IH]; simpl; [done |].
  destruct (p c); [apply Hk; by left |].
  apply IH. intros c' Hc'. apply Hk. by right.
Qed.

Lemma nth_named_rel i kids (k1 : SyntaxNode -> A) (k2 : SyntaxNode -> B) d1 d2 :
  (forall c, In c kids -> R (k1 c) (k2 c)) -> R d1 d2 ->
  R (nth_named i kids k1 d1) (nth_named i kids k2 d2).
Proof.
  intros Hk Hd. rewrite !nth_named_nth.
  destruct (nth_error _ i) as [c |] eqn:Hc; [| done].
  apply Hk. apply nth_error_In in Hc. apply filter_In in Hc. tauto.
Qed.

Lemma fold_left_rel (f : A -> SyntaxNode -> A) (g : B -> SyntaxNode -> B)
    (l : list SyntaxNode) a b :
  R a b ->
  (forall c a b, In c l -> R a b -> R (f a c) (g b c)) ->
  R (fold_left f l a) (fold_left g l b).
Proof.
  revert a b. induction l as [| c l IH]; intros a b Hab Hstep; simpl; [done |].
  apply IH; [apply Hstep; [by left | done] |].
  intros c' a' b' Hc'. apply Hstep. by right.
Qed.

Lemma each_named_rel (f : A -> SyntaxNode -> A) (g : B -> SyntaxNode -> B) kids a b :
  R a b ->
  (forall c a b, In c kids -> R a b -> R (f a c) (g b c)) ->
  R (each_named f kids a) (each_named g kids b).
Proof.
  intros Hab Hstep. unfold each_named. apply fold_left_rel; [done |].
  intros c a' b' Hc Hab'. destruct (isNamed c); [by apply Hstep | done].
Qed.

Lemma each_named_if_rel p (f : A -> SyntaxNode -> A) (g : B -> SyntaxNode -> B) kids a b :
  R a b ->
  (forall c a b, In c kids -> R a b -> R (f a c) (g b c)) ->
  R (each_named_if p f kids a) (each_named_if p g kids b).
Proof.
  intros Hab Hstep. unfold each_named_if. apply each_named_rel; [done |].
  intros c a' b' Hc Hab'. destruct (p c); [by apply Hstep | done].
Qed.

End Related.

(** ** Linearity in the multiplier *)

Lemma lin_new c : lin c OperationCount.new OperationCount.new.
Proof. intros k. rewrite count_of_new. lia. Qed.

Lemma lin_add c a b op n n' :
  lin c a b -> n' = c * n ->
  lin c (OperationCount.add a op n') (OperationCount.add b op n).
Proof.
  intros Hab -> k. rewrite !count_of_add, Hab. case_decide; lia.
Qed.

Lemma lin_merge c a b a' b' :
  lin c a b -> lin c a' b' ->
  lin c (OperationCount.merge a a') (OperationCount.merge b b').
Proof. intros H H' k. rewrite !count_of_merge, H, H'. lia. Qed.

Ltac size_tac node :=
  repeat match goal with
         | H : In _ (children _) |- _ => apply child_size in H
         | H : In ?x _ |- _ => apply (child_size node x) in H
         | H : In ?x (namedChildren _) |- _ => apply In_namedChildren in H
         end; lia.

Lemma linC_new c : linC c counted_new counted_new.
Proof. split; [apply lin_new | done]. Qed.

Lemma linC_add c a b op n n' :
  linC c a b -> n' = c * n -> linC c (counted_add a op n') (counted_add b op n).
Proof. intros [H1 H2] Hn. split; [by apply lin_add | done]. Qed.

Lemma linC_merge c a b a' b' :
  linC c a b -> linC c a' b' ->
  linC c (counted_merge a a') (counted_merge b b').
Proof.
  intros [H1 H2] [H1' H2']. split; [by apply lin_merge |].
  simpl. by rewrite H2, H2'.
Qed.

Lemma linC_merge_ops c a b o o' :
  linC c a b -> lin c o o' ->
  linC c (counted_merge_ops a o) (counted_merge_ops b o').
Proof. intros [H1 H2] Ho. split; [by apply lin_merge | done]. Qed.

Lemma linC_push c a b line :
  linC c a b -> linC c (counted_push a line) (counted_push b line).
Proof. intros [H1 H2]. split; [done |]. simpl. by rewrite H2. Qed.

Section PythonLinear.
Variable numberFloor parseFloatFloor : string -> option Z.
Variable vc : gmap string Z.
Variable c : Z.

Local Abbreviation aE := (PythonTreeSitterAnalyzer.analyzeExpression numberFloor parseFloatFloor vc).

Ltac lin_step IH node :=
  match goal with
  | |- lin _ OperationCount.new OperationCount.new => apply lin_new
  | |- lin _ (OperationCount.add _ _ _) (OperationCount.add _ _ _) =>
      apply lin_add; [| subst; ring]
  | |- lin _ (OperationCount.merge _ _) (OperationCount.merge _ _) =>
      apply lin_merge
  | |- lin _ (first_child _ _ _ _) (first_child _ _ _ _) =>
      apply first_child_rel; [intros ? ? |]
  | |- lin _ (nth_named _ _ _ _) (nth_named _ _ _ _) =>
      apply nth_named_rel; [intros ? ? |]
  | |- lin _ (each_named _ _ _) (each_named _ _ _) =>
      apply each_named_rel; [| intros ? ? ? ? ?]
  | |- lin _ (each_named_if _ _ _ _) (each_named_if _ _ _ _) =>
      apply each_named_if_rel; [| intros ? ? ? ? ?]
  | |- lin _ (if ?b then _ else _) (if ?b then _ else _) => destruct b
  | |- lin _ (aE _ _) (aE _ _) =>
      apply IH; [size_tac node | subst; ring]
  | |- lin _ _ _ => assumption
  end.

Lemma python_analyzeExpression_lin (node : SyntaxNode) :
  forall m m', m' = c * m -> lin c (aE node m') (aE node m).
Proof.
  induction node as [node IH] using node_size_ind. intros m m' Hm.
  destruct node as [ty txt nm row fld kids].
  cbn [PythonTreeSitterAnalyzer.analyzeExpression type children].
  set (node := mkNode ty txt nm row fld kids) in *.
  repeat lin_step IH node.
Qed.

Local Abbreviation aN := (PythonTreeSitterAnalyzer.analyzeNode numberFloor parseFloatFloor vc).

Ltac linC_step IH node :=
  match goal with
  | |- linC _ counted_new counted_new => apply linC_new
  | |- linC _ (counted_add _ _ _) (counted_add _ _ _) =>
      apply linC_add; [| subst; ring]
  | |- linC _ (counted_push _ _) (counted_push _ _) => apply linC_push
  | |- linC _ (counted_merge _ _) (counted_merge _ _) => apply linC_merge
  | |- linC _ (counted_merge_ops _ _) (counted_merge_ops _ _) =>
      apply linC_merge_ops; [| apply python_analyzeExpression_lin; subst; ring]
  | |- linC _ (first_child _ _ _ _) (first_child _ _ _ _) =>
      apply first_child_rel; [intros ? ? |]
  | |- linC _ (nth_named _ _ _ _) (nth_named _ _ _ _) =>
      apply nth_named_rel; [intros ? ? |]
  | |- linC _ (each_named _ _ _) (each_named _ _ _) =>
      apply each_named_rel; [| intros ? ? ? ? ?]
  | |- linC _ (fold_left _ _ _) (fold_left _ _ _) =>
      apply fold_left_rel; [| intros ? ? ? ? ?]
  | |- linC _ (if ?b then _ else _) (if ?b then _ else _) => destruct b
  | |- linC _ (match ?o with Some _ => _ | None => _ end)
              (match ?o with Some _ => _ | None => _ end) => destruct o
  | |- linC _ (aN _ _) (aN _ _) =>
      apply IH; [size_tac node | subst; ring]
  | |- linC _ _ _ => assumption
  end.

Lemma python_analyzeNode_lin (node : SyntaxNode) :
  forall m m', m' = c * m -> linC c (aN node m') (aN node m).
Proof.
  induction node as [node IH] using node_size_ind. intros m m' Hm.
  destruct node as [ty txt nm row fld kids].
  cbn [PythonTreeSitterAnalyzer.analyzeNode type children].
  set (node := mkNode ty txt nm row fld kids) in *.
  repeat linC_step IH node.
Qed.
End PythonLinear.

Section CFamilyLinear.
Variable numberFloor : string -> option Z.
Variable language : string.
Variable vc : gmap string Z.
Variable c : Z.

Local Abbreviation aN := (CFamilyTreeSitterAnalyzer.analyzeNode numberFloor language vc).
Local Abbreviation aE := (CFamilyTreeSitterAnalyzer.analyzeExpression numberFloor language vc).

Ltac linC_step IH node :=
  match goal with
  | |- linC _ counted_new counted_new => apply linC_new
  | |- linC _ (counted_add _ _ _) (counted_add _ _ _) =>
      apply linC_add; [| subst; ring]
  | |- linC _ (counted_push _ _) (counted_push _ _) => apply linC_push
  | |- linC _ (counted_merge _ _) (counted_merge _ _) => apply linC_merge
  | |- linC _ (first_child _ _ _ _) (first_child _ _ _ _) =>
      apply first_child_rel; [intros ? ? |]
  | |- linC _ (nth_named _ _ _ _) (nth_named _ _ _ _) =>
      apply nth_named_rel; [intros ? ? |]
  | |- linC _ (each_named _ _ _) (each_named _ _ _) =>
      apply each_named_rel; [| intros ? ? ? ? ?]
  | |- linC _ (each_named_if _ _ _ _) (each_named_if _ _ _ _) =>
      apply each_named_if_rel; [| intros ? ? ? ? ?]
  | |- linC _ (fold_left _ _ _) (fold_left _ _ _) =>
      apply fold_left_rel; [| intros ? ? ? ? ?]
  | |- linC _ (if ?b then _ else _) (if ?b then _ else _) => destruct b
  | |- linC _ (match ?o with Some _ => _ | None => _ end)
              (match ?o with Some _ => _ | None => _ end) => destruct o
  | |- linC _ (aN _ _) (aN _ _) =>
      apply IH; [size_tac node | subst; ring]
  | |- linC _ (aE _ _) (aE _ _) =>
      apply IH; [size_tac node | subst; ring]
  | |- linC _ _ _ => assumption
  end.

Lemma cfamily_analyzeNode_unfold node m :
  aN node m
  = CFamilyTreeSitterAnalyzer.analyzeNode_body numberFloor
      (CFamilyTreeSitterAnalyzer.analyzeNode numberFloor language)
      (CFamilyTreeSitterAnalyzer.analyzeExpression numberFloor language)
      vc node m.
Proof. by destruct node. Qed.

Lemma cfamily_analyzeExpression_unfold node m :
  aE node m
  = CFamilyTreeSitterAnalyzer.analyzeExpression_body language
      (CFamilyTreeSitterAnalyzer.analyzeNode numberFloor language)
      (CFamilyTreeSitterAnalyzer.analyzeExpression numberFloor language)
      vc node m.
Proof. by destruct node. Qed.

Lemma cfamily_analyze_lin (node : SyntaxNode) :
  (forall m m', m' = c * m -> linC c (aN node m') (aN node m))
  /\ (forall m m', m' = c * m -> linC c (aE node m') (aE node m)).
Proof.
  induction node as [node IH] using node_size_ind.
  split; intros m m' Hm.
  - rewrite !cfamily_analyzeNode_unfold.
    unfold CFamilyTreeSitterAnalyzer.analyzeNode_body. cbv zeta.
    repeat linC_step IH node.
  - rewrite !cfamily_analyzeExpression_unfold.
    unfold CFamilyTreeSitterAnalyzer.analyzeExpression_body. cbv zeta.
    repeat linC_step IH node.
Qed.
End CFamilyLinear.

(** ** Counting through the folds *)

Lemma sumZ_app (l1 l2 : list Z) : sumZ (l1 ++ l2) = sumZ l1 + sumZ l2.
Proof. induction l1 as [| x l1 IH]; simpl; lia. Qed.

Lemma count_of_fold_counted {A} (f : A -> Counted) (l : list A)
    (st : Counted) (k : OpType) :
  count_of (fold_left (fun st x => counted_merge st (f x)) l st).1 k
  = count_of st.1 k + sumZ (map (fun x => count_of (f x).1 k) l).
Proof.
  revert st. induction l as [| x l IH]; intros st; simpl; [lia |].
  rewrite IH. simpl. rewrite count_of_merge. lia.
Qed.

Lemma count_of_comparisons (st : Counted) (n : Z) (k : OpType) :
  count_of (counted_add st COMPARISON n).1 k
  = count_of st.1 k + comparisons n k.
Proof.
  simpl. rewrite count_of_add. unfold comparisons.
  repeat case_decide; try congruence; lia.
Qed.

(** Evaluates the tests of a node type that is known. *)
Ltac known_type :=
  repeat match goal with
         | |- context [String.eqb ?a ?b] =>
             let v := eval vm_compute in (String.eqb a b) in
             lazymatch v with
             | true => change (String.eqb a b) with true
             | false => change (String.eqb a b) with false
             end
         | |- context [one_of ?l ?a] =>
             let v := eval vm_compute in (one_of l a) in
             lazymatch v with
             | true => change (one_of l a) with true
             | false => change (one_of l a) with false
             end
         end;
  cbn [orb andb negb].

Lemma count_of_counted_new (k : OpType) : count_of counted_new.1 k = 0.
Proof. apply count_of_new. Qed.

Lemma count_of_counted_push (st : Counted) (line : string) (k : OpType) :
  count_of (counted_push st line).1 k = count_of st.1 k.
Proof. done. Qed.

Lemma count_of_counted_merge_ops (st : Counted) (o : OperationCount) k :
  count_of (counted_merge_ops st o).1 k = count_of st.1 k + count_of o k.
Proof. simpl. apply count_of_merge. Qed.

Lemma count_of_counted_merge (st r : Counted) k :
  count_of (counted_merge st r).1 k = count_of st.1 k + count_of r.1 k.
Proof. simpl. apply count_of_merge. Qed.

(** Replaces a continuation-style lookup by the lookup and splits on it. *)
Ltac open_lookup :=
  rewrite first_child_find;
  match goal with
  | |- context [List.find ?p ?l] => destruct (List.find p l) eqn:?
  end.

Ltac split_lookup :=
  match goal with
  | |- context [match List.find ?p ?l with _ => _ end] =>
      destruct (List.find p l) eqn:?
  end.

(** Counts through the folds and additions that remain. *)
Ltac count_folds :=
  rewrite ?each_named_filter;
  repeat first
    [ rewrite count_of_fold_counted
    | rewrite count_of_comparisons
    | rewrite count_of_counted_push
    | rewrite count_of_counted_merge_ops
    | rewrite count_of_counted_merge
    | rewrite count_of_counted_new ];
  cbn [count_opt option_map map sumZ fold_right]; try lia.

Lemma one_of_In (l : list string) (s : string) :
  one_of l s = true -> In s l.
Proof.
  unfold one_of. rewrite existsb_exists. intros (x & Hx & Heq).
  apply String.eqb_eq in Heq. by subst.
Qed.

Section PythonLoop.
Variable numberFloor parseFloatFloor : string -> option Z.
Variable vc : gmap string Z.

Local Abbreviation aN :=
  (PythonTreeSitterAnalyzer.analyzeNode numberFloor parseFloatFloor vc).
Local Abbreviation walk := (PythonLoops.walk numberFloor parseFloatFloor vc).
Local Abbreviation iterations :=
  (PythonLoops.iterations numberFloor parseFloatFloor vc).
Local Abbreviation extras := (PythonLoops.extras numberFloor parseFloatFloor vc).

Lemma python_loop_counts (L : SyntaxNode) (m : Z) (k : OpType) :
  PythonLoops.isLoop L = true ->
  count_of (walk L m) k
  = comparisons (m * iterations L) k + extras L m k
    + sumZ (map (fun s => count_of (walk s (m * iterations L)) k)
                (PythonLoops.body L)).
Proof.
  intros HL. apply one_of_In in HL.
  unfold PythonLoops.walk.
  destruct L as [ty txt nm row fld kids]. simpl in HL.
  destruct HL as [<- | [<- | []]].
  - cbn [PythonTreeSitterAnalyzer.analyzeNode type children]. known_type.
    unfold PythonLoops.iterations, PythonLoops.extras,
      PythonLoops.body, PythonLoops.else_body,
      PythonTreeSitterAnalyzer.findChildByType,
      PythonTreeSitterAnalyzer.findBlockChild, childForFieldName, namedChildren,
      PythonLoops.walk, or_else.
    cbn [type children]. known_type.
    repeat first [open_lookup | split_lookup]; count_folds.
  - cbn [PythonTreeSitterAnalyzer.analyzeNode type children]. known_type.
    unfold PythonLoops.iterations, PythonLoops.extras,
      PythonLoops.body, PythonLoops.else_body,
      PythonTreeSitterAnalyzer.findChildByType,
      PythonTreeSitterAnalyzer.findBlockChild, childForFieldName, namedChildren,
      PythonLoops.walk, or_else.
    cbn [type children]. known_type.
    repeat first [open_lookup | split_lookup]; count_folds.
Qed.
End PythonLoop.

Section CFamilyLoop.
Variable numberFloor : string -> option Z.
Variable language : string.
Variable vc : gmap string Z.

Local Abbreviation walk := (CFamilyLoops.walk numberFloor language vc).
Local Abbreviation iterations := (CFamilyLoops.iterations numberFloor vc).
Local Abbreviation extras := (CFamilyLoops.extras numberFloor language vc).

Lemma cfamily_loop_counts (L : SyntaxNode) (m : Z) (k : OpType) :
  CFamilyLoops.isLoop L = true ->
  count_of (walk L m) k
  = comparisons (m * iterations L) k + extras L m k
    + sumZ (map (fun s => count_of (walk s (m * iterations L)) k)
                (CFamilyLoops.body L)).
Proof.
  intros HL. apply one_of_In in HL.
  unfold CFamilyLoops.walk. rewrite cfamily_analyzeNode_unfold.
  destruct L as [ty txt nm row fld kids]. simpl in HL.
  destruct HL as [<- | [<- | [<- | [<- | [<- | []]]]]];
    unfold CFamilyTreeSitterAnalyzer.analyzeNode_body;
    cbn [type children]; known_type;
    unfold CFamilyLoops.extras, CFamilyLoops.body,
      CFamilyTreeSitterAnalyzer.getStatementBody, CFamilyLoops.walk;
    unfold CFamilyLoops.iterations, childForFieldName, namedChildren, or_else;
    cbn [type children]; known_type;
    repeat first [open_lookup | split_lookup]; count_folds.
Qed.
End CFamilyLoop.

(** ** Loop nests *)

Section NestCounts.
Variable walk : SyntaxNode -> Z -> OperationCount.
Variable isLoop : SyntaxNode -> bool.
Variable iterations : SyntaxNode -> Z.
Variable body : SyntaxNode -> list SyntaxNode.
Variable header : SyntaxNode -> Z -> OpType -> Z.

Hypothesis loop_counts : forall L m k,
  isLoop L = true ->
  count_of (walk L m) k
  = header L m k
    + sumZ (map (fun s => count_of (walk s (m * iterations L)) k) (body L)).

Hypothesis walk_linear : forall s m c k,
  count_of (walk s (m * c)) k = c * count_of (walk s m) k.

Lemma nest_counts (frames : list Frame) (stmt : SyntaxNode) (m : Z)
    (k : OpType) :
  nested isLoop body frames stmt ->
  count_of (walk (outermost frames stmt) m) k
  = nest_overhead walk iterations header frames m k
    + iterations_product iterations frames * count_of (walk stmt m) k.
Proof.
  revert m. induction frames as [| f rest IH]; intros m Hnest; simpl.
  - lia.
  - destruct Hnest as (Hloop & Hbody & Hrest).
    rewrite (loop_counts _ _ _ Hloop), Hbody.
    rewrite !map_app, !sumZ_app. simpl.
    rewrite (IH _ Hrest), walk_linear. lia.
Qed.

End NestCounts.

Lemma python_walk_linear numberFloor parseFloatFloor vc s m c k :
  count_of (PythonLoops.walk numberFloor parseFloatFloor vc s (m * c)) k
  = c * count_of (PythonLoops.walk numberFloor parseFloatFloor vc s m) k.
Proof.
  apply (python_analyzeNode_lin numberFloor parseFloatFloor vc c s m (m * c)).
  ring.
Qed.

Lemma cfamily_walk_linear numberFloor language vc s m c k :
  count_of (CFamilyLoops.walk numberFloor language vc s (m * c)) k
  = c * count_of (CFamilyLoops.walk numberFloor language vc s m) k.
Proof.
  apply (cfamily_analyze_lin numberFloor language vc c s). ring.
Qed.

(** C1.  In both walkers a loop with estimated iteration count N, analysed
    at multiplier m, adds m * N comparisons for its header and analyses every
    statement of its body at m * N (besides what the rest of its header and
    an else clause count at the loop's own multiplier); the counter of a
    statement is linear in the multiplier; hence a statement inside a nest of
    loops contributes its counter at m times the product of their iteration
    counts.  The statements of a body are, as in the walkers, the named
    children of the loop's body node: those of a block, but for a C-family
    loop whose body is a single statement without braces, the children of
    that statement. *)
Theorem loop_cascade :
  (forall numberFloor parseFloatFloor vc,
     let walk := PythonLoops.walk numberFloor parseFloatFloor vc in
     let iterations := PythonLoops.iterations numberFloor parseFloatFloor vc in
     let header := PythonLoops.header numberFloor parseFloatFloor vc in
     (forall L m k,
        PythonLoops.isLoop L = true ->
        count_of (walk L m) k
        = comparisons (m * iterations L) k
          + PythonLoops.extras numberFloor parseFloatFloor vc L m k
          + sumZ (map (fun s => count_of (walk s (m * iterations L)) k)
                      (PythonLoops.body L)))
     /\ (forall s m c k,
           count_of (walk s (m * c)) k = c * count_of (walk s m) k)
     /\ (forall frames stmt m k,
           nested PythonLoops.isLoop PythonLoops.body frames stmt ->
           count_of (walk (outermost frames stmt) m) k
           = nest_overhead walk iterations header frames m k
             + iterations_product iterations frames
               * count_of (walk stmt m) k))
  /\ (forall numberFloor language vc,
        let walk := CFamilyLoops.walk numberFloor language vc in
        let iterations := CFamilyLoops.iterations numberFloor vc in
        let header := CFamilyLoops.header numberFloor language vc in
        (forall L m k,
           CFamilyLoops.isLoop L = true ->
           count_of (walk L m) k
           = comparisons (m * iterations L) k
             + CFamilyLoops.extras numberFloor language vc L m k
             + sumZ (map (fun s => count_of (walk s (m * iterations L)) k)
                         (CFamilyLoops.body L)))
        /\ (forall s m c k,
              count_of (walk s (m * c)) k = c * count_of (walk s m) k)
        /\ (forall frames stmt m k,
              nested CFamilyLoops.isLoop CFamilyLoops.body frames stmt ->
              count_of (walk (outermost frames stmt) m) k
              = nest_overhead walk iterations header frames m k
                + iterations_product iterations frames
                  * count_of (walk stmt m) k)).
Proof.
  split.
  - intros nf pf vc. cbv zeta.
    split; [apply python_loop_counts |].
    split; [apply python_walk_linear |].
    intros frames stmt m k. apply nest_counts.
    + intros L m' k' HL. unfold PythonLoops.header.
      rewrite (python_loop_counts nf pf vc L m' k' HL). done.
    + apply python_walk_linear.
  - intros nf lang vc. cbv zeta.
    split; [apply cfamily_loop_counts |].
    split; [apply cfamily_walk_linear |].
    intros frames stmt m k. apply nest_counts.
    + intros L m' k' HL. unfold CFamilyLoops.header.
      rewrite (cfamily_loop_counts nf lang vc L m' k' HL). done.
    + apply cfamily_walk_linear.
Qed.

(** The nest of two Python loops around [print(j)]; and the C loops
    [for (...4...) for (...5...) printf("x");]: with braces the call is counted
    20 times, without braces the body of the outer loop is taken to be the
    children of the inner [for] node, and the call is counted 4 times. *)
Lemma loop_cascade_witness :
  count_of (PythonLoops.walk decimalFloor decimalFloor ∅ sample_outer_for 1)
           IO_OPERATION
  = nest_overhead (PythonLoops.walk decimalFloor decimalFloor ∅)
                  (PythonLoops.iterations decimalFloor decimalFloor ∅)
                  (PythonLoops.header decimalFloor decimalFloor ∅)
                  sample_frames 1 IO_OPERATION
    + iterations_product (PythonLoops.iterations decimalFloor decimalFloor ∅)
                         sample_frames
      * count_of (PythonLoops.walk decimalFloor decimalFloor ∅ sample_print 1)
                 IO_OPERATION
  /\ count_of (CFamilyLoops.walk decimalFloor "c" ∅ sample_c_braced 1)
              IO_OPERATION = 20
  /\ count_of (CFamilyLoops.walk decimalFloor "c" ∅ sample_c_braceless 1)
              IO_OPERATION = 4.
Proof.
  split; [| split].
  - apply (proj2 (proj2 (proj1 loop_cascade decimalFloor decimalFloor ∅))
             sample_frames sample_print 1 IO_OPERATION).
    vm_compute. tauto.
  - rewrite (proj1 (proj2 loop_cascade decimalFloor "c" ∅)
               sample_c_braced 1 IO_OPERATION eq_refl).
    reflexivity.
  - rewrite (proj1 (proj2 loop_cascade decimalFloor "c" ∅)
               sample_c_braceless 1 IO_OPERATION eq_refl).
    reflexivity.
Defined.

(** ** Recursion detection *)

Lemma within_inv (d n : SyntaxNode) :
  within d n <-> d = n \/ exists c, In c (namedChildren n) /\ within d c.
Proof.
  split.
  - intros H. destruct H as [n | d c n Hc Hd]; [by left | right; eauto].
  - intros [-> | (c & Hc & Hd)]; [constructor | econstructor; eauto].
Qed.

Lemma In_named (c : SyntaxNode) (kids : list SyntaxNode) :
  In c (List.filter isNamed kids) <-> In c kids /\ isNamed c = true.
Proof. apply filter_In. Qed.

Section PythonRecursion.
Variable numberFloor parseFloatFloor : string -> option Z.

Local Abbreviation getCallName := PythonTreeSitterAnalyzer.getCallName.
Local Abbreviation walkForCalls := PythonTreeSitterAnalyzer.walkForCalls.

Lemma walk_children_recursive (fn : string) (kids : list SyntaxNode) :
  (forall c, In c kids -> forall st,
     (walkForCalls c fn st).2 = true
     <-> st.2 = true \/ exists call, within call c /\ py_calls fn call) ->
  forall st,
    (each_named (fun func child => walkForCalls child fn func) kids st).2 = true
    <-> st.2 = true
        \/ exists c, In c (List.filter isNamed kids)
                     /\ exists call, within call c /\ py_calls fn call.
Proof.
  unfold each_named.
  induction kids as [| c kids IH]; intros Hc st; simpl.
  - split; [by left | intros [H | (c & [] & _)]; done].
  - rewrite IH by (intros; apply Hc; by right).
    destruct (isNamed c) eqn:Hn; simpl.
    + rewrite Hc by (by left). split.
      * intros [[H | H] | (c' & H1 & H2)]; eauto.
      * intros [H | (c' & [<- | H1] & H2)]; eauto.
    + split; intros [H | H]; eauto.
Qed.

Lemma walkForCalls_recursive (fn : string) (node : SyntaxNode) :
  fn <> "" ->
  forall st,
    (walkForCalls node fn st).2 = true
    <-> st.2 = true \/ exists call, within call node /\ py_calls fn call.
Proof.
  intros Hfn. induction node as [node IH] using node_size_ind. intros st.
  assert (Hunfold : walkForCalls node fn st
    = each_named (fun func child => walkForCalls child fn func) (children node)
        (if String.eqb (type node) "call" then
           if truthy (getCallName node) then
             (st.1 ++ [default "" (getCallName node)],
              if PythonTreeSitterAnalyzer.name_is (getCallName node) fn
              then true else st.2)
           else st
         else st)) by (by destruct node).
  rewrite Hunfold. clear Hunfold.
  rewrite walk_children_recursive
    by (intros c Hc st'; apply IH; by apply child_size).
  assert (Hhere :
    (if String.eqb (type node) "call" then
       if truthy (getCallName node) then
         (st.1 ++ [default "" (getCallName node)],
          if PythonTreeSitterAnalyzer.name_is (getCallName node) fn
          then true else st.2)
       else st
     else st).2 = true
    <-> st.2 = true \/ py_calls fn node).
  { unfold py_calls. destruct (String.eqb_spec (type node) "call") as [Hty | Hty].
    - destruct (getCallName node) as [callName |] eqn:Hname; simpl.
      + destruct (String.eqb_spec callName "") as [-> | Hne]; simpl.
        * split; [by left | intros [H | [_ H]]; [done | congruence]].
        * destruct (String.eqb_spec callName fn) as [-> | Hne']; simpl.
          -- split; eauto.
          -- split; [by left | intros [H | [_ H]]; [done | congruence]].
      + split; [by left | intros [H | [_ H]]; done].
    - split; [by left | intros [H | [H _]]; done]. }
  rewrite Hhere. split.
  - intros [[H | H] | (c & Hc & call & Hw & Hcall)].
    + by left.
    + right. exists node. split; [constructor | done].
    + right. exists call. split; [| done]. econstructor; eauto.
  - intros [H | (call & Hw & Hcall)]; [by left; left |].
    apply within_inv in Hw as [-> | (c & Hc & Hw)]; [by left; right |].
    right. eauto.
Qed.

End PythonRecursion.

Section CFamilyRecursion.

Local Abbreviation getCallName := CFamilyTreeSitterAnalyzer.getCallName.
Local Abbreviation containsCallTo := CFamilyTreeSitterAnalyzer.containsCallTo.

Lemma containsCallTo_within (fn : string) (node : SyntaxNode) :
  containsCallTo node fn = true
  <-> exists call, within call node /\ cfamily_calls fn call.
Proof.
  induction node as [node IH] using node_size_ind.
  assert (Hunfold : containsCallTo node fn
    = (CFamilyTreeSitterAnalyzer.isCallNode node
       && CFamilyTreeSitterAnalyzer.name_is (getCallName node) fn)
      || existsb (fun child => isNamed child && containsCallTo child fn)
                 (children node)) by (by destruct node).
  rewrite Hunfold, orb_true_iff, andb_true_iff, existsb_exists. clear Hunfold.
  assert (Hname : CFamilyTreeSitterAnalyzer.name_is (getCallName node) fn = true
                  <-> getCallName node = Some fn).
  { destruct (getCallName node) as [callName |]; simpl; [| done].
    rewrite String.eqb_eq. split; congruence. }
  rewrite Hname. split.
  - intros [Hhere | (c & Hc & Hin)].
    + exists node. split; [constructor | done].
    + apply andb_true_iff in Hin as [Hn Hin].
      apply IH in Hin as (call & Hw & Hcall); [| by apply child_size].
      exists call. split; [| done].
      econstructor; [| exact Hw]. by apply In_named.
  - intros (call & Hw & Hcall).
    apply within_inv in Hw as [-> | (c & Hc & Hw)]; [by left |].
    right. apply In_named in Hc as [Hc Hn]. exists c. split; [done |].
    rewrite Hn. simpl. apply IH; [by apply child_size | eauto].
Qed.

End CFamilyRecursion.

Lemma count_of_scaled (recursive : bool) (ops : OperationCount) (k : OpType) :
  count_of (if recursive
            then OperationCount.scale ops DEFAULT_RECURSION_DEPTH else ops) k
  = (if recursive then 10 else 1) * count_of ops k.
Proof.
  destruct recursive; [rewrite count_of_scale; unfold DEFAULT_RECURSION_DEPTH |];
    lia.
Qed.

Lemma text_or_nonempty (node : option SyntaxNode) (fallback : string) :
  fallback <> "" -> text_or node fallback <> "".
Proof.
  intros Hf. unfold text_or. destruct node as [n |]; [| done].
  by destruct (String.eqb_spec (text n) "").
Qed.

Lemma named_field_child (node body : SyntaxNode) (f : string) :
  childForFieldName node f = Some body -> isNamed body = true ->
  In body (namedChildren node).
Proof.
  unfold childForFieldName. intros Hfind Hnamed.
  apply find_some in Hfind as [Hin _]. by apply In_named.
Qed.

Lemma getFunctionName_pointer (node declarator inner : SyntaxNode) :
  childForFieldName node "name" = None ->
  childForFieldName node "declarator" = Some declarator ->
  type declarator = "pointer_declarator" ->
  childForFieldName declarator "declarator" = Some inner ->
  type inner = "function_declarator" ->
  CFamilyTreeSitterAnalyzer.getFunctionName node = "unknown".
Proof.
  intros Hname Hdecl Hty Hinner Hfun.
  unfold CFamilyTreeSitterAnalyzer.getFunctionName.
  rewrite Hname, Hdecl. cbn [or_else]. rewrite Hty. simpl.
  assert (Hnone : CFamilyTreeSitterAnalyzer.getDeclaratorName declarator = None).
  { destruct declarator as [ty txt nm row fld kids]. simpl in Hty. subst ty.
    unfold childForFieldName in Hinner. cbn [children] in Hinner.
    cbn [CFamilyTreeSitterAnalyzer.getDeclaratorName type children]. simpl.
    rewrite first_child_find, Hinner.
    destruct inner as [ty' txt' nm' row' fld' kids']. simpl in Hfun. subst ty'.
    reflexivity. }
  by rewrite Hnone.
Qed.

(** C3.  In both walkers the statements of a function body are counted at
    multiplier 1; the function is marked recursive exactly when a call
    whose short name is the name the walker gives the function occurs in
    its definition, in particular in its body; and the counter of a
    recursive function is 10 times the counter of its body.  For Python
    that name is the text of the name field.  For the C family it is what
    [getFunctionName] answers, which is not always the function's short
    name: it is "unknown" for a function whose declarator is a pointer
    declarator around the function declarator, so that a call of such a
    function by its name does not mark it recursive. *)
Theorem recursion_scaling :
  (forall numberFloor parseFloatFloor vc node className,
     let analysed :=
       (PythonTreeSitterAnalyzer.analyzeFunction
          numberFloor parseFloatFloor vc node className).1 in
     let scoped :=
       PythonTreeSitterAnalyzer.extractConstants
         numberFloor parseFloatFloor node vc in
     let funcName := text_or (childForFieldName node "name") "unknown" in
     (isRecursive analysed = true
      <-> exists call, within call node /\ py_calls funcName call)
     /\ (forall body stmt call,
           childForFieldName node "body" = Some body ->
           isNamed body = true ->
           In stmt (namedChildren body) ->
           within call stmt -> py_calls funcName call ->
           isRecursive analysed = true)
     /\ (forall k,
           count_of (operations analysed) k
           = (if isRecursive analysed then 10 else 1)
             * sumZ (map (fun stmt =>
                            count_of (PythonTreeSitterAnalyzer.analyzeNode
                                        numberFloor parseFloatFloor scoped
                                        stmt 1).1 k)
                         (py_body_statements node))))
  /\ (forall numberFloor language vc node className,
        let analysed :=
          (CFamilyTreeSitterAnalyzer.analyzeFunction
             numberFloor language vc node className).1 in
        let scoped :=
          CFamilyTreeSitterAnalyzer.extractConstants numberFloor node vc in
        let funcName := CFamilyTreeSitterAnalyzer.getFunctionName node in
        (isRecursive analysed = true
         <-> exists call, within call node /\ cfamily_calls funcName call)
        /\ (forall body stmt call,
              CFamilyTreeSitterAnalyzer.getFunctionBody node = Some body ->
              isNamed body = true ->
              In stmt (namedChildren body) ->
              within call stmt -> cfamily_calls funcName call ->
              isRecursive analysed = true)
        /\ (forall k,
              count_of (operations analysed) k
              = (if isRecursive analysed then 10 else 1)
                * sumZ (map (fun stmt =>
                               count_of (CFamilyTreeSitterAnalyzer.analyzeNode
                                           numberFloor language scoped
                                           stmt 1).1 k)
                            (cfamily_body_statements node)))
        /\ (forall declarator inner,
              childForFieldName node "name" = None ->
              childForFieldName node "declarator" = Some declarator ->
              type declarator = "pointer_declarator" ->
              childForFieldName declarator "declarator" = Some inner ->
              type inner = "function_declarator" ->
              funcName = "unknown"
              /\ (isRecursive analysed = true
                  <-> exists call,
                        within call node /\ cfamily_calls "unknown" call))).
Proof.
  split.
  - intros nf pf vc node className. cbv zeta.
    set (funcName := text_or (childForFieldName node "name") "unknown").
    assert (Hiff :
      isRecursive (PythonTreeSitterAnalyzer.analyzeFunction
                     nf pf vc node className).1 = true
      <-> exists call, within call node /\ py_calls funcName call).
    { simpl. fold funcName. rewrite walkForCalls_recursive.
      - simpl. split; [intros [H | H]; [done | exact H] | by right].
      - by apply text_or_nonempty. }
    split; [exact Hiff |]. split.
    + intros body stmt call Hbody Hnamed Hstmt Hw Hcall. apply Hiff.
      exists call. split; [| done].
      econstructor; [eapply named_field_child; eauto |].
      econstructor; eauto.
    + intros k. simpl. rewrite count_of_scaled. f_equal.
      unfold PythonTreeSitterAnalyzer.analyzeBody, py_body_statements.
      destruct (childForFieldName node "body") as [body |]; simpl.
      * rewrite count_of_fold_counted, count_of_counted_new. lia.
      * apply count_of_new.
  - intros nf lang vc node className. cbv zeta.
    set (funcName := CFamilyTreeSitterAnalyzer.getFunctionName node).
    assert (Hiff :
      isRecursive (CFamilyTreeSitterAnalyzer.analyzeFunction
                     nf lang vc node className).1 = true
      <-> exists call, within call node /\ cfamily_calls funcName call).
    { simpl. fold funcName. apply containsCallTo_within. }
    split; [exact Hiff |]. split; [| split].
    + intros body stmt call Hbody Hnamed Hstmt Hw Hcall. apply Hiff.
      exists call. split; [| done].
      assert (Hin : In body (namedChildren node)).
      { unfold CFamilyTreeSitterAnalyzer.getFunctionBody, or_else in Hbody.
        destruct (childForFieldName node "body") as [b |] eqn:Hb.
        - injection Hbody as <-. by eapply named_field_child.
        - apply find_some in Hbody as [Hin _]. by apply In_named. }
      econstructor; [exact Hin |]. econstructor; eauto.
    + intros k. simpl. rewrite count_of_scaled. f_equal.
      unfold CFamilyTreeSitterAnalyzer.analyzeBody, cfamily_body_statements.
      destruct (CFamilyTreeSitterAnalyzer.getFunctionBody node) as [body |];
        simpl.
      * rewrite count_of_fold_counted, count_of_counted_new. lia.
      * apply count_of_new.
    + intros declarator inner Hname Hdecl Hty Hinner Hfun.
      assert (Hunknown : funcName = "unknown")
        by (by eapply getFunctionName_pointer).
      split; [exact Hunknown |]. by rewrite <- Hunknown.
Qed.

(** The Python [fib] is marked recursive.  The C function
    [int f(int n) { return f(n - 1); }] is marked recursive and its call is
    counted 10 times; the same function returning a pointer,
    [int *f(int n) { return f(n - 1); }], is named "unknown", is not marked
    recursive, and its call is counted once. *)
Lemma recursion_scaling_witness :
  isRecursive (PythonTreeSitterAnalyzer.analyzeFunction
                 decimalFloor decimalFloor ∅ sample_fib None).1 = true
  /\ (let analysed :=
        (CFamilyTreeSitterAnalyzer.analyzeFunction
           decimalFloor "c" ∅ sample_c_recursive None).1 in
      name analysed = "f" /\ isRecursive analysed = true
      /\ count_of (operations analysed) FUNCTION_CALL = 10)
  /\ (let analysed :=
        (CFamilyTreeSitterAnalyzer.analyzeFunction
           decimalFloor "c" ∅ sample_c_pointer_recursive None).1 in
      name analysed = "unknown" /\ isRecursive analysed = false
      /\ count_of (operations analysed) FUNCTION_CALL = 1).
Proof.
  split; [| split].
  - apply (proj1 (proj2 (proj1 recursion_scaling
                           decimalFloor decimalFloor ∅ sample_fib None))
             sample_fib_body sample_fib_return sample_fib_call).
    + reflexivity.
    + reflexivity.
    + right. by left.
    + eapply within_child; [by left |].
      eapply within_child; [by left | apply within_self].
    + by split.
  - cbv zeta. split; [reflexivity |]. split; [reflexivity |].
    rewrite (proj1 (proj2 (proj2 (proj2 recursion_scaling
                                     decimalFloor "c" ∅ sample_c_recursive
                                     None))) FUNCTION_CALL).
    reflexivity.
  - cbv zeta. split; [reflexivity |]. split; [reflexivity |].
    rewrite (proj1 (proj2 (proj2 (proj2 recursion_scaling
                                     decimalFloor "c" ∅
                                     sample_c_pointer_recursive None)))
               FUNCTION_CALL).
    reflexivity.
Defined.

(** ** The while-loop estimate *)

Section PythonWhile.
Variable numberFloor parseFloatFloor : string -> option Z.
Variable vc : gmap string Z.

Local Abbreviation incrementStep :=
  (PythonTreeSitterAnalyzer.incrementStep numberFloor parseFloatFloor vc).
Local Abbreviation is_inc := (is_increment numberFloor parseFloatFloor vc).

Lemma incrementStep_spec (x : string) (stmt : SyntaxNode) (S : Z) :
  incrementStep x stmt = Some S <-> is_inc x S stmt.
Proof.
  unfold PythonTreeSitterAnalyzer.incrementStep, is_increment.
  destruct (String.eqb_spec (type stmt) "augmented_assignment") as [Hty | Hty];
    [| split; [done | tauto]].
  destruct (childForFieldName stmt "left") as [l |]; simpl;
    [| split; [done | intros (_ & (l & Hl & _) & _); done]].
  destruct (String.eqb_spec (text l) x) as [Hx | Hx]; simpl;
    [| split; [done | intros (_ & (l' & Hl & Hx') & _); congruence]].
  destruct (String.eqb_spec
              (PythonTreeSitterAnalyzer.getAugmentedOperator stmt) "+=")
    as [Hop | Hop]; [| split; [done | tauto]].
  destruct (childForFieldName stmt "right") as [r |];
    [| split; [done | intros (_ & _ & _ & (r & Hr & _) & _); done]].
  destruct (PythonTreeSitterAnalyzer.resolveConstantExpr _ _ _ r)
    as [step |] eqn:Hstep;
    [| split; [done | intros (_ & _ & _ & (r' & Hr & Hres) & _); congruence]].
  destruct (Z.ltb_spec 0 step) as [Hpos | Hpos].
  - split.
    + intros [= <-]. repeat split; eauto.
    + intros (_ & _ & _ & (r' & [= <-] & Hres) & _). congruence.
  - split; [done |].
    intros (_ & _ & _ & (r' & [= <-] & Hres) & Hlt).
    assert (step = S) by congruence. lia.
Qed.

Lemma scan_first_increment (x : string) (upper : Z) pre stmt post S :
  (forall s, In s pre -> incrementStep x s = None) ->
  incrementStep x stmt = Some S ->
  fold_right
    (fun stmt rest =>
       match incrementStep x stmt with
       | Some step => Z.max 1 (upper / step)
       | None => rest
       end)
    upper (pre ++ stmt :: post)
  = Z.max 1 (upper / S).
Proof.
  intros Hpre Hstmt. induction pre as [| s pre IH]; simpl.
  - by rewrite Hstmt.
  - rewrite (Hpre s) by (by left). apply IH. intros s' Hs'. apply Hpre. by right.
Qed.

Lemma scan_no_increment (x : string) (upper : Z) body :
  (forall s, In s body -> incrementStep x s = None) ->
  fold_right
    (fun stmt rest =>
       match incrementStep x stmt with
       | Some step => Z.max 1 (upper / step)
       | None => rest
       end)
    upper body
  = upper.
Proof.
  intros Hbody. induction body as [| s body IH]; simpl; [done |].
  rewrite (Hbody s) by (by left). apply IH. intros s' Hs'. apply Hbody. by right.
Qed.

Lemma not_increment_None (x : string) (s : SyntaxNode) :
  (forall S, ~ is_inc x S s) -> incrementStep x s = None.
Proof.
  intros Hno. destruct (incrementStep x s) as [S |] eqn:Hs; [| done].
  apply incrementStep_spec in Hs. by apply Hno in Hs.
Qed.

Lemma while_upper_scan (condition whileNode x rhs : SyntaxNode)
    (op : string) (N : Z) :
  type condition = "comparison_operator" ->
  namedChildren condition = [x; rhs] ->
  type x = "identifier" ->
  PythonTreeSitterAnalyzer.comparisonOps condition = [op] ->
  op = "<" \/ op = "<=" ->
  PythonTreeSitterAnalyzer.resolveConstantExpr numberFloor parseFloatFloor vc rhs
  = Some N ->
  PythonTreeSitterAnalyzer.estimateWhileIterations
    numberFloor parseFloatFloor vc condition whileNode
  = fold_right
      (fun stmt rest =>
         match incrementStep (text x) stmt with
         | Some step => Z.max 1 (N / step)
         | None => rest
         end)
      N (py_body_statements whileNode).
Proof.
  intros Hty Hnamed Hx Hops Hop Hres.
  unfold PythonTreeSitterAnalyzer.estimateWhileIterations, py_body_statements.
  rewrite Hty, Hnamed, Hops, Hx. simpl.
  assert (Hlt : (op =? "<")%string || (op =? "<=")%string = true)
    by (destruct Hop as [-> | ->]; reflexivity).
  rewrite Hlt, Hres. reflexivity.
Qed.

End PythonWhile.

(** C9.  For a Python while loop whose condition is [x < N] or [x <= N] with
    [N] resolving to a constant, the scan for the increment looks at the
    statements of the body block themselves: the estimate is
    max(1, floor(N / S)) for the first of them that is an augmented
    assignment [x += S] whose step resolves to a positive constant, and [N]
    when none of them is.  The Python grammar puts an augmented assignment
    inside an expression statement, never directly into a block: a loop
    whose body statements are not themselves augmented assignments gets
    the estimate [N], also when its body holds [x += S]. *)
Theorem while_increment_estimate
    (numberFloor parseFloatFloor : string -> option Z) (vc : gmap string Z)
    (condition whileNode x rhs : SyntaxNode) (op : string) (N : Z) :
  type condition = "comparison_operator" ->
  namedChildren condition = [x; rhs] ->
  type x = "identifier" ->
  PythonTreeSitterAnalyzer.comparisonOps condition = [op] ->
  op = "<" \/ op = "<=" ->
  PythonTreeSitterAnalyzer.resolveConstantExpr numberFloor parseFloatFloor vc rhs
  = Some N ->
  let estimate :=
    PythonTreeSitterAnalyzer.estimateWhileIterations
      numberFloor parseFloatFloor vc condition whileNode in
  let increment := is_increment numberFloor parseFloatFloor vc (text x) in
  (forall pre stmt post S,
     py_body_statements whileNode = pre ++ stmt :: post ->
     increment S stmt ->
     (forall s S', In s pre -> ~ increment S' s) ->
     estimate = Z.max 1 (N / S))
  /\ ((forall s S', In s (py_body_statements whileNode) -> ~ increment S' s) ->
      estimate = N)
  /\ ((forall s, In s (py_body_statements whileNode) ->
                 type s <> "augmented_assignment") ->
      estimate = N).
Proof.
  intros Hty Hnamed Hx Hops Hop Hres. cbv zeta.
  rewrite (while_upper_scan _ _ _ condition whileNode x rhs op N) by done.
  split; [| split].
  - intros pre stmt post S Hbody Hinc Hpre. rewrite Hbody.
    apply scan_first_increment.
    + intros s Hs. apply not_increment_None. intros S'. by apply Hpre.
    + by apply incrementStep_spec.
  - intros Hnone. apply scan_no_increment.
    intros s Hs. apply not_increment_None. intros S'. by apply Hnone.
  - intros Hwrapped. apply scan_no_increment.
    intros s Hs. apply not_increment_None. intros S' [Haug _].
    by apply (Hwrapped s Hs).
Qed.

(** [while i < 10: i += 2] as the parser gives it: the estimate is 10, not
    max(1, floor(10 / 2)) = 5, although the increment of the body is an
    increment of [i] by 2. *)
Lemma while_increment_estimate_witness :
  PythonTreeSitterAnalyzer.estimateWhileIterations
    decimalFloor decimalFloor ∅ sample_while_condition sample_while
  = 10
  /\ Z.max 1 (10 / 2) = 5
  /\ is_increment decimalFloor decimalFloor ∅ "i" 2 sample_increment
  /\ py_body_statements sample_while
     = [node "expression_statement" [sample_increment]].
Proof.
  split; [| split; [reflexivity | split; [| reflexivity]]].
  - apply (proj2 (proj2 (while_increment_estimate decimalFloor decimalFloor ∅
                           sample_while_condition sample_while
                           sample_while_variable sample_while_bound "<" 10
                           eq_refl eq_refl eq_refl eq_refl (or_introl eq_refl)
                           eq_refl))).
    intros s [<- | []]. discriminate.
  - unfold is_increment. repeat split; try reflexivity.
    + by eexists.
    + by eexists.
Defined.

(** ** Exponentiation *)

(** The count a binary node gets from its two operands. *)
Lemma python_exponent numberFloor parseFloatFloor vc (node : SyntaxNode)
    (m : Z) (k : OpType) :
  type node = "binary_operator" ->
  PythonTreeSitterAnalyzer.getOperatorText node = "**" ->
  count_of (PythonTreeSitterAnalyzer.analyzeExpression
              numberFloor parseFloatFloor vc node m) k
  = (if decide (k = MULTIPLICATION) then 10 * m else 0)
    + count_opt (option_map
                   (fun c => PythonTreeSitterAnalyzer.analyzeExpression
                               numberFloor parseFloatFloor vc c m)
                   (childForFieldName node "left")) k
    + count_opt (option_map
                   (fun c => PythonTreeSitterAnalyzer.analyzeExpression
                               numberFloor parseFloatFloor vc c m)
                   (childForFieldName node "right")) k.
Proof.
  intros Hty Hop. destruct node as [ty txt nm row fld kids].
  simpl in Hty. subst ty.
  cbn [PythonTreeSitterAnalyzer.analyzeExpression type children].
  rewrite Hop. known_type.
  unfold childForFieldName. cbn [children].
  repeat open_lookup; cbn [count_opt option_map];
    rewrite ?count_of_merge, ?count_of_add, ?count_of_new;
    repeat case_decide; try congruence; lia.
Qed.

Lemma cfamily_exponent numberFloor language vc (node : SyntaxNode)
    (m : Z) (k : OpType) :
  type node = "binary_expression" ->
  CFamilyTreeSitterAnalyzer.getOperatorText node = "**" ->
  count_of (CFamilyTreeSitterAnalyzer.analyzeExpression
              numberFloor language vc node m).1 k
  = (if decide (k = ADDITION) then m else 0)
    + count_opt (option_map
                   (fun c => (CFamilyTreeSitterAnalyzer.analyzeExpression
                                numberFloor language vc c m).1)
                   (childForFieldName node "left")) k
    + count_opt (option_map
                   (fun c => (CFamilyTreeSitterAnalyzer.analyzeExpression
                                numberFloor language vc c m).1)
                   (childForFieldName node "right")) k.
Proof.
  intros Hty Hop. rewrite cfamily_analyzeExpression_unfold.
  unfold CFamilyTreeSitterAnalyzer.analyzeExpression_body.
  rewrite Hty, Hop. known_type.
  unfold childForFieldName.
  repeat open_lookup; cbn [count_opt option_map];
    rewrite ?count_of_counted_merge; simpl;
    rewrite ?count_of_add, ?count_of_new;
    repeat case_decide; try congruence; lia.
Qed.

(** C7.  In the Python walker an exponentiation [**] at multiplier m adds
    10 * m to the multiplication count.  The C-family walker has no case for
    [**]: there the operator adds m to the addition count and nothing to the
    multiplication count. *)
Theorem exponent_operator_counts :
  (forall numberFloor parseFloatFloor vc node m k,
     type node = "binary_operator" ->
     PythonTreeSitterAnalyzer.getOperatorText node = "**" ->
     count_of (PythonTreeSitterAnalyzer.analyzeExpression
                 numberFloor parseFloatFloor vc node m) k
     = (if decide (k = MULTIPLICATION) then 10 * m else 0)
       + count_opt (option_map
                      (fun c => PythonTreeSitterAnalyzer.analyzeExpression
                                  numberFloor parseFloatFloor vc c m)
                      (childForFieldName node "left")) k
       + count_opt (option_map
                      (fun c => PythonTreeSitterAnalyzer.analyzeExpression
                                  numberFloor parseFloatFloor vc c m)
                      (childForFieldName node "right")) k)
  /\ (forall numberFloor language vc node m k,
        type node = "binary_expression" ->
        CFamilyTreeSitterAnalyzer.getOperatorText node = "**" ->
        count_of (CFamilyTreeSitterAnalyzer.analyzeExpression
                    numberFloor language vc node m).1 k
        = (if decide (k = ADDITION) then m else 0)
          + count_opt (option_map
                         (fun c => (CFamilyTreeSitterAnalyzer.analyzeExpression
                                      numberFloor language vc c m).1)
                         (childForFieldName node "left")) k
          + count_opt (option_map
                         (fun c => (CFamilyTreeSitterAnalyzer.analyzeExpression
                                      numberFloor language vc c m).1)
                         (childForFieldName node "right")) k).
Proof.
  split; intros; [by apply python_exponent | by apply cfamily_exponent].
Qed.

Lemma exponent_operator_counts_witness :
  count_of (PythonTreeSitterAnalyzer.analyzeExpression
              decimalFloor decimalFloor ∅ sample_py_power 3) MULTIPLICATION
  = 30
  /\ count_of (CFamilyTreeSitterAnalyzer.analyzeExpression
                 decimalFloor "javascript" ∅ sample_js_power 3).1
              MULTIPLICATION
     = 0
  /\ count_of (CFamilyTreeSitterAnalyzer.analyzeExpression
                 decimalFloor "javascript" ∅ sample_js_power 3).1 ADDITION
     = 3.
Proof.
  split; [| split].
  - rewrite (proj1 exponent_operator_counts decimalFloor decimalFloor ∅
               sample_py_power 3 MULTIPLICATION); reflexivity.
  - rewrite (proj2 exponent_operator_counts decimalFloor "javascript" ∅
               sample_js_power 3 MULTIPLICATION); reflexivity.
  - rewrite (proj2 exponent_operator_counts decimalFloor "javascript" ∅
               sample_js_power 3 ADDITION); reflexivity.
Defined.

(** ** Definition order *)

Lemma functions_fold_left {A} (step : AnalysisResult -> A -> AnalysisResult)
    (defs : A -> list FunctionAnalysis) (l : list A) (r : AnalysisResult) :
  (forall r x, functions (step r x) = functions r ++ defs x) ->
  functions (fold_left step l r) = functions r ++ flat_map defs l.
Proof.
  intros Hstep. revert r. induction l as [| x l IH]; intros r; simpl.
  - by rewrite app_nil_r.
  - by rewrite IH, Hstep, <- app_assoc.
Qed.

Lemma flat_map_map {A B C} (f : A -> list B) (g : B -> C) (l : list A) :
  flat_map (fun x => map g (f x)) l = map g (flat_map f l).
Proof.
  induction l as [| x l IH]; simpl; [done |]. by rewrite IH, map_app.
Qed.

Lemma flat_map_filter {A B} (p : A -> bool) (g : A -> B) (l : list A) :
  flat_map (fun x => if p x then [g x] else []) l = map g (List.filter p l).
Proof.
  induction l as [| x l IH]; simpl; [done |].
  destruct (p x); simpl; by rewrite IH.
Qed.

Section PythonOrder.
Variable numberFloor parseFloatFloor : string -> option Z.
Variable vc : gmap string Z.

Local Abbreviation record :=
  (fun d : SyntaxNode * option string =>
     (PythonTreeSitterAnalyzer.analyzeFunction
        numberFloor parseFloatFloor vc d.1 d.2).1).

Lemma python_analyzeClass_functions (r : AnalysisResult) (classNode : SyntaxNode) :
  functions (PythonTreeSitterAnalyzer.analyzeClass
               numberFloor parseFloatFloor vc r classNode)
  = functions r ++ map record (py_class_definitions classNode).
Proof.
  unfold PythonTreeSitterAnalyzer.analyzeClass, py_class_definitions.
  destruct (childForFieldName classNode "body") as [body |];
    [| by rewrite app_nil_r].
  rewrite <- flat_map_map. apply functions_fold_left.
  intros r' item.
  destruct (type item =? "function_definition")%string; [done |].
  destruct (type item =? "decorated_definition")%string;
    [| by rewrite app_nil_r].
  destruct (PythonTreeSitterAnalyzer.findChildByType item _);
    [done | by rewrite app_nil_r].
Qed.

Lemma python_analyzeTopLevel_functions (r : AnalysisResult) (child : SyntaxNode) :
  functions (PythonTreeSitterAnalyzer.analyzeTopLevel
               numberFloor parseFloatFloor vc r child)
  = functions r ++ map record (py_definitions_of child).
Proof.
  unfold PythonTreeSitterAnalyzer.analyzeTopLevel, py_definitions_of.
  destruct (type child =? "function_definition")%string; [done |].
  destruct (type child =? "decorated_definition")%string.
  { destruct (List.find _ (children child)) as [innerDef |];
      [| by rewrite app_nil_r].
    destruct (type innerDef =? "function_definition")%string; [done |].
    apply python_analyzeClass_functions. }
  destruct (type child =? "class_definition")%string;
    [apply python_analyzeClass_functions |].
  simpl. by rewrite app_nil_r.
Qed.

End PythonOrder.

Lemma python_analyze_functions numberFloor parseFloatFloor rootNode filePath :
  functions (PythonTreeSitterAnalyzer.analyze
               numberFloor parseFloatFloor rootNode filePath)
  = map (fun d =>
           (PythonTreeSitterAnalyzer.analyzeFunction
              numberFloor parseFloatFloor
              (PythonTreeSitterAnalyzer.extractConstants
                 numberFloor parseFloatFloor rootNode ∅) d.1 d.2).1)
        (py_definitions rootNode).
Proof.
  unfold PythonTreeSitterAnalyzer.analyze, py_definitions.
  rewrite <- flat_map_map.
  rewrite (functions_fold_left _ _ _ _
             (python_analyzeTopLevel_functions _ _ _)).
  done.
Qed.

Section CFamilyOrder.
Variable numberFloor : string -> option Z.
Variable language : string.
Variable vc : gmap string Z.

Local Abbreviation record :=
  (fun d : SyntaxNode * option string =>
     (CFamilyTreeSitterAnalyzer.analyzeFunction
        numberFloor language vc d.1 d.2).1).

Lemma cfamily_analyzeClass_functions (r : AnalysisResult) (classNode : SyntaxNode) :
  functions (CFamilyTreeSitterAnalyzer.analyzeClass
               numberFloor language vc r classNode)
  = functions r ++ map record (cfamily_class_definitions classNode).
Proof.
  unfold CFamilyTreeSitterAnalyzer.analyzeClass, cfamily_class_definitions.
  destruct (or_else _ _) as [body |]; [| by rewrite app_nil_r].
  rewrite (functions_fold_left _
             (fun item => if CFamilyTreeSitterAnalyzer.isFunctionDef item
                          then [record (item, Some (text_or (childForFieldName classNode "name") "UnknownClass"))] else [])).
  - by rewrite flat_map_filter, map_map.
  - intros r' item.
    destruct (CFamilyTreeSitterAnalyzer.isFunctionDef item);
      [done | by rewrite app_nil_r].
Qed.

Lemma cfamily_analyzeTopLevel_functions (r : AnalysisResult) (child : SyntaxNode) :
  functions (CFamilyTreeSitterAnalyzer.analyzeTopLevel
               numberFloor language vc r child)
  = functions r ++ map record (cfamily_definitions_of child).
Proof.
  unfold CFamilyTreeSitterAnalyzer.analyzeTopLevel, cfamily_definitions_of.
  destruct (CFamilyTreeSitterAnalyzer.isFunctionDef child); [done |].
  destruct (CFamilyTreeSitterAnalyzer.isClassDef child);
    [apply cfamily_analyzeClass_functions |].
  simpl. by rewrite app_nil_r.
Qed.

End CFamilyOrder.

Lemma cfamily_analyze_functions numberFloor language rootNode filePath :
  functions (CFamilyTreeSitterAnalyzer.analyze
               numberFloor language rootNode filePath)
  = map (fun d =>
           (CFamilyTreeSitterAnalyzer.analyzeFunction numberFloor language
              (CFamilyTreeSitterAnalyzer.extractConstants
                 numberFloor rootNode ∅) d.1 d.2).1)
        (cfamily_definitions rootNode).
Proof.
  unfold CFamilyTreeSitterAnalyzer.analyze, cfamily_definitions.
  rewrite <- flat_map_map.
  rewrite (functions_fold_left _ _ _ _
             (cfamily_analyzeTopLevel_functions _ _ _)).
  done.
Qed.

(** C5.  [hotspots] is the first five entries of the functions sorted by
    [weightedOps], largest first, functions of equal weight keeping the order
    they have in [functions]; it has min(5, number of functions) entries; and
    the walkers fill [functions] in the order of the definitions in the
    tree. *)
Theorem hotspots_top_five :
  (forall r : AnalysisResult,
     exists sorted,
       Permutation sorted (functions r)
       /\ StronglySorted (key_ge FunctionAnalysis.weightedOps) sorted
       /\ (forall w,
             filter (fun f => FunctionAnalysis.weightedOps f = w) sorted
             = filter (fun f => FunctionAnalysis.weightedOps f = w)
                      (functions r))
       /\ AnalysisResult.hotspots r = firstn 5 sorted
       /\ length (AnalysisResult.hotspots r)
          = Nat.min 5 (length (functions r)))
  /\ (forall numberFloor parseFloatFloor rootNode filePath,
        functions (PythonTreeSitterAnalyzer.analyze
                     numberFloor parseFloatFloor rootNode filePath)
        = map (fun d =>
                 (PythonTreeSitterAnalyzer.analyzeFunction
                    numberFloor parseFloatFloor
                    (PythonTreeSitterAnalyzer.extractConstants
                       numberFloor parseFloatFloor rootNode ∅) d.1 d.2).1)
              (py_definitions rootNode))
  /\ (forall numberFloor language rootNode filePath,
        functions (CFamilyTreeSitterAnalyzer.analyze
                     numberFloor language rootNode filePath)
        = map (fun d =>
                 (CFamilyTreeSitterAnalyzer.analyzeFunction numberFloor language
                    (CFamilyTreeSitterAnalyzer.extractConstants
                       numberFloor rootNode ∅) d.1 d.2).1)
              (cfamily_definitions rootNode)).
Proof.
  split; [| split;
            [apply python_analyze_functions | apply cfamily_analyze_functions]].
  intros r.
  exists (array_sort (by_key_desc FunctionAnalysis.weightedOps) (functions r)).
  split; [apply array_sort_perm |].
  split; [apply array_sort_sorted |].
  split; [intros w; apply array_sort_stable |].
  split; [reflexivity |].
  unfold AnalysisResult.hotspots.
  change (fun a b => FunctionAnalysis.weightedOps b - FunctionAnalysis.weightedOps a)
    with (by_key_desc FunctionAnalysis.weightedOps).
  rewrite length_firstn.
  by rewrite (Permutation_length (array_sort_perm _ (functions r))).
Qed.

(** ** Language selection *)

Lemma assumptions_fold_left {A} (step : AnalysisResult -> A -> AnalysisResult)
    (l : list A) (r : AnalysisResult) :
  (forall r x, exists more, assumptions (step r x) = assumptions r ++ more) ->
  exists more, assumptions (fold_left step l r) = assumptions r ++ more.
Proof.
  intros Hstep. revert r. induction l as [| x l IH]; intros r; simpl.
  - exists []. by rewrite app_nil_r.
  - destruct (IH (step r x)) as [more Hmore].
    destruct (Hstep r x) as [more' Hmore'].
    exists (more' ++ more). by rewrite Hmore, Hmore', <- app_assoc.
Qed.

Lemma python_analyze_assumptions numberFloor parseFloatFloor rootNode filePath :
  exists more,
    assumptions (PythonTreeSitterAnalyzer.analyze
                   numberFloor parseFloatFloor rootNode filePath)
    = [energy_assumption; carbon_assumption] ++ more.
Proof.
  unfold PythonTreeSitterAnalyzer.analyze.
  apply (assumptions_fold_left
           (PythonTreeSitterAnalyzer.analyzeTopLevel numberFloor parseFloatFloor _)).
  intros r child. unfold PythonTreeSitterAnalyzer.analyzeTopLevel.
  assert (Hclass : forall r c, exists more,
    assumptions (PythonTreeSitterAnalyzer.analyzeClass
                   numberFloor parseFloatFloor
                   (PythonTreeSitterAnalyzer.extractConstants
                      numberFloor parseFloatFloor rootNode ∅) r c)
    = assumptions r ++ more).
  { intros r' c. unfold PythonTreeSitterAnalyzer.analyzeClass.
    destruct (childForFieldName c "body"); [| exists []; by rewrite app_nil_r].
    apply assumptions_fold_left. intros r'' item.
    repeat match goal with
           | |- context [if ?b then _ else _] => destruct b
           | |- context [match ?o with Some _ => _ | None => _ end] => destruct o
           end; simpl; eauto; exists []; by rewrite app_nil_r. }
  repeat match goal with
         | |- context [if ?b then _ else _] => destruct b
         | |- context [match ?o with Some _ => _ | None => _ end] => destruct o
         end; simpl; eauto; exists []; by rewrite app_nil_r.
Qed.

Lemma cfamily_analyze_assumptions numberFloor language rootNode filePath :
  exists more,
    assumptions (CFamilyTreeSitterAnalyzer.analyze
                   numberFloor language rootNode filePath)
    = ["Tree-sitter AST-based analysis for " +:+ language;
       energy_assumption; carbon_assumption] ++ more.
Proof.
  unfold CFamilyTreeSitterAnalyzer.analyze.
  apply (assumptions_fold_left
           (CFamilyTreeSitterAnalyzer.analyzeTopLevel numberFloor language _)).
  intros r child. unfold CFamilyTreeSitterAnalyzer.analyzeTopLevel.
  assert (Hclass : forall r c, exists more,
    assumptions (CFamilyTreeSitterAnalyzer.analyzeClass
                   numberFloor language
                   (CFamilyTreeSitterAnalyzer.extractConstants
                      numberFloor rootNode ∅) r c)
    = assumptions r ++ more).
  { intros r' c. unfold CFamilyTreeSitterAnalyzer.analyzeClass.
    destruct (or_else _ _); [| exists []; by rewrite app_nil_r].
    apply assumptions_fold_left. intros r'' item.
    destruct (CFamilyTreeSitterAnalyzer.isFunctionDef item); simpl; eauto.
    exists []; by rewrite app_nil_r. }
  repeat match goal with
         | |- context [if ?b then _ else _] => destruct b
         end; simpl; eauto.
Qed.

Section Selection.
Variable extnameLower : string -> string.
Variable test : Heuristic -> string -> bool.
Variable scan : string -> string -> Scan.
Variable isTreeSitterReady : bool.
Variable isGrammarAvailable : string -> bool.
Variable parseCode : string -> string -> option SyntaxNode.
Variable numberFloor parseFloatFloor : string -> option Z.

Lemma EXT_MAP_nonempty (ext lang : string) :
  EXT_MAP ext = Some lang -> lang <> "".
Proof.
  unfold EXT_MAP.
  repeat match goal with
         | |- context [if ?b then _ else _] => destruct b
         end; intros [= <-]; done.
Qed.

Lemma detectLanguage_nonempty (filePath : option string) (code : string) :
  detectLanguage extnameLower test filePath code <> "".
Proof.
  unfold detectLanguage.
  destruct (if truthy filePath then _ else None) as [lang |] eqn:Hext.
  - destruct (truthy filePath); [| done]. by eapply EXT_MAP_nonempty.
  - repeat match goal with
           | |- context [if ?b then _ else _] => destruct b
           end; done.
Qed.

Lemma chosenLanguage_nonempty (code : string)
    (filePath languageOverride : option string) :
  chosenLanguage extnameLower test code filePath languageOverride <> "".
Proof.
  unfold chosenLanguage.
  destruct languageOverride as [lang |]; simpl;
    [| apply detectLanguage_nonempty].
  destruct (String.eqb_spec lang ""); simpl;
    [apply detectLanguage_nonempty | done].
Qed.

Lemma RegexAnalyzer_assumptions (language code : string)
    (filePath : option string) :
  assumptions (RegexAnalyzer_analyze scan language code filePath)
  = ["Regex-based analysis (tree-sitter unavailable) for " +:+ language;
     energy_assumption; carbon_assumption]
    ++ scanLines (scan language code).
Proof. reflexivity. Qed.

Lemma sync_is_fallback (code : string) (filePath languageOverride : option string) :
  estimateCarbonFootprintSync extnameLower test scan code filePath languageOverride
  = RegexAnalyzer_analyze scan
      (chosenLanguage extnameLower test code filePath languageOverride)
      code filePath.
Proof.
  unfold estimateCarbonFootprintSync.
  destruct (String.eqb_spec
              (chosenLanguage extnameLower test code filePath languageOverride)
              ""); [| done].
  by destruct (chosenLanguage_nonempty code filePath languageOverride).
Qed.

Lemma sync_never_undetected (code : string)
    (filePath languageOverride : option string) :
  assumptions (estimateCarbonFootprintSync extnameLower test scan
                 code filePath languageOverride)
  <> [undetected_assumption].
Proof. rewrite sync_is_fallback, RegexAnalyzer_assumptions. done. Qed.

Lemma async_never_undetected (code : string)
    (filePath languageOverride : option string) :
  assumptions (estimateCarbonFootprint extnameLower test scan isTreeSitterReady
                 isGrammarAvailable parseCode numberFloor parseFloatFloor
                 code filePath languageOverride)
  <> [undetected_assumption].
Proof.
  unfold estimateCarbonFootprint.
  destruct (String.eqb_spec
              (chosenLanguage extnameLower test code filePath languageOverride)
              "") as [Hempty | _];
    [by destruct (chosenLanguage_nonempty code filePath languageOverride) |].
  match goal with
  | |- context [match ?o with Some _ => _ | None => _ end] =>
      destruct o as [rootNode |]
  end.
  - destruct (String.eqb
                (chosenLanguage extnameLower test code filePath languageOverride)
                "python").
    + destruct (python_analyze_assumptions numberFloor parseFloatFloor
                  rootNode filePath) as [more ->]. done.
    + destruct (cfamily_analyze_assumptions numberFloor
                  (chosenLanguage extnameLower test code filePath languageOverride)
                  rootNode filePath) as [more ->]. done.
  - rewrite RegexAnalyzer_assumptions. done.
Qed.

Lemma detectLanguage_default (filePath : option string) (code : string) :
  (truthy filePath = true ->
   EXT_MAP (extnameLower (default "" filePath)) = None) ->
  heuristic_matches test code = false ->
  detectLanguage extnameLower test filePath code = "python".
Proof.
  intros Hext Htest. unfold detectLanguage.
  assert (Hnone : (if truthy filePath
                   then EXT_MAP (extnameLower (default "" filePath))
                   else None) = None)
    by (destruct (truthy filePath); [by apply Hext | done]).
  rewrite Hnone. unfold heuristic_matches in Htest.
  destruct (negb (code == "")); [| done]. simpl in Htest.
  repeat match goal with
         | |- context [if ?b then _ else _] =>
             destruct b eqn:?; simpl in Htest; try discriminate Htest
         end; try done;
    repeat match goal with
           | H : _ && _ = true |- _ => apply andb_true_iff in H as [? ?]
           end;
    repeat match goal with
           | H : test ?h code = _ |- _ => rewrite H in *; clear H
           end; simpl in *; congruence.
Qed.

End Selection.

(** C6 (as the code has it).  For an input with no recognised extension and
    no matching heuristic (none of the six conditions of the chain holds,
    though one regular expression of a heuristic that needs two may match),
    [detectLanguage] returns the default "python";
    without an override the synchronous entry point then returns the
    fallback analyzer's result for python, whose assumptions begin with its
    three opening lines; and neither entry point ever returns the result
    whose single assumption is the undetected-language line. *)
Theorem undetectable_defaults_to_python
    (extnameLower : string -> string) (test : Heuristic -> string -> bool)
    (scan : string -> string -> Scan) (code : string)
    (filePath : option string) :
  (truthy filePath = true ->
   EXT_MAP (extnameLower (default "" filePath)) = None) ->
  heuristic_matches test code = false ->
  let result :=
    estimateCarbonFootprintSync extnameLower test scan code filePath None in
  detectLanguage extnameLower test filePath code = "python"
  /\ result = RegexAnalyzer_analyze scan "python" code filePath
  /\ language result = "python"
  /\ assumptions result
     = ["Regex-based analysis (tree-sitter unavailable) for python";
        energy_assumption; carbon_assumption]
       ++ scanLines (scan "python" code)
  /\ (forall languageOverride,
        assumptions (estimateCarbonFootprintSync extnameLower test scan
                       code filePath languageOverride)
        <> [undetected_assumption])
  /\ (forall isTreeSitterReady isGrammarAvailable parseCode
             numberFloor parseFloatFloor languageOverride,
        assumptions (estimateCarbonFootprint extnameLower test scan
                       isTreeSitterReady isGrammarAvailable parseCode
                       numberFloor parseFloatFloor
                       code filePath languageOverride)
        <> [undetected_assumption]).
Proof.
  intros Hext Htest. cbv zeta.
  pose proof (detectLanguage_default extnameLower test filePath code Hext Htest)
    as Hpy.
  assert (Hsync :
    estimateCarbonFootprintSync extnameLower test scan code filePath None
    = RegexAnalyzer_analyze scan "python" code filePath).
  { rewrite sync_is_fallback. unfold chosenLanguage. simpl. by rewrite Hpy. }
  split; [exact Hpy |]. split; [exact Hsync |]. rewrite Hsync.
  split; [reflexivity |]. split; [reflexivity |].
  split; [intros; apply sync_never_undetected |].
  intros; apply async_never_undetected.
Qed.

(** [note: hello] with no path: the second regular expression of the
    TypeScript heuristic matches, the first does not. *)
Lemma undetectable_defaults_to_python_witness :
  assumptions (estimateCarbonFootprintSync
                 (fun _ => "")
                 (fun h _ => match h with TS_ANNOTATION => true | _ => false end)
                 (fun _ _ => mkScan [] OperationCount.new [])
                 "note: hello" None None)
  = ["Regex-based analysis (tree-sitter unavailable) for python";
     energy_assumption; carbon_assumption].
Proof.
  apply (undetectable_defaults_to_python
           (fun _ => "")
           (fun h _ => match h with TS_ANNOTATION => true | _ => false end)
           (fun _ _ => mkScan [] OperationCount.new []) "note: hello" None).
  - simpl. discriminate.
  - reflexivity.
Defined.

(** C6 fails as stated: on the empty text with no path, whatever the
    collaborators do, the result is not the one with the single
    undetected-language assumption. *)
Lemma undetectable_counterexample :
  ~ (exists extnameLower test scan,
       let result :=
         estimateCarbonFootprintSync extnameLower test scan "" None None in
       functions result = []
       /\ assumptions result = [undetected_assumption]).
Proof.
  intros (extnameLower & test & scan & _ & Hone).
  by apply sync_never_undetected in Hone.
Qed.

(* ===================================================================== *)
(** * Further properties                                                  *)
(* ===================================================================== *)

(** ** Counters: scaling, raw totals, summaries *)

Lemma totalRaw_sum (c : OperationCount) :
  OperationCount.totalRaw c = raw_sum (count_of c).
Proof.
  unfold OperationCount.totalRaw.
  apply (map_fold_weak_ind (fun r m => r = raw_sum (count_of m))).
  - unfold raw_sum. simpl. rewrite !count_of_empty. lia.
  - intros i x m r Hi ->. apply count_of_None in Hi.
    unfold raw_sum. simpl. rewrite !count_of_insert.
    destruct i; simpl; repeat case_decide; try congruence; lia.
Qed.

(** X1.  [scale(factor)] multiplies every count by [factor], and with them the
    weighted and the raw total; the counter it returns holds all twelve kinds,
    whatever the keys of the counter it scales. *)
Theorem scale_multiplies (c : OperationCount) (factor : Z) :
  (forall k, count_of (OperationCount.scale c factor) k = count_of c k * factor)
  /\ OperationCount.totalWeighted (OperationCount.scale c factor)
     = OperationCount.totalWeighted c * factor
  /\ OperationCount.totalRaw (OperationCount.scale c factor)
     = OperationCount.totalRaw c * factor
  /\ (forall k, is_Some (OperationCount.scale c factor !! k)).
Proof.
  split; [intros k; apply count_of_scale |].
  split; [| split; [| apply full_scale]].
  - rewrite !totalWeighted_sum. unfold weighted_sum. simpl.
    rewrite !count_of_scale. lia.
  - rewrite !totalRaw_sum. unfold raw_sum. simpl.
    rewrite !count_of_scale. lia.
Qed.

(** X2.  [totalRaw] is additive: the raw total of a merge is the sum of the
    two raw totals, [add(k, n)] raises it by [n], and a fresh counter has raw
    total 0. *)
Theorem totalRaw_additive (a b : OperationCount) (k : OpType) (n : Z) :
  OperationCount.totalRaw (OperationCount.merge a b)
  = OperationCount.totalRaw a + OperationCount.totalRaw b
  /\ OperationCount.totalRaw (OperationCount.add a k n)
     = OperationCount.totalRaw a + n
  /\ OperationCount.totalRaw OperationCount.new = 0.
Proof.
  rewrite !totalRaw_sum. unfold raw_sum. simpl.
  rewrite !count_of_merge, !count_of_add, !count_of_new.
  split; [lia |]. split; [| lia].
  destruct k; simpl; lia.
Qed.

Lemma OpType_value_inj : Inj (=) (=) OpType_value.
Proof. intros [] []; simpl; intros H; try done; discriminate H. Qed.

(** X3.  [summaryDict()] holds exactly the kinds whose count is positive,
    under their string values and with their counts: a zero or negative count
    never appears in it. *)
Theorem summaryDict_positive_entries (c : OperationCount) (key : string) (n : Z) :
  OperationCount.summaryDict c !! key = Some n
  <-> exists op, OpType_value op = key /\ c !! op = Some n /\ 0 < n.
Proof.
  unfold OperationCount.summaryDict. revert key n.
  apply (map_fold_weak_ind
           (fun r m => forall key n,
              r !! key = Some n
              <-> exists op, OpType_value op = key /\ m !! op = Some n /\ 0 < n)).
  - intros key n. rewrite lookup_empty. split; [done |].
    intros (op & _ & H & _). by rewrite lookup_empty in H.
  - intros i x m r Hi IH key n.
    destruct (Z.ltb_spec 0 x) as [Hx | Hx].
    + rewrite lookup_insert. case_decide as Hk.
      * subst key. split.
        -- intros [= <-]. exists i. rewrite lookup_insert.
           case_decide; [done | congruence].
        -- intros (op & Hop & Hl & Hn). apply OpType_value_inj in Hop. subst op.
           rewrite lookup_insert in Hl. case_decide; [done | congruence].
      * rewrite IH. split; intros (op & Hop & Hl & Hn); exists op.
        -- split; [done |]. split; [| done]. rewrite lookup_insert.
           case_decide; [| done]. subst. congruence.
        -- split; [done |]. split; [| done]. rewrite lookup_insert in Hl.
           case_decide; [| done]. subst. congruence.
    + rewrite IH. split; intros (op & Hop & Hl & Hn); exists op.
      * split; [done |]. split; [| done]. rewrite lookup_insert.
        case_decide; [| done]. subst. congruence.
      * split; [done |]. split; [| done]. rewrite lookup_insert in Hl.
        case_decide; [| done]. simplify_eq. lia.
Qed.

(** X4.  On counters built by the constructor, merging is commutative and
    associative, a fresh counter is neutral for it, and scaling distributes
    over it. *)
Theorem merge_scale_laws (a b c : OperationCount) (factor : Z) :
  full a -> full b ->
  OperationCount.merge a b = OperationCount.merge b a
  /\ OperationCount.merge (OperationCount.merge a b) c
     = OperationCount.merge a (OperationCount.merge b c)
  /\ OperationCount.merge a OperationCount.new = a
  /\ OperationCount.scale (OperationCount.merge a b) factor
     = OperationCount.merge (OperationCount.scale a factor)
                            (OperationCount.scale b factor).
Proof.
  intros Ha Hb. split; [| split; [| split]].
  - apply full_eq; [by apply full_merge | by apply full_merge |].
    intros k. rewrite !count_of_merge. lia.
  - apply full_eq; [by apply full_merge, full_merge | by apply full_merge |].
    intros k. rewrite !count_of_merge. lia.
  - apply full_eq; [by apply full_merge | done |].
    intros k. rewrite count_of_merge, count_of_new. lia.
  - apply full_eq; [apply full_scale | apply full_merge, full_scale |].
    intros k. rewrite count_of_scale, !count_of_merge, !count_of_scale. lia.
Qed.

Lemma merge_scale_laws_witness :
  OperationCount.merge (OperationCount.add OperationCount.new COMPARISON 3)
                       (OperationCount.add OperationCount.new IO_OPERATION 2)
  = OperationCount.merge (OperationCount.add OperationCount.new IO_OPERATION 2)
                         (OperationCount.add OperationCount.new COMPARISON 3).
Proof.
  refine (proj1 (merge_scale_laws
                   (OperationCount.add OperationCount.new COMPARISON 3)
                   (OperationCount.add OperationCount.new IO_OPERATION 2)
                   OperationCount.new 10 _ _)).
  - intros k. destruct k; vm_compute; eauto.
  - intros k. destruct k; vm_compute; eauto.
Defined.

Lemma totalWeighted_fold_merge {A} (f : A -> OperationCount) (l : list A)
    (init : OperationCount) :
  OperationCount.totalWeighted
    (fold_left (fun acc x => OperationCount.merge acc (f x)) l init)
  = OperationCount.totalWeighted init
    + sumZ (map (fun x => OperationCount.totalWeighted (f x)) l).
Proof.
  revert init. induction l as [| x l IH]; intros init; simpl; [lia |].
  rewrite IH. rewrite !totalWeighted_sum.
  rewrite (weighted_sum_ext _ _ (count_of_merge init (f x))).
  rewrite weighted_sum_plus. lia.
Qed.

(** X5.  The weighted total of a result is the weighted total of its global
    counter plus the sum of the [weightedOps] of its functions. *)
Theorem totalWeightedOps_sum_of_parts (r : AnalysisResult) :
  AnalysisResult.totalWeightedOps r
  = OperationCount.totalWeighted (globalOperations r)
    + sumZ (map FunctionAnalysis.weightedOps (functions r)).
Proof.
  unfold AnalysisResult.totalWeightedOps, AnalysisResult.totalOperations.
  rewrite totalWeighted_fold_merge. f_equal.
  rewrite !totalWeighted_sum.
  rewrite (weighted_sum_ext _ _ (count_of_merge _ _)), weighted_sum_plus.
  rewrite (weighted_sum_ext (count_of OperationCount.new) (fun _ => 0)
             count_of_new).
  unfold weighted_sum. simpl. lia.
Qed.


(** ** Language detection and the entry points *)

Lemma EXT_MAP_supported ext lang :
  EXT_MAP ext = Some lang -> In lang SUPPORTED_LANGUAGES.
Proof.
  unfold EXT_MAP.
  repeat match goal with
         | |- context [if ?b then _ else _] => destruct b
         end; intros [= <-]; simpl; tauto.
Qed.

(** X6.  [detectLanguage] always answers one of the six supported languages,
    whatever the path and the text. *)
Theorem detectLanguage_supported
    (extnameLower : string -> string) (test : Heuristic -> string -> bool)
    (filePath : option string) (code : string) :
  In (detectLanguage extnameLower test filePath code) SUPPORTED_LANGUAGES.
Proof.
  unfold detectLanguage.
  destruct (if truthy filePath then _ else None) as [lang |] eqn:Hext.
  - destruct (truthy filePath); [| done]. by eapply EXT_MAP_supported.
  - repeat match goal with
           | |- context [if ?b then _ else _] => destruct b
           end; simpl; tauto.
Qed.

Lemma header_fold_left {A} (step : AnalysisResult -> A -> AnalysisResult)
    (l : list A) (r : AnalysisResult) :
  (forall r x, language (step r x) = language r
               /\ filePath (step r x) = filePath r) ->
  language (fold_left step l r) = language r
  /\ filePath (fold_left step l r) = filePath r.
Proof.
  intros Hstep. revert r. induction l as [| x l IH]; intros r; simpl; [done |].
  destruct (IH (step r x)) as [-> ->]. apply Hstep.
Qed.

Lemma python_analyze_header numberFloor parseFloatFloor rootNode path :
  let result :=
    PythonTreeSitterAnalyzer.analyze numberFloor parseFloatFloor rootNode path in
  language result = "python" /\ filePath result = recorded_path path.
Proof.
  cbv zeta. unfold PythonTreeSitterAnalyzer.analyze.
  apply (header_fold_left
           (PythonTreeSitterAnalyzer.analyzeTopLevel numberFloor parseFloatFloor _)).
  intros r child. unfold PythonTreeSitterAnalyzer.analyzeTopLevel.
  assert (Hclass : forall r c,
    language (PythonTreeSitterAnalyzer.analyzeClass
                numberFloor parseFloatFloor
                (PythonTreeSitterAnalyzer.extractConstants
                   numberFloor parseFloatFloor rootNode ∅) r c) = language r
    /\ filePath (PythonTreeSitterAnalyzer.analyzeClass
                numberFloor parseFloatFloor
                (PythonTreeSitterAnalyzer.extractConstants
                   numberFloor parseFloatFloor rootNode ∅) r c)
       = filePath r).
  { intros r' c. unfold PythonTreeSitterAnalyzer.analyzeClass.
    destruct (childForFieldName c "body"); [| done].
    apply header_fold_left. intros r'' item.
    repeat match goal with
           | |- context [if ?b then _ else _] => destruct b
           | |- context [match ?o with Some _ => _ | None => _ end] => destruct o
           end; done. }
  repeat match goal with
         | |- context [if ?b then _ else _] => destruct b
         | |- context [match ?o with Some _ => _ | None => _ end] => destruct o
         end; try done; apply Hclass.
Qed.

Lemma cfamily_analyze_header numberFloor lang rootNode path :
  let result :=
    CFamilyTreeSitterAnalyzer.analyze numberFloor lang rootNode path in
  language result = lang /\ filePath result = recorded_path path.
Proof.
  cbv zeta. unfold CFamilyTreeSitterAnalyzer.analyze.
  apply (header_fold_left
           (CFamilyTreeSitterAnalyzer.analyzeTopLevel numberFloor lang _)).
  intros r child. unfold CFamilyTreeSitterAnalyzer.analyzeTopLevel.
  assert (Hclass : forall r c,
    language (CFamilyTreeSitterAnalyzer.analyzeClass
                numberFloor lang
                (CFamilyTreeSitterAnalyzer.extractConstants
                   numberFloor rootNode ∅) r c) = language r
    /\ filePath (CFamilyTreeSitterAnalyzer.analyzeClass
                numberFloor lang
                (CFamilyTreeSitterAnalyzer.extractConstants
                   numberFloor rootNode ∅) r c) = filePath r).
  { intros r' c. unfold CFamilyTreeSitterAnalyzer.analyzeClass.
    destruct (or_else _ _); [| done].
    apply header_fold_left. intros r'' item.
    destruct (CFamilyTreeSitterAnalyzer.isFunctionDef item); done. }
  repeat match goal with
         | |- context [if ?b then _ else _] => destruct b
         end; try done; apply Hclass.
Qed.

Section Entry.
Variable extnameLower : string -> string.
Variable test : Heuristic -> string -> bool.
Variable scan : string -> string -> Scan.
Variable isTreeSitterReady : bool.
Variable isGrammarAvailable : string -> bool.
Variable parseCode : string -> string -> option SyntaxNode.
Variable numberFloor parseFloatFloor : string -> option Z.

Local Abbreviation estimate :=
  (estimateCarbonFootprint extnameLower test scan isTreeSitterReady
     isGrammarAvailable parseCode numberFloor parseFloatFloor).
Local Abbreviation estimateSync :=
  (estimateCarbonFootprintSync extnameLower test scan).
Local Abbreviation chosen := (chosenLanguage extnameLower test).

Lemma async_header code path languageOverride :
  language (estimate code path languageOverride)
  = chosen code path languageOverride
  /\ filePath (estimate code path languageOverride)
     = recorded_path path.
Proof.
  unfold estimateCarbonFootprint.
  destruct (String.eqb_spec (chosen code path languageOverride) "")
    as [Hempty | _];
    [by destruct (chosenLanguage_nonempty extnameLower test
                    code path languageOverride) |].
  match goal with
  | |- context [match ?o with Some _ => _ | None => _ end] =>
      destruct o as [rootNode |]
  end; [| done].
  destruct (String.eqb_spec (chosen code path languageOverride) "python")
    as [-> | _].
  - apply python_analyze_header.
  - apply cfamily_analyze_header.
Qed.

End Entry.

(** X7.  When tree-sitter is not ready, or has no grammar for the language, or
    gives no tree for the text, [estimateCarbonFootprint] returns what
    [estimateCarbonFootprintSync] returns. *)
Theorem async_falls_back_to_sync
    (extnameLower : string -> string) (test : Heuristic -> string -> bool)
    (scan : string -> string -> Scan) (isTreeSitterReady : bool)
    (isGrammarAvailable : string -> bool)
    (parseCode : string -> string -> option SyntaxNode)
    (numberFloor parseFloatFloor : string -> option Z)
    (code : string) (path languageOverride : option string) :
  let grammarName :=
    getTreeSitterGrammarName
      (chosenLanguage extnameLower test code path languageOverride) in
  isTreeSitterReady = false
  \/ isGrammarAvailable grammarName = false
  \/ parseCode code grammarName = None ->
  estimateCarbonFootprint extnameLower test scan isTreeSitterReady
    isGrammarAvailable parseCode numberFloor parseFloatFloor
    code path languageOverride
  = estimateCarbonFootprintSync extnameLower test scan
      code path languageOverride.
Proof.
  cbv zeta. intros H.
  unfold estimateCarbonFootprint, estimateCarbonFootprintSync.
  destruct (String.eqb _ ""); [done |].
  destruct H as [-> | [-> | ->]]; simpl; [done | |].
  - by rewrite andb_false_r.
  - by destruct (_ && _).
Qed.

Lemma async_falls_back_to_sync_witness :
  estimateCarbonFootprint (fun _ => ".js") (fun _ _ => false)
    (fun _ _ => mkScan [] OperationCount.new []) false (fun _ => true)
    (fun _ _ => None) decimalFloor decimalFloor "f();" (Some "a.js") None
  = estimateCarbonFootprintSync (fun _ => ".js") (fun _ _ => false)
      (fun _ _ => mkScan [] OperationCount.new []) "f();" (Some "a.js") None.
Proof.
  apply (async_falls_back_to_sync
           (fun _ => ".js") (fun _ _ => false)
           (fun _ _ => mkScan [] OperationCount.new []) false (fun _ => true)
           (fun _ _ => None) decimalFloor decimalFloor "f();" (Some "a.js")
           None).
  left. reflexivity.
Defined.

(** X8.  Whichever analyzer runs, the result reports the language that was
    chosen (a non-empty override, else the detected language), the same for
    both entry points, and the path it was given. *)
Theorem result_reports_language_and_path
    (extnameLower : string -> string) (test : Heuristic -> string -> bool)
    (scan : string -> string -> Scan) (isTreeSitterReady : bool)
    (isGrammarAvailable : string -> bool)
    (parseCode : string -> string -> option SyntaxNode)
    (numberFloor parseFloatFloor : string -> option Z)
    (code : string) (path languageOverride : option string) :
  let result :=
    estimateCarbonFootprint extnameLower test scan isTreeSitterReady
      isGrammarAvailable parseCode numberFloor parseFloatFloor
      code path languageOverride in
  let resultSync :=
    estimateCarbonFootprintSync extnameLower test scan
      code path languageOverride in
  language result = language resultSync
  /\ (forall l, languageOverride = Some l -> l <> "" -> language result = l)
  /\ (truthy languageOverride = false ->
      language result = detectLanguage extnameLower test path code)
  /\ filePath result = recorded_path path
  /\ filePath resultSync = recorded_path path.
Proof.
  cbv zeta.
  destruct (async_header extnameLower test scan isTreeSitterReady
              isGrammarAvailable parseCode numberFloor parseFloatFloor
              code path languageOverride) as [Hl Hp].
  rewrite Hl, Hp, sync_is_fallback. simpl.
  split; [done |]. split; [| split; [| done]].
  - intros l -> Hne. unfold chosenLanguage. simpl.
    by destruct (String.eqb_spec l "").
  - intros Hover. unfold chosenLanguage. by rewrite Hover.
Qed.

Lemma result_reports_language_and_path_witness :
  language (estimateCarbonFootprint (fun _ => ".py") (fun _ _ => false)
              (fun _ _ => mkScan [] OperationCount.new []) true (fun _ => true)
              (fun _ _ => Some sample_c_braced) decimalFloor decimalFloor
              "" (Some "a.py") (Some "c"))
  = "c".
Proof.
  apply (proj1 (proj2 (result_reports_language_and_path
                         (fun _ => ".py") (fun _ _ => false)
                         (fun _ _ => mkScan [] OperationCount.new []) true
                         (fun _ => true) (fun _ _ => Some sample_c_braced)
                         decimalFloor decimalFloor "" (Some "a.py")
                         (Some "c"))) "c");
    [reflexivity | discriminate].
Defined.

(** ** The parser cache *)

Section ManagerFacts.
Import TreeSitterManager.
Context {Parser : Type}.
Implicit Types (h : Host Parser) (st : State Parser).

(** X9.  A call of [getParser] that returns a parser was made on an
    initialised module for a grammar that [isGrammarAvailable] reports; it
    changes the cache at that grammar only; and from then on the same parser
    is returned and the grammar is reported available whatever the file system
    holds. *)
Theorem getParser_caches h st st' (grammarName : string) (parser : Parser) :
  getParser h st grammarName = (Some parser, st') ->
  isTreeSitterReady st = true
  /\ isGrammarAvailable h st grammarName = true
  /\ parserCache st' !! grammarName = Some parser
  /\ (forall g, g <> grammarName -> parserCache st' !! g = parserCache st !! g)
  /\ (forall h', getParser h' st' grammarName = (Some parser, st')
                 /\ isGrammarAvailable h' st' grammarName = true).
Proof.
  assert (Hhit : forall h' s,
            initialized s = true -> parserCache s !! grammarName = Some parser ->
            getParser h' s grammarName = (Some parser, s)
            /\ isGrammarAvailable h' s grammarName = true).
  { intros h' s Hi Hc. unfold getParser, isGrammarAvailable.
    rewrite Hi, Hc. split; [done |].
    apply orb_true_iff. left. apply bool_decide_eq_true_2. eauto. }
  intros Hget. unfold getParser in Hget. unfold isTreeSitterReady.
  destruct (initialized st) eqn:Hi; simpl in Hget; [| done].
  destruct (parserCache st !! grammarName) as [p |] eqn:Hc.
  - injection Hget as -> <-. split; [done |].
    split; [by apply (Hhit h st) |]. split; [done |]. split; [done |].
    intros h'. by apply Hhit.
  - destruct (findGrammarWasm h st grammarName) as [w |] eqn:Hw; [| done].
    destruct (loadGrammar h w) as [p |]; [| done].
    injection Hget as -> <-. simpl. split; [done |].
    split.
    { unfold isGrammarAvailable. apply orb_true_iff. right.
      apply bool_decide_eq_true_2. rewrite Hw. eauto. }
    split; [by rewrite lookup_insert_eq |].
    split; [intros g Hg; by rewrite lookup_insert_ne |].
    intros h'. apply Hhit; [done |]. simpl. by rewrite lookup_insert_eq.
Qed.

(** X10.  The life cycle of the module. Once an initialisation has resolved, a
    later one changes nothing, whatever path it is given. An initialisation of
    a module that is not initialised records its path even when the runtime
    fails to start, and leaves the cache alone. After [disposeTreeSitter] the
    module is not ready and parses nothing, but it keeps the extension path,
    so [isGrammarAvailable] still answers from the files under it. *)
Theorem manager_life_cycle h h' st (extPath extPath' : string) :
  let started := initializeTreeSitter h st extPath in
  let disposed := disposeTreeSitter st in
  (started.2 = true ->
   initializeTreeSitter h' started.1 extPath' = (started.1, true))
  /\ (initialized st = false ->
      extensionPath started.1 = extPath
      /\ initialized started.1 = started.2
      /\ parserCache started.1 = parserCache st)
  /\ isTreeSitterReady disposed = false
  /\ (forall code g, parseCode h disposed code g = (None, disposed))
  /\ (forall g, isGrammarAvailable h disposed g
                = bool_decide (is_Some (findGrammarWasm h st g))).
Proof.
  cbv zeta. unfold initializeTreeSitter.
  split; [| split; [| split; [done | split; [done |]]]].
  - destruct (initialized st) eqn:Hi; simpl.
    + intros _. by rewrite Hi.
    + destruct (if existsSync h _ then _ else _); simpl; done.
  - intros ->. by destruct (if existsSync h _ then _ else _).
  - intros g. unfold isGrammarAvailable. simpl.
    rewrite lookup_empty. rewrite bool_decide_eq_false_2 by (by intros [? ?]).
    done.
Qed.

End ManagerFacts.

Lemma getParser_caches_witness :
  let h := TreeSitterManager.mkHost
             (String.concat "/") (fun _ => true) (fun _ => true)
             (fun _ => Some tt) (fun _ _ => None) in
  let st := TreeSitterManager.mkState ∅ true "/ext" in
  TreeSitterManager.isGrammarAvailable h st "python" = true.
Proof.
  cbv zeta.
  refine (proj1 (proj2 (getParser_caches
                          (TreeSitterManager.mkHost
                             (String.concat "/") (fun _ => true)
                             (fun _ => true) (fun _ => Some tt)
                             (fun _ _ => None))
                          (TreeSitterManager.mkState ∅ true "/ext")
                          (TreeSitterManager.mkState
                             (<["python" := tt]> ∅) true "/ext")
                          "python" tt _))).
  reflexivity.
Defined.

Lemma manager_life_cycle_witness :
  let h := TreeSitterManager.mkHost
             (String.concat "/") (fun _ => true) (fun _ => true)
             (fun _ => Some tt) (fun _ _ => None) in
  TreeSitterManager.initializeTreeSitter h
    (TreeSitterManager.initializeTreeSitter h
       (TreeSitterManager.initial (Parser := unit)) "/ext").1 "/other"
  = ((TreeSitterManager.initializeTreeSitter h
        (TreeSitterManager.initial (Parser := unit)) "/ext").1, true).
Proof.
  cbv zeta.
  apply (proj1 (manager_life_cycle
                  (TreeSitterManager.mkHost
                     (String.concat "/") (fun _ => true) (fun _ => true)
                     (fun _ => Some tt) (fun _ _ => None))
                  (TreeSitterManager.mkHost
                     (String.concat "/") (fun _ => true) (fun _ => true)
                     (fun _ => Some tt) (fun _ _ => None))
                  TreeSitterManager.initial "/ext" "/other")).
  reflexivity.
Defined.

(** ** Iteration estimates *)

Lemma ceil_div_step (x s : Z) : s <> 0 -> ceil_div (x - s) s = ceil_div x s - 1.
Proof.
  intros Hs. unfold ceil_div.
  replace (- (x - s)) with (- x + 1 * s) by lia.
  rewrite Z.div_add by done. lia.
Qed.

Lemma ceil_div_pos (x s : Z) : 0 < s -> 0 < x -> 1 <= ceil_div x s.
Proof.
  intros Hs Hx. unfold ceil_div.
  assert (- x / s < 0) by (apply Z.div_lt_upper_bound; lia). lia.
Qed.

Lemma ceil_div_nonpos (x s : Z) : 0 < s -> x <= 0 -> ceil_div x s <= 0.
Proof.
  intros Hs Hx. unfold ceil_div.
  assert (0 <= - x / s) by (apply Z.div_pos; lia). lia.
Qed.

Lemma ceil_div_opp (x s : Z) : ceil_div (- x) (- s) = ceil_div x s.
Proof.
  unfold ceil_div. rewrite Z.opp_involutive.
  destruct (decide (s = 0)) as [-> | Hs]; [by rewrite !Z.div_0_r |].
  by rewrite <- (Z.div_opp_opp (- x) s), Z.opp_involutive by done.
Qed.

Lemma ceil_div_bound (x s : Z) : 0 < s -> 0 <= x -> ceil_div x s <= x.
Proof.
  intros Hs Hx. unfold ceil_div.
  assert (- x <= - x / s); [| lia].
  apply Z.div_le_lower_bound; nia.
Qed.

Lemma range_from_length (fuel : nat) (start stop step : Z) :
  step <> 0 ->
  Z.max 0 (ceil_div (stop - start) step) <= Z.of_nat fuel ->
  Z.of_nat (length (range_from fuel start stop step))
  = Z.max 0 (ceil_div (stop - start) step).
Proof.
  intros Hstep. revert start.
  induction fuel as [| fuel IH]; intros start Hfuel; [simpl; lia |].
  cbn [range_from]. rewrite Nat2Z.inj_succ in Hfuel.
  destruct (Z.ltb_spec 0 step) as [Hpos | Hneg];
    [destruct (Z.ltb_spec start stop) as [Hlt | Hge] |
     destruct (Z.ltb_spec step 0) as [Hneg' | ?]; [| lia];
     destruct (Z.ltb_spec stop start) as [Hlt | Hge]]; simpl.
  - pose proof (ceil_div_pos (stop - start) step Hpos ltac:(lia)).
    rewrite Nat2Z.inj_succ, (IH (start + step));
      replace (stop - (start + step)) with (stop - start - step) by lia;
      rewrite ceil_div_step by done; lia.
  - destruct (Z.ltb_spec step 0); [lia |]. simpl.
    pose proof (ceil_div_nonpos (stop - start) step Hpos ltac:(lia)). lia.
  - pose proof (ceil_div_pos (start - stop) (- step) ltac:(lia) ltac:(lia)) as H.
    replace (start - stop) with (- (stop - start)) in H by lia.
    rewrite ceil_div_opp in H.
    rewrite Nat2Z.inj_succ, (IH (start + step));
      replace (stop - (start + step)) with (stop - start - step) by lia;
      rewrite ceil_div_step by done; lia.
  - pose proof (ceil_div_nonpos (start - stop) (- step) ltac:(lia) ltac:(lia)) as H.
    replace (start - stop) with (- (stop - start)) in H by lia.
    rewrite ceil_div_opp in H. lia.
Qed.

Lemma range_values_length (start stop step : Z) :
  step <> 0 ->
  Z.of_nat (length (range_values start stop step))
  = Z.max 0 (ceil_div (stop - start) step).
Proof.
  intros Hstep. apply range_from_length; [done |].
  rewrite Z2Nat.id by lia.
  destruct (Z_lt_le_dec 0 step).
  - destruct (Z_lt_le_dec (stop - start) 0).
    + pose proof (ceil_div_nonpos (stop - start) step ltac:(lia) ltac:(lia)). lia.
    + pose proof (ceil_div_bound (stop - start) step ltac:(lia) ltac:(lia)). lia.
  - rewrite <- (ceil_div_opp (stop - start) step).
    destruct (Z_lt_le_dec (- (stop - start)) 0).
    + pose proof (ceil_div_nonpos (- (stop - start)) (- step) ltac:(lia) ltac:(lia)).
      lia.
    + pose proof (ceil_div_bound (- (stop - start)) (- step) ltac:(lia) ltac:(lia)).
      lia.
Qed.

Section PythonRange.
Variable numberFloor parseFloatFloor : string -> option Z.
Variable vc : gmap string Z.

Local Abbreviation resolve :=
  (PythonTreeSitterAnalyzer.resolveConstantExpr numberFloor parseFloatFloor vc).
Local Abbreviation estimateFor :=
  (PythonTreeSitterAnalyzer.estimateForIterations numberFloor parseFloatFloor vc).
Local Abbreviation estimateRange :=
  (PythonTreeSitterAnalyzer.estimateRange numberFloor parseFloatFloor vc).

Lemma python_for_range (iterable forNode : SyntaxNode) :
  type iterable = "call" ->
  PythonTreeSitterAnalyzer.getCallName iterable = Some "range" ->
  estimateFor iterable forNode = estimateRange iterable.
Proof.
  intros Hty Hname. destruct iterable as [ty tx nm row fld kids].
  simpl in Hty. subst ty.
  cbn [PythonTreeSitterAnalyzer.estimateForIterations type].
  rewrite Hname. done.
Qed.

Lemma python_resolve_identifier (a : SyntaxNode) :
  type a = "identifier" -> resolve a = vc !! text a.
Proof. intros Hty. destruct a. simpl in *. by rewrite Hty. Qed.

Lemma estimateRange_nonneg (iterable : SyntaxNode) :
  0 <= estimateRange iterable.
Proof.
  unfold PythonTreeSitterAnalyzer.estimateRange, DEFAULT_LOOP_ITERATIONS.
  destruct (PythonTreeSitterAnalyzer.getCallArguments iterable)
    as [| a0 [| a1 [| a2 [| a3 args]]]]; simpl.
  all: repeat match goal with
              | |- context [match resolve ?a with _ => _ end] =>
                  destruct (resolve a) eqn:?
              | |- context [if (_ =? _)%Z then _ else _] => case_match
              | |- context [match map _ _ with _ => _ end] => case_match
              end; try lia.
  all: destruct (String.eqb_spec (type a0) "identifier") as [Hid | _]; [| lia].
  all: rewrite python_resolve_identifier in * by done.
  all: match goal with H : vc !! _ = None |- _ => rewrite H end; lia.
Qed.

End PythonRange.

(** X11.  For a Python loop over [range(...)] whose arguments resolve to
    constants, the estimate is the number of elements of that range: of
    [range(n)], of [range(lo, hi)], and of [range(lo, hi, step)] for a step
    other than 0, also a negative one; a step of 0 gives the default. The
    estimate for a [range] call is never negative. *)
Theorem python_range_estimate_exact
    (numberFloor parseFloatFloor : string -> option Z) (vc : gmap string Z)
    (iterable forNode : SyntaxNode) :
  type iterable = "call" ->
  PythonTreeSitterAnalyzer.getCallName iterable = Some "range" ->
  let resolve :=
    PythonTreeSitterAnalyzer.resolveConstantExpr numberFloor parseFloatFloor vc in
  let estimate :=
    PythonTreeSitterAnalyzer.estimateForIterations
      numberFloor parseFloatFloor vc iterable forNode in
  let args := PythonTreeSitterAnalyzer.getCallArguments iterable in
  (forall a n,
     args = [a] -> resolve a = Some n ->
     estimate = Z.of_nat (length (range_values 0 n 1)))
  /\ (forall a b lo hi,
        args = [a; b] -> resolve a = Some lo -> resolve b = Some hi ->
        estimate = Z.of_nat (length (range_values lo hi 1)))
  /\ (forall a b c lo hi step,
        args = [a; b; c] ->
        resolve a = Some lo -> resolve b = Some hi -> resolve c = Some step ->
        estimate = if step =? 0 then DEFAULT_LOOP_ITERATIONS
                   else Z.of_nat (length (range_values lo hi step)))
  /\ 0 <= estimate.
Proof.
  intros Hty Hname. cbv zeta.
  rewrite (python_for_range _ _ _ _ _ Hty Hname).
  split; [| split; [| split; [| apply estimateRange_nonneg]]].
  - intros a n Hargs Hn. unfold PythonTreeSitterAnalyzer.estimateRange.
    rewrite Hargs. simpl. rewrite Hn.
    rewrite range_values_length by done.
    unfold ceil_div. rewrite Z.div_1_r. f_equal. lia.
  - intros a b lo hi Hargs Hlo Hhi.
    unfold PythonTreeSitterAnalyzer.estimateRange.
    rewrite Hargs. simpl. rewrite Hlo, Hhi.
    rewrite range_values_length by done.
    unfold ceil_div. rewrite Z.div_1_r. f_equal. lia.
  - intros a b c lo hi step Hargs Hlo Hhi Hstep.
    unfold PythonTreeSitterAnalyzer.estimateRange.
    rewrite Hargs. simpl. rewrite Hlo, Hhi, Hstep.
    destruct (Z.eqb_spec step 0); [done |].
    by rewrite range_values_length.
Qed.

Lemma python_range_estimate_exact_witness :
  PythonTreeSitterAnalyzer.estimateForIterations decimalFloor decimalFloor ∅
    sample_range_call sample_print
  = Z.of_nat (length (range_values 2 11 3)).
Proof.
  exact (proj1 (proj2 (proj2
           (python_range_estimate_exact decimalFloor decimalFloor ∅
              sample_range_call sample_print eq_refl eq_refl)))
           (leaf "integer" "2") (leaf "integer" "11") (leaf "integer" "3")
           2 11 3 eq_refl eq_refl eq_refl eq_refl).
Defined.

Lemma extractStep_default numberFloor vc (forNode : SyntaxNode) :
  (forall update,
     childForFieldName forNode "update" = Some update ->
     type update <> "augmented_assignment_expression"
     /\ (forall c, In c (namedChildren update) ->
                   type c <> "augmented_assignment_expression")) ->
  CFamilyTreeSitterAnalyzer.extractStep numberFloor vc forNode = 1.
Proof.
  intros Hupdate. unfold CFamilyTreeSitterAnalyzer.extractStep.
  destruct (childForFieldName forNode "update") as [update |]; [| done].
  destruct (Hupdate update eq_refl) as [Hty Hkids].
  destruct (String.eqb_spec (type update) "update_expression"); [done |].
  destruct (String.eqb_spec (type update) "augmented_assignment_expression");
    [done |].
  destruct (List.find _ (namedChildren update)) as [child |] eqn:Hfind;
    [| done].
  apply find_some in Hfind as [Hin Hone].
  destruct (String.eqb_spec (type child) "update_expression"); [done |].
  apply one_of_In in Hone. simpl in Hone.
  destruct Hone as [? | [? | []]]; [congruence |].
  by destruct (Hkids child Hin).
Qed.

(** X12.  For a C-family [for] loop whose condition compares with a bound
    that resolves to a constant, when the step that [extractStep] reports
    is positive the estimate is the number of terms of the arithmetic
    progression that starts at the start value and moves by that step
    towards the bound: upwards for [<] and [<=], downwards for [>] and
    [>=].  [extractStep] reports 1 unless the update, or a named child of
    it, is an [augmented_assignment_expression]: for an update of another
    type that moves the counter by more than 1 the estimate counts steps
    of 1, not the values the counter takes. *)
Theorem cfamily_for_estimate_progression
    (numberFloor : string -> option Z) (vc : gmap string Z)
    (forNode condition leftNode rightNode : SyntaxNode) (endVal : Z) :
  childForFieldName forNode "condition" = Some condition ->
  type condition = "binary_expression" ->
  childForFieldName condition "left" = Some leftNode ->
  childForFieldName condition "right" = Some rightNode ->
  CFamilyTreeSitterAnalyzer.resolveConstantExpr numberFloor vc rightNode
  = Some endVal ->
  let op := CFamilyTreeSitterAnalyzer.getOperatorText condition in
  let step := CFamilyTreeSitterAnalyzer.extractStep numberFloor vc forNode in
  let start := cfamily_for_start numberFloor vc forNode in
  let estimate :=
    CFamilyTreeSitterAnalyzer.estimateForIterations numberFloor vc forNode in
  0 < step ->
  (op = "<" ->
   estimate = Z.of_nat (length (range_values start endVal step)))
  /\ (op = "<=" ->
      estimate = Z.of_nat (length (range_values start (endVal + 1) step)))
  /\ (op = ">" ->
      estimate = Z.of_nat (length (range_values start endVal (- step))))
  /\ (op = ">=" ->
      estimate = Z.of_nat (length (range_values start (endVal - 1) (- step))))
  /\ 0 <= estimate
  /\ ((forall update,
         childForFieldName forNode "update" = Some update ->
         type update <> "augmented_assignment_expression"
         /\ (forall c, In c (namedChildren update) ->
                       type c <> "augmented_assignment_expression")) ->
      step = 1).
Proof.
  intros Hcond Hty Hleft Hright Hend. cbv zeta. intros Hstep.
  split; [| split; [| split; [| split; [| split]]]];
    [| | | | | apply extractStep_default].
  all: unfold CFamilyTreeSitterAnalyzer.estimateForIterations.
  all: rewrite Hcond, Hty, Hleft, Hright, Hend; simpl.
  all: fold (cfamily_for_start numberFloor vc forNode).
  all: set (start := cfamily_for_start numberFloor vc forNode).
  all: set (step := CFamilyTreeSitterAnalyzer.extractStep numberFloor vc forNode)
         in *.
  all: set (op := CFamilyTreeSitterAnalyzer.getOperatorText condition).
  - intros ->. simpl. rewrite range_values_length by lia. done.
  - intros ->. simpl. rewrite range_values_length by lia.
    by replace (endVal + 1 - start) with (endVal - start + 1) by lia.
  - intros ->. simpl. rewrite range_values_length by lia.
    rewrite <- (ceil_div_opp (start - endVal) step).
    by replace (- (start - endVal)) with (endVal - start) by lia.
  - intros ->. simpl. rewrite range_values_length by lia.
    rewrite <- (ceil_div_opp (start - endVal + 1) step).
    by replace (- (start - endVal + 1)) with (endVal - 1 - start) by lia.
  - unfold DEFAULT_LOOP_ITERATIONS.
    repeat match goal with
           | |- context [if ?b then _ else _] => destruct b
           | |- context [match ?o with Some _ => _ | None => _ end] => destruct o
           end; lia.
Qed.

(** C: [for (int i = 0; i < 4; i++) ...] gives 4; and with the update
    [i += 2] as the C grammar gives it, an [assignment_expression], the loop
    to 10 gives 10, the number of steps of 1. *)
Lemma cfamily_for_estimate_progression_witness :
  CFamilyTreeSitterAnalyzer.estimateForIterations decimalFloor ∅ sample_c_loop
  = Z.of_nat (length (range_values 0 4 1))
  /\ CFamilyTreeSitterAnalyzer.extractStep decimalFloor ∅ sample_c_loop_by_two
     = 1
  /\ CFamilyTreeSitterAnalyzer.estimateForIterations
       decimalFloor ∅ sample_c_loop_by_two
     = 10.
Proof.
  split; [| split].
  - exact (proj1 (cfamily_for_estimate_progression decimalFloor ∅ sample_c_loop
                    sample_c_condition
                    (under "left" (leaf "identifier" "i"))
                    (under "right" (leaf "number_literal" "4")) 4
                    eq_refl eq_refl eq_refl eq_refl eq_refl eq_refl) eq_refl).
  - apply (proj2 (proj2 (proj2 (proj2 (proj2
             (cfamily_for_estimate_progression decimalFloor ∅
                sample_c_loop_by_two
                (under "condition"
                   (node "binary_expression"
                      [under "left" (leaf "identifier" "i");
                       under "operator" (token "<");
                       under "right" (leaf "number_literal" "10")]))
                (under "left" (leaf "identifier" "i"))
                (under "right" (leaf "number_literal" "10")) 10
                eq_refl eq_refl eq_refl eq_refl eq_refl eq_refl)))))).
    intros update [= <-]. split; [discriminate |].
    intros c [<- | [<- | []]]; discriminate.
  - reflexivity.
Defined.

Lemma cfamily_for_estimate_nonneg numberFloor vc forNode :
  0 <= CFamilyTreeSitterAnalyzer.estimateForIterations numberFloor vc forNode.
Proof.
  unfold CFamilyTreeSitterAnalyzer.estimateForIterations,
    DEFAULT_LOOP_ITERATIONS.
  repeat case_match; simplify_eq; first [apply Z.le_max_l | lia].
Qed.

Lemma cfamily_while_estimate_pos numberFloor vc whileNode :
  1 <= CFamilyTreeSitterAnalyzer.estimateWhileIterations numberFloor vc whileNode.
Proof.
  unfold CFamilyTreeSitterAnalyzer.estimateWhileIterations,
    DEFAULT_LOOP_ITERATIONS.
  repeat case_match; simplify_eq; lia.
Qed.

(** X13.  The estimate of the C-family walker for a [while] loop is at least
    1, whatever the condition and the constants: the body of a [while] is
    never counted at a multiplier below that of the loop. *)
Theorem cfamily_while_estimate_positive
    (numberFloor : string -> option Z) (vc : gmap string Z)
    (whileNode : SyntaxNode) (m : Z) :
  1 <= CFamilyTreeSitterAnalyzer.estimateWhileIterations numberFloor vc whileNode
  /\ (0 <= m ->
      m <= m * CFamilyTreeSitterAnalyzer.estimateWhileIterations
                 numberFloor vc whileNode).
Proof.
  pose proof (cfamily_while_estimate_pos numberFloor vc whileNode).
  split; [done | nia].
Qed.

Lemma cfamily_while_estimate_positive_witness :
  3 <= 3 * CFamilyTreeSitterAnalyzer.estimateWhileIterations
             decimalFloor ∅ sample_c_while.
Proof.
  apply (proj2 (cfamily_while_estimate_positive
                  decimalFloor ∅ sample_c_while 3)). lia.
Defined.

(** ** Loop depth *)

Lemma each_named_ext {A} (f g : A -> SyntaxNode -> A) kids a :
  (forall a c, In c kids -> f a c = g a c) ->
  each_named f kids a = each_named g kids a.
Proof.
  unfold each_named. revert a.
  induction kids as [| c kids IH]; intros a Hfg; simpl; [done |].
  rewrite Hfg by (by left). apply IH. intros; apply Hfg; by right.
Qed.

Lemma each_named_max (g : SyntaxNode -> Z) kids init :
  init <= each_named (fun m c => Z.max m (g c)) kids init
  /\ (forall c, In c (List.filter isNamed kids) ->
                g c <= each_named (fun m c => Z.max m (g c)) kids init)
  /\ (each_named (fun m c => Z.max m (g c)) kids init = init
      \/ exists c, In c (List.filter isNamed kids)
                   /\ each_named (fun m c => Z.max m (g c)) kids init = g c).
Proof.
  unfold each_named. revert init.
  induction kids as [| c kids IH]; intros init; simpl.
  - split; [lia |]. split; [done | by left].
  - destruct (isNamed c); simpl.
    + destruct (IH (Z.max init (g c))) as (H1 & H2 & H3).
      split; [lia |]. split.
      * intros c' [<- | Hc']; [lia | by apply H2].
      * destruct H3 as [H3 | (c' & Hc' & H3)].
        -- destruct (Z.max_spec init (g c)) as [[_ Hm] | [_ Hm]];
             rewrite Hm in *.
           ++ right. exists c. split; [by left | done].
           ++ by left.
        -- right. exists c'. split; [by right | done].
    + apply IH.
Qed.

Section LoopDepth.
Variable isLoop : SyntaxNode -> bool.
Variable depth : SyntaxNode -> Z -> Z.
Hypothesis depth_unfold : forall node d,
  depth node d
  = each_named
      (fun m c => Z.max m (depth c (if isLoop c then d + 1 else d)))
      (children node) d.

Lemma depth_paths (node : SyntaxNode) :
  forall d,
    (forall j, loop_path isLoop node j -> d + j <= depth node d)
    /\ (exists j, loop_path isLoop node j /\ depth node d = d + j).
Proof.
  induction node as [node IH] using node_size_ind. intros d.
  rewrite depth_unfold.
  destruct (each_named_max
              (fun c => depth c (if isLoop c then d + 1 else d))
              (children node) d) as (Hinit & Hall & Hsome).
  split.
  - intros j Hj. inversion Hj as [| n c j' Hc Hj']; subst; [lia |].
    etransitivity; [| apply Hall, Hc].
    destruct (IH c (child_size _ _ (In_namedChildren _ _ Hc))
                 (if isLoop c then d + 1 else d)) as [Hle _].
    specialize (Hle j' Hj'). destruct (isLoop c); lia.
  - destruct Hsome as [-> | (c & Hc & ->)].
    + exists 0. split; [constructor | lia].
    + destruct (IH c (child_size _ _ (In_namedChildren _ _ Hc))
                   (if isLoop c then d + 1 else d)) as [_ (j & Hj & ->)].
      exists ((if isLoop c then 1 else 0) + j).
      split; [by constructor |]. destruct (isLoop c); lia.
Qed.

End LoopDepth.

Lemma python_depth_unfold node d :
  PythonTreeSitterAnalyzer.getMaxLoopDepth node d
  = each_named
      (fun m c => Z.max m (PythonTreeSitterAnalyzer.getMaxLoopDepth c
                             (if PythonLoops.isLoop c then d + 1 else d)))
      (children node) d.
Proof.
  destruct node as [ty tx nm row fld kids]. simpl.
  apply each_named_ext. intros m c _. unfold PythonLoops.isLoop. simpl.
  rewrite orb_false_r. by destruct (_ || _).
Qed.

Lemma cfamily_depth_unfold node d :
  CFamilyTreeSitterAnalyzer.getMaxLoopDepth node d
  = each_named
      (fun m c => Z.max m (CFamilyTreeSitterAnalyzer.getMaxLoopDepth c
                             (if CFamilyLoops.isLoop c then d + 1 else d)))
      (children node) d.
Proof.
  destruct node as [ty tx nm row fld kids]. simpl.
  apply each_named_ext. intros m c _.
  unfold CFamilyLoops.isLoop, one_of. simpl.
  repeat match goal with |- context [String.eqb ?a ?b] =>
           destruct (String.eqb a b) end; done.
Qed.

(** X14.  [getMaxLoopDepth(node, d)] is [d] plus the largest number of loop
    statements on a path from the node down its named children: no path holds
    more loops, and one path holds that many. So [maxNesting], taken at depth
    0, is the depth of the deepest loop nest of the function. *)
Theorem max_loop_depth_is_deepest_nesting :
  (forall node d,
     (forall j, loop_path PythonLoops.isLoop node j ->
                d + j <= PythonTreeSitterAnalyzer.getMaxLoopDepth node d)
     /\ (exists j, loop_path PythonLoops.isLoop node j
                   /\ PythonTreeSitterAnalyzer.getMaxLoopDepth node d = d + j))
  /\ (forall node d,
        (forall j, loop_path CFamilyLoops.isLoop node j ->
                   d + j <= CFamilyTreeSitterAnalyzer.getMaxLoopDepth node d)
        /\ (exists j, loop_path CFamilyLoops.isLoop node j
                      /\ CFamilyTreeSitterAnalyzer.getMaxLoopDepth node d
                         = d + j)).
Proof.
  split; intros node d.
  - apply (depth_paths PythonLoops.isLoop), python_depth_unfold.
  - apply (depth_paths CFamilyLoops.isLoop), cfamily_depth_unfold.
Qed.

Lemma max_loop_depth_is_deepest_nesting_witness :
  0 + 2 <= PythonTreeSitterAnalyzer.getMaxLoopDepth
             (py_def "h" [sample_outer_for]) 0.
Proof.
  apply (proj1 (proj1 max_loop_depth_is_deepest_nesting
                  (py_def "h" [sample_outer_for]) 0) 2).
  apply (loop_path_child PythonLoops.isLoop (py_def "h" [sample_outer_for])
           (under "body" (node "block" [sample_outer_for])) 2);
    [simpl; tauto |].
  apply (loop_path_child PythonLoops.isLoop
           (under "body" (node "block" [sample_outer_for]))
           sample_outer_for 1); [simpl; tauto |].
  apply (loop_path_child PythonLoops.isLoop sample_outer_for
           (under "body" (node "block" [sample_inner_for])) 1);
    [simpl; tauto |].
  apply (loop_path_child PythonLoops.isLoop
           (under "body" (node "block" [sample_inner_for]))
           sample_inner_for 0); [simpl; tauto |].
  apply loop_path_here.
Defined.

(** ** The calls of a Python function *)

Section PythonCalls.
Local Abbreviation getCallName := PythonTreeSitterAnalyzer.getCallName.
Local Abbreviation walkForCalls := PythonTreeSitterAnalyzer.walkForCalls.

Lemma walk_children_calls (fn : string) (kids : list SyntaxNode) :
  (forall c, In c kids -> forall st name,
     In name (walkForCalls c fn st).1
     <-> In name st.1 \/ py_calls_within c name) ->
  forall st name,
    In name (each_named (fun func child => walkForCalls child fn func) kids st).1
    <-> In name st.1
        \/ exists c, In c (List.filter isNamed kids) /\ py_calls_within c name.
Proof.
  unfold each_named.
  induction kids as [| c kids IH]; intros Hc st name; simpl.
  - split; [by left | intros [H | (c & [] & _)]; done].
  - rewrite IH by (intros; apply Hc; by right).
    destruct (isNamed c) eqn:Hn; simpl.
    + rewrite Hc by (by left). split.
      * intros [[H | H] | (c' & H1 & H2)]; eauto.
      * intros [H | (c' & [<- | H1] & H2)]; eauto.
    + split; intros [H | H]; eauto.
Qed.

Lemma walkForCalls_calls (fn : string) (node : SyntaxNode) :
  forall st name,
    In name (walkForCalls node fn st).1
    <-> In name st.1 \/ py_calls_within node name.
Proof.
  induction node as [node IH] using node_size_ind. intros st name.
  assert (Hunfold : walkForCalls node fn st
    = each_named (fun func child => walkForCalls child fn func) (children node)
        (if String.eqb (type node) "call" then
           if truthy (getCallName node) then
             (st.1 ++ [default "" (getCallName node)],
              if PythonTreeSitterAnalyzer.name_is (getCallName node) fn
              then true else st.2)
           else st
         else st)) by (by destruct node).
  rewrite Hunfold. clear Hunfold.
  rewrite walk_children_calls
    by (intros c Hc st' name'; apply IH; by apply child_size).
  assert (Hhere :
    In name (if String.eqb (type node) "call" then
       if truthy (getCallName node) then
         (st.1 ++ [default "" (getCallName node)],
          if PythonTreeSitterAnalyzer.name_is (getCallName node) fn
          then true else st.2)
       else st
     else st).1
    <-> In name st.1 \/ (name <> "" /\ py_calls name node)).
  { unfold py_calls. destruct (String.eqb_spec (type node) "call") as [Hty | Hty].
    - destruct (getCallName node) as [callName |] eqn:Hname; simpl.
      + destruct (String.eqb_spec callName "") as [-> | Hne]; simpl.
        * split; [by left | intros [H | (Hn & _ & H)]; [done | congruence]].
        * rewrite in_app_iff. simpl. split.
          -- intros [H | [<- | []]]; eauto.
          -- intros [H | (Hn & _ & [= ->])]; eauto.
      + split; [by left | intros [H | (_ & _ & H)]; done].
    - split; [by left | intros [H | (_ & H & _)]; done]. }
  rewrite Hhere. unfold py_calls_within. split.
  - intros [[H | [Hn H]] | (c & Hc & Hn & call & Hw & Hcall)].
    + by left.
    + right. split; [done |]. exists node. split; [constructor | done].
    + right. split; [done |]. exists call. split; [| done].
      econstructor; eauto.
  - intros [H | (Hn & call & Hw & Hcall)]; [by left; left |].
    apply within_inv in Hw as [-> | (c & Hc & Hw)]; [by left; right |].
    right. eauto 10.
Qed.

End PythonCalls.

(** X15.  For a Python function, [calls] holds exactly the non-empty short
    names of the call nodes within the definition, and [isRecursive] is set
    exactly when the function's own name is among them. *)
Theorem python_calls_and_recursion
    (numberFloor parseFloatFloor : string -> option Z) (vc : gmap string Z)
    (node : SyntaxNode) (className : option string) :
  let analysed :=
    (PythonTreeSitterAnalyzer.analyzeFunction
       numberFloor parseFloatFloor vc node className).1 in
  let funcName := text_or (childForFieldName node "name") "unknown" in
  (forall name, In name (calls analysed) <-> py_calls_within node name)
  /\ (isRecursive analysed = true <-> In funcName (calls analysed)).
Proof.
  cbv zeta. unfold PythonTreeSitterAnalyzer.analyzeFunction. simpl.
  assert (Hcalls : forall name,
    In name (PythonTreeSitterAnalyzer.walkForCalls node
               (text_or (childForFieldName node "name") "unknown")
               ([], false)).1
    <-> py_calls_within node name).
  { intros name. rewrite walkForCalls_calls. simpl. tauto. }
  split; [exact Hcalls |].
  rewrite Hcalls, walkForCalls_recursive by (by apply text_or_nonempty).
  simpl. unfold py_calls_within. split.
  - intros [H | H]; [done |]. split; [by apply text_or_nonempty | done].
  - intros [_ H]. by right.
Qed.

(** ** Global operations *)

Lemma global_fold_left (step : AnalysisResult -> SyntaxNode -> AnalysisResult)
    (p : SyntaxNode -> bool) (g : SyntaxNode -> OperationCount)
    (l : list SyntaxNode) (r : AnalysisResult) (k : OpType) :
  (forall r x, count_of (globalOperations (step r x)) k
               = count_of (globalOperations r) k
                 + (if p x then count_of (g x) k else 0)) ->
  count_of (globalOperations (fold_left step l r)) k
  = count_of (globalOperations r) k
    + sumZ (map (fun x => count_of (g x) k) (List.filter p l)).
Proof.
  intros Hstep. revert r. induction l as [| x l IH]; intros r; simpl; [lia |].
  rewrite IH, Hstep. destruct (p x); simpl; lia.
Qed.

Lemma global_fold_same {A} (step : AnalysisResult -> A -> AnalysisResult)
    (l : list A) (r : AnalysisResult) :
  (forall r x, globalOperations (step r x) = globalOperations r) ->
  globalOperations (fold_left step l r) = globalOperations r.
Proof.
  intros Hstep. revert r. induction l as [| x l IH]; intros r; simpl; [done |].
  by rewrite IH, Hstep.
Qed.

(** X16.  In both walkers [globalOperations] counts the top-level nodes that
    are not definitions, each once at multiplier 1 with the constants of the
    whole file; functions, classes and (in Python) decorated definitions add
    nothing to it. *)
Theorem global_operations_count_top_level_statements :
  (forall numberFloor parseFloatFloor rootNode filePath k,
     let vc := PythonTreeSitterAnalyzer.extractConstants
                 numberFloor parseFloatFloor rootNode ∅ in
     count_of (globalOperations
                 (PythonTreeSitterAnalyzer.analyze
                    numberFloor parseFloatFloor rootNode filePath)) k
     = sumZ (map (fun stmt =>
                    count_of (PythonTreeSitterAnalyzer.analyzeNode
                                numberFloor parseFloatFloor vc stmt 1).1 k)
                 (py_global_statements rootNode)))
  /\ (forall numberFloor language rootNode filePath k,
        let vc := CFamilyTreeSitterAnalyzer.extractConstants
                    numberFloor rootNode ∅ in
        count_of (globalOperations
                    (CFamilyTreeSitterAnalyzer.analyze
                       numberFloor language rootNode filePath)) k
        = sumZ (map (fun stmt =>
                       count_of (CFamilyTreeSitterAnalyzer.analyzeNode
                                   numberFloor language vc stmt 1).1 k)
                    (cfamily_global_statements rootNode))).
Proof.
  split.
  - intros nf pf rootNode filePath k. cbv zeta.
    unfold PythonTreeSitterAnalyzer.analyze, py_global_statements.
    rewrite (global_fold_left _
               (fun child =>
                  negb (one_of ["function_definition"; "decorated_definition";
                                "class_definition"] (type child)))
               (fun stmt => (PythonTreeSitterAnalyzer.analyzeNode nf pf
                               (PythonTreeSitterAnalyzer.extractConstants
                                  nf pf rootNode ∅) stmt 1).1)).
    { simpl. rewrite count_of_new. lia. }
    intros r child. unfold PythonTreeSitterAnalyzer.analyzeTopLevel, one_of.
    assert (Hclass : forall r c,
      globalOperations (PythonTreeSitterAnalyzer.analyzeClass nf pf
                          (PythonTreeSitterAnalyzer.extractConstants
                             nf pf rootNode ∅) r c) = globalOperations r).
    { intros r' c. unfold PythonTreeSitterAnalyzer.analyzeClass.
      destruct (childForFieldName c "body"); [| done].
      apply global_fold_same. intros r'' item.
      repeat match goal with
             | |- context [if ?b then _ else _] => destruct b
             | |- context [match ?o with Some _ => _ | None => _ end] =>
                 destruct o
             end; done. }
    simpl.
    destruct (type child == "function_definition"); simpl; [lia |].
    destruct (type child == "decorated_definition"); simpl.
    { destruct (List.find _ (children child)) as [innerDef |]; [| lia].
      destruct (type innerDef == "function_definition"); simpl; [lia |].
      rewrite Hclass. lia. }
    destruct (type child == "class_definition"); simpl;
      [rewrite Hclass; lia |].
    by rewrite count_of_merge.
  - intros nf lang rootNode filePath k. cbv zeta.
    unfold CFamilyTreeSitterAnalyzer.analyze, cfamily_global_statements.
    rewrite (global_fold_left _
               (fun child =>
                  negb (CFamilyTreeSitterAnalyzer.isFunctionDef child
                        || CFamilyTreeSitterAnalyzer.isClassDef child))
               (fun stmt => (CFamilyTreeSitterAnalyzer.analyzeNode nf lang
                               (CFamilyTreeSitterAnalyzer.extractConstants
                                  nf rootNode ∅) stmt 1).1)).
    { simpl. rewrite count_of_new. lia. }
    intros r child. unfold CFamilyTreeSitterAnalyzer.analyzeTopLevel.
    assert (Hclass : forall r c,
      globalOperations (CFamilyTreeSitterAnalyzer.analyzeClass nf lang
                          (CFamilyTreeSitterAnalyzer.extractConstants
                             nf rootNode ∅) r c) = globalOperations r).
    { intros r' c. unfold CFamilyTreeSitterAnalyzer.analyzeClass.
      destruct (or_else _ _); [| done].
      apply global_fold_same. intros r'' item.
      destruct (CFamilyTreeSitterAnalyzer.isFunctionDef item); done. }
    destruct (CFamilyTreeSitterAnalyzer.isFunctionDef child); simpl; [lia |].
    destruct (CFamilyTreeSitterAnalyzer.isClassDef child); simpl;
      [rewrite Hclass; lia |].
    by rewrite count_of_merge.
Qed.

(** ** The constant table of the Python walker *)

Lemma each_named_invariant {A} (P : A -> Prop) (f : A -> SyntaxNode -> A)
    kids a :
  (forall a c, In c (List.filter isNamed kids) -> P a -> P (f a c)) ->
  P a -> P (each_named f kids a).
Proof.
  rewrite each_named_filter. revert a.
  induction (List.filter isNamed kids) as [| c l IH]; intros a Hf Ha; simpl;
    [done |].
  apply IH; [intros; apply Hf; [by right | done] |]. apply Hf; [by left | done].
Qed.

Section PythonConstants.
Variable numberFloor parseFloatFloor : string -> option Z.

Local Abbreviation extract :=
  (PythonTreeSitterAnalyzer.extractConstants numberFloor parseFloatFloor).
Local Abbreviation py_record_assignment :=
  (py_record_assignment numberFloor parseFloatFloor).
Local Abbreviation resolve :=
  (PythonTreeSitterAnalyzer.resolveConstantExpr numberFloor parseFloatFloor).

Lemma extract_unfold node vc :
  extract node vc
  = each_named (fun vc child => extract child vc) (children node)
               (py_record_assignment node vc).
Proof. by destruct node. Qed.

Lemma record_keeps node vc x :
  is_Some (vc !! x) -> is_Some (py_record_assignment node vc !! x).
Proof.
  intros Hx. unfold py_record_assignment.
  repeat match goal with
         | |- context [if ?b then _ else _] => destruct b
         | |- context [match ?o with Some _ => _ | None => _ end] => destruct o
         end; try done.
  rewrite lookup_insert. by case_decide.
Qed.

Lemma record_frame node vc x :
  ~ py_assigns x node -> py_record_assignment node vc !! x = vc !! x.
Proof.
  intros Hx. unfold py_record_assignment, py_assigns in *.
  destruct (String.eqb_spec (type node) "assignment") as [Hty | _]; [| done].
  destruct (childForFieldName node "left") as [l |] eqn:Hl; [| done].
  destruct (childForFieldName node "right") as [r |]; [| done].
  destruct (String.eqb_spec (type l) "identifier") as [Hid | _]; [| done].
  destruct (resolve vc r); [| done].
  rewrite lookup_insert_ne; [done |]. intros Heq. apply Hx. eauto.
Qed.

Lemma extract_keeps node : forall vc x,
  is_Some (vc !! x) -> is_Some (extract node vc !! x).
Proof.
  induction node as [node IH] using node_size_ind. intros vc x Hx.
  rewrite extract_unfold.
  apply (each_named_invariant (fun vc => is_Some (vc !! x))).
  - intros vc' c Hc. apply IH, child_size. by apply In_named in Hc as [].
  - by apply record_keeps.
Qed.

Lemma extract_frame node : forall vc x,
  (forall a, within a node -> ~ py_assigns x a) ->
  extract node vc !! x = vc !! x.
Proof.
  induction node as [node IH] using node_size_ind. intros vc x Hx.
  rewrite extract_unfold.
  apply (each_named_invariant (fun vc' => vc' !! x = vc !! x)).
  - intros vc' c Hc <-. apply IH.
    + apply child_size. by apply In_named in Hc as [].
    + intros a Ha. apply Hx. by econstructor.
  - apply record_frame, Hx. constructor.
Qed.

Lemma each_named_reaches {A} (P : A -> Prop) (f : A -> SyntaxNode -> A)
    kids a c :
  In c (List.filter isNamed kids) ->
  (forall a, P (f a c)) ->
  (forall a c', In c' (List.filter isNamed kids) -> P a -> P (f a c')) ->
  P (each_named f kids a).
Proof.
  rewrite each_named_filter. revert a.
  induction (List.filter isNamed kids) as [| c' l IH]; intros a Hc Hat Hkeep;
    simpl; [done |].
  destruct Hc as [-> | Hc].
  - clear IH. assert (Hl : forall b, P b -> P (fold_left f l b)).
    { intros b. revert b.
      assert (Hk : forall a c', In c' l -> P a -> P (f a c'))
        by (intros; apply Hkeep; [by right | done]).
      clear Hkeep. induction l as [| d l IHl]; intros b Hb; simpl; [done |].
      apply IHl; [intros; apply Hk; [by right | done] |].
      apply Hk; [by left | done]. }
    apply Hl, Hat.
  - apply IH; [done | done |]. intros; apply Hkeep; [by right | done].
Qed.

Lemma extract_binds node : forall vc a x r n,
  within a node -> py_assigns x a ->
  childForFieldName a "right" = Some r ->
  type r = "integer" ->
  PythonTreeSitterAnalyzer.parseIntLiteral numberFloor (text r) = Some n ->
  is_Some (extract node vc !! x).
Proof.
  induction node as [node IH] using node_size_ind.
  intros vc a x r n Hw Ha Hr Hty Hn.
  rewrite extract_unfold.
  apply within_inv in Hw as [-> | (c & Hc & Hw)].
  - apply (each_named_invariant (fun vc => is_Some (vc !! x))).
    + intros vc' c Hc. apply extract_keeps.
    + destruct Ha as (Hasg & l & Hl & Hid & <-).
      unfold py_record_assignment. rewrite Hasg, Hl, Hr, Hid. simpl.
      assert (Hres : resolve vc r = Some n).
      { destruct r as [ty tx nm row fld kids]. simpl in *. by rewrite Hty. }
      rewrite Hres, lookup_insert_eq. eauto.
  - apply (each_named_reaches (fun vc => is_Some (vc !! x)) _ _ _ c Hc).
    + intros vc'. eapply IH; eauto.
      apply child_size. by apply In_named in Hc as [].
    + intros vc' c' _. apply extract_keeps.
Qed.

End PythonConstants.

(** X17.  The constant table of the Python walker only grows while a tree is
    walked: a name that is bound stays bound; a name that no assignment of the
    tree targets keeps its entry; and a name assigned an integer literal
    anywhere in the tree, also inside a function or a loop, is bound
    afterwards. *)
Theorem python_constants_scope
    (numberFloor parseFloatFloor : string -> option Z)
    (node : SyntaxNode) (vc : gmap string Z) (x : string) :
  let table :=
    PythonTreeSitterAnalyzer.extractConstants
      numberFloor parseFloatFloor node vc in
  (is_Some (vc !! x) -> is_Some (table !! x))
  /\ ((forall a, within a node -> ~ py_assigns x a) -> table !! x = vc !! x)
  /\ (forall a r n,
        within a node -> py_assigns x a ->
        childForFieldName a "right" = Some r -> type r = "integer" ->
        PythonTreeSitterAnalyzer.parseIntLiteral numberFloor (text r) = Some n ->
        is_Some (table !! x)).
Proof.
  cbv zeta. split; [apply extract_keeps |].
  split; [apply extract_frame |]. intros a r n. apply extract_binds.
Qed.

Lemma python_constants_scope_witness :
  is_Some (PythonTreeSitterAnalyzer.extractConstants decimalFloor decimalFloor
             sample_module ∅ !! "n").
Proof.
  apply (proj2 (proj2 (python_constants_scope decimalFloor decimalFloor
                         sample_module ∅ "n"))
           (node "assignment"
              [under "left" (leaf "identifier" "n"); token "=";
               under "right" (leaf "integer" "8")])
           (under "right" (leaf "integer" "8")) 8).
  - apply (within_child _ sample_assignment); [simpl; tauto |].
    apply (within_child _ (node "assignment"
                             [under "left" (leaf "identifier" "n"); token "=";
                              under "right" (leaf "integer" "8")]));
      [simpl; tauto | constructor].
  - split; [reflexivity |]. exists (under "left" (leaf "identifier" "n")).
    split; [reflexivity |]. split; reflexivity.
  - reflexivity.
  - reflexivity.
  - reflexivity.
Defined.

(** ** Comment removal and brace blocks of the fallback analyzer *)

Section RegexFacts.
Import RegexAnalyzer.

(** *** Strings *)

Lemma occurs_app c s t : occurs c (s +:+ t) = occurs c s || occurs c t.
Proof.
  induction s as [| a s IH]; simpl; [done |]. by rewrite IH, orb_assoc.
Qed.

Lemma occurs_substring c n m s :
  occurs c (String.substring n m s) = true -> occurs c s = true.
Proof.
  revert n m. induction s as [| a s IH]; intros n m; simpl.
  - by destruct n, m.
  - destruct n as [| n]; [destruct m as [| m] |]; simpl; [done | |].
    + rewrite !orb_true_iff. intros [H | H]; [by left |]. right. by eapply IH.
    + intros H. apply orb_true_iff. right. by eapply IH.
Qed.

Lemma index_char_none (c : ascii) s :
  String.index 0 (String c EmptyString) s = None -> occurs c s = false.
Proof.
  induction s as [| a s IH]; cbn [String.index String.prefix occurs]; [done |].
  destruct (ascii_dec c a) as [-> | Hne].
  - by destruct s.
  - destruct (String.index 0 (String c "") s); [done |]. intros _.
    rewrite IH by done. rewrite orb_false_r. apply Ascii.eqb_neq. congruence.
Qed.

Lemma index_char_some (c : ascii) s i :
  String.index 0 (String c EmptyString) s = Some i ->
  occurs c (String.substring 0 i s) = false.
Proof.
  revert i. induction s as [| a s IH]; intros i;
    cbn [String.index String.prefix]; [done |].
  destruct (ascii_dec c a) as [-> | Hne].
  - destruct s; intros [= <-]; done.
  - destruct (String.index 0 (String c "") s) as [j |] eqn:Hj; [| done].
    intros [= <-]. cbn [String.substring occurs].
    rewrite IH by done. rewrite orb_false_r. apply Ascii.eqb_neq. congruence.
Qed.

Lemma occurs_concat c sep l :
  occurs c sep = false -> (forall x, In x l -> occurs c x = false) ->
  occurs c (String.concat sep l) = false.
Proof.
  intros Hsep. induction l as [| x l IH]; intros Hl; [done |].
  cbn [String.concat]. destruct l as [| y l]; [apply Hl; by left |].
  change (occurs c (x +:+ sep +:+ String.concat sep (y :: l)) = false).
  rewrite !occurs_app, Hsep, (Hl x) by (by left). simpl.
  apply IH. intros; apply Hl; by right.
Qed.

Lemma split_nonempty c s : split c s <> [].
Proof.
  destruct s as [| a s]; simpl; [done |].
  destruct (Ascii.eqb a c); [done |]. by destruct (split c s).
Qed.

Lemma split_lines_clean c s x : In x (split c s) -> occurs c x = false.
Proof.
  revert x. induction s as [| a s IH]; intros x; simpl.
  - by intros [<- | []].
  - destruct (Ascii.eqb a c) eqn:Ha.
    + intros [<- | H]; [done | by apply IH].
    + pose proof (split_nonempty c s) as Hne.
      destruct (split c s) as [| line lines]; [done |].
      intros [<- | H]; [| apply IH; by right].
      simpl. rewrite Ha. simpl. apply IH. by left.
Qed.

Lemma split_clean c x : occurs c x = false -> split c x = [x].
Proof.
  induction x as [| a x IH]; simpl; [done |].
  destruct (Ascii.eqb a c); [done |]. simpl. intros H. by rewrite IH.
Qed.

Lemma split_app c x rest :
  occurs c x = false ->
  split c (x +:+ String c rest) = x :: split c rest.
Proof.
  induction x as [| a x IH]; simpl.
  - by rewrite Ascii.eqb_refl.
  - destruct (Ascii.eqb a c); [done |]. simpl. intros H. by rewrite IH.
Qed.

Lemma split_concat c l :
  l <> [] -> (forall x, In x l -> occurs c x = false) ->
  split c (String.concat (String c EmptyString) l) = l.
Proof.
  induction l as [| x l IH]; intros Hne Hl; [done |].
  cbn [String.concat]. destruct l as [| y l].
  - apply split_clean, Hl. by left.
  - change (split c (x +:+ String c (String.concat (String c "") (y :: l)))
            = x :: y :: l).
    rewrite split_app by (apply Hl; by left). f_equal.
    apply IH; [done |]. intros; apply Hl; by right.
Qed.

(** Every character of a cleaned line comes from the line. *)
Lemma stripDocstring_chars c delim st :
  occurs c (stripDocstring delim st).1 = true -> occurs c st.1 = true.
Proof.
  unfold stripDocstring, substring_from.
  destruct (String.index 0 delim st.1) as [startIdx |]; [| done].
  destruct (String.index (startIdx + 3) delim st.1) as [endIdx |]; simpl.
  - rewrite occurs_app, orb_true_iff. intros [H | H]; by eapply occurs_substring.
  - apply occurs_substring.
Qed.

Lemma cleanLine_chars c state line :
  occurs c (cleanLine state line).1 = true -> occurs c line = true.
Proof.
  unfold cleanLine.
  assert (Hstrip : forall st : string * DocState,
    (occurs c st.1 = true -> occurs c line = true) ->
    occurs c
      (match String.index 0 "#"
               (stripDocstring TRIPLE_SINGLE_QUOTE
                  (stripDocstring TRIPLE_DOUBLE_QUOTE st)).1 with
       | Some hashIdx =>
           String.substring 0 hashIdx
             (stripDocstring TRIPLE_SINGLE_QUOTE
                (stripDocstring TRIPLE_DOUBLE_QUOTE st)).1
       | None => (stripDocstring TRIPLE_SINGLE_QUOTE
                    (stripDocstring TRIPLE_DOUBLE_QUOTE st)).1
       end) = true -> occurs c line = true).
  { intros st Hst H. apply Hst.
    do 2 eapply stripDocstring_chars.
    destruct (String.index 0 "#" _); [by eapply occurs_substring | done]. }
  destruct (inDocstring state).
  - destruct (String.index 0 (docDelim state) line) as [endIdx |]; simpl;
      [| done].
    apply Hstrip. simpl. apply occurs_substring.
  - simpl. by apply Hstrip.
Qed.

Lemma cleanLine_no_hash state line :
  occurs "#" (cleanLine state line).1 = false.
Proof.
  unfold cleanLine.
  destruct (if inDocstring state then _ else _) as [st |]; simpl; [| done].
  destruct (String.index 0 "#" _) as [hashIdx |] eqn:Hhash.
  - by apply index_char_some.
  - by apply index_char_none.
Qed.

Lemma cleanLines_each (P : string -> string -> Prop) lines :
  (forall state line, P line (cleanLine state line).1) ->
  Forall2 P lines (cleanLines lines).1.
Proof.
  intros HP. unfold cleanLines.
  set (init := {| inDocstring := false; docDelim := "" |}).
  assert (H : forall (acc : list string * DocState) done,
    Forall2 P done acc.1 ->
    Forall2 P (done ++ lines)
      (fold_left (fun acc line =>
                    let cleaned := cleanLine acc.2 line in
                    (acc.1 ++ [cleaned.1], cleaned.2)) lines acc).1).
  { induction lines as [| line lines IH]; intros acc done Hdone; simpl.
    - by rewrite app_nil_r.
    - replace (done ++ line :: lines) with ((done ++ [line]) ++ lines)
        by (by rewrite <- app_assoc).
      apply IH. simpl. apply Forall2_app; [done |]. constructor; [apply HP | done]. }
  apply (H ([], init) []). constructor.
Qed.

Lemma Forall2_In_right {A B} (P : A -> B -> Prop) l k y :
  Forall2 P l k -> In y k -> exists x, In x l /\ P x y.
Proof.
  induction 1 as [| x y' l k Hxy _ IH]; [done |].
  intros [<- | Hy]; [exists x; split; [by left | done] |].
  destruct (IH Hy) as (x' & Hx' & HP). exists x'. split; [by right | done].
Qed.

Lemma occurs_concat_inv c sep l :
  occurs c (String.concat sep l) = true ->
  occurs c sep = true \/ exists x, In x l /\ occurs c x = true.
Proof.
  induction l as [| x l IH]; [done |].
  cbn [String.concat]. destruct l as [| y l].
  - intros H. right. exists x. split; [by left | done].
  - change (occurs c (x +:+ sep +:+ String.concat sep (y :: l)) = true
            -> occurs c sep = true
               \/ exists x0, In x0 (x :: y :: l) /\ occurs c x0 = true).
    rewrite !occurs_app, !orb_true_iff. intros [H | [H | H]].
    + right. exists x. split; [by left | done].
    + by left.
    + destruct (IH H) as [Hs | (x' & Hx' & Hc)]; [by left |].
      right. exists x'. split; [by right | done].
Qed.

Lemma split_chars c0 c s x :
  In x (split c0 s) -> occurs c x = true -> occurs c s = true.
Proof.
  revert x. induction s as [| a s IH]; intros x; simpl.
  - by intros [<- | []].
  - destruct (Ascii.eqb a c0) eqn:Ha.
    + intros [<- | H] Hx; [done |]. apply orb_true_iff. right. by eapply IH.
    + pose proof (split_nonempty c0 s) as Hne.
      destruct (split c0 s) as [| line lines]; [done |].
      intros [<- | H] Hx; simpl in *.
      * apply orb_true_iff in Hx as [Hx | Hx]; apply orb_true_iff;
          [by left | right]. apply (IH line); [by left | done].
      * apply orb_true_iff. right. apply (IH x); [by right | done].
Qed.

(** X18.  [removePythonComments] keeps the lines in place: its result has as
    many lines as the code, so line numbers still fit; and it only removes
    text: every character of the result occurs in the code. *)
Theorem removePythonComments_keeps_lines (code : string) :
  length (split NEWLINE (removePythonComments code))
  = length (split NEWLINE code)
  /\ (forall c, occurs c (removePythonComments code) = true ->
                occurs c code = true).
Proof.
  unfold removePythonComments.
  pose proof (cleanLines_each
                (fun line cleaned => forall c, occurs c cleaned = true ->
                                               occurs c line = true)
                (split NEWLINE code)
                (fun state line c => cleanLine_chars c state line)) as Hall.
  assert (Hclean : forall x, In x (cleanLines (split NEWLINE code)).1 ->
                             occurs NEWLINE x = false).
  { intros x Hx. destruct (Forall2_In_right _ _ _ _ Hall Hx) as (line & Hline & HP).
    destruct (occurs NEWLINE x) eqn:Hnl; [| done].
    apply HP in Hnl. by rewrite (split_lines_clean _ _ _ Hline) in Hnl. }
  split.
  - rewrite split_concat; [| | exact Hclean].
    + symmetry. by eapply Forall2_length.
    + pose proof (split_nonempty NEWLINE code) as Hne.
      apply Forall2_length in Hall.
      destruct (cleanLines _).1; [| done].
      by destruct (split NEWLINE code).
  - intros c Hc. destruct (occurs NEWLINE code) eqn:Hnl.
    + apply occurs_concat_inv in Hc as [Hc | (x & Hx & Hc)].
      * cbn [occurs] in Hc. rewrite orb_false_r in Hc.
        apply Ascii.eqb_eq in Hc. by subst c.
      * destruct (Forall2_In_right _ _ _ _ Hall Hx) as (line & Hline & HP).
        eapply split_chars; [exact Hline | by apply HP].
    + rewrite (split_clean _ _ Hnl) in Hall, Hc.
      set (cleaned := (cleanLines [code]).1) in *. clearbody cleaned.
      inversion Hall as [| ? x ? rest HP Hrest]; subst.
      inversion Hrest; subst. by apply HP.
Qed.

(** X19.  No [#] is left in the result of [removePythonComments], whatever the
    code: also a [#] inside a string literal cuts its line. *)
Theorem removePythonComments_no_hash (code : string) :
  occurs "#" (removePythonComments code) = false.
Proof.
  unfold removePythonComments. apply occurs_concat; [done |].
  intros x Hx.
  pose proof (cleanLines_each (fun _ cleaned => occurs "#" cleaned = false)
                (split NEWLINE code)
                (fun state line => cleanLine_no_hash state line)) as Hall.
  by destruct (Forall2_In_right _ _ _ _ Hall Hx) as (line & _ & HP).
Qed.

(** *** Brace blocks *)

Lemma substring_skip pre m s :
  String.substring (String.length pre) m (pre +:+ s) = String.substring 0 m s.
Proof. induction pre as [| a pre IH]; simpl; [done | apply IH]. Qed.

Lemma substring_prefix s t :
  String.substring 0 (String.length s) (s +:+ t) = s.
Proof.
  induction s as [| a s IH]; simpl; [by destruct t | by rewrite IH].
Qed.

Lemma substring_all s : String.substring 0 (String.length s) s = s.
Proof. induction s as [| a s IH]; simpl; [done | by rewrite IH]. Qed.

Lemma string_length_app s t :
  String.length (s +:+ t) = (String.length s + String.length t)%nat.
Proof. induction s as [| a s IH]; simpl; [done | by rewrite IH]. Qed.

Lemma substring_from_skip pre s :
  substring_from (String.length pre) (pre +:+ s) = s.
Proof.
  unfold substring_from. rewrite substring_skip, string_length_app.
  replace (String.length pre + String.length s - String.length pre)%nat
    with (String.length s) by lia.
  apply substring_all.
Qed.

Lemma string_app_assoc s t u : (s +:+ t) +:+ u = s +:+ t +:+ u.
Proof.
  induction s as [| a s IH]; [reflexivity |].
  change (String a ((s +:+ t) +:+ u) = String a (s +:+ t +:+ u)). by f_equal.
Qed.

Lemma get_after s c t :
  String.get (String.length s) (s +:+ String c t) = Some c.
Proof.
  induction s as [| a s IH]; cbn [String.append String.length String.get];
    [done | apply IH].
Qed.

Lemma closingBrace_nested body : forall rest i d e e',
  nesting body e = Some e' -> 0 <= e -> 1 <= d ->
  closingBrace (body +:+ rest) i (d + e)
  = closingBrace rest (i + String.length body) (d + e').
Proof.
  induction body as [| c body IH]; intros rest i d e e' Hn He Hd; simpl in *.
  - injection Hn as <-. by rewrite Nat.add_0_r.
  - rewrite <- Nat.add_succ_comm.
    destruct (Ascii.eqb c "{").
    + replace (d + e + 1) with (d + (e + 1)) by lia. apply IH; [done | lia | done].
    + destruct (Ascii.eqb c "}"); [| by apply IH].
      destruct (Z.leb_spec e 0); [done |].
      destruct (Z.eqb_spec (d + e - 1) 0); [lia |].
      replace (d + e - 1) with (d + (e - 1)) by lia.
      apply IH; [done | lia | done].
Qed.

(** X20.  [extractBraceBlock] returns the text between the brace at [startIdx]
    and the brace that closes it: wrapped in braces, a text whose own braces
    nest properly comes back unchanged, whatever stands before and after; and
    when the code ends before the block is closed, the block is all that
    follows the opening brace. *)
Theorem extractBraceBlock_round_trip (pre body post : string) (e : Z) :
  nesting body 0 = Some e ->
  (e = 0 ->
   extractBraceBlock (pre +:+ "{" +:+ body +:+ "}" +:+ post) (String.length pre)
   = body)
  /\ extractBraceBlock (pre +:+ "{" +:+ body) (String.length pre) = body.
Proof.
  intros Hbody.
  assert (Hcut : forall rest,
    String.substring (String.length pre + 1) (String.length body)
      (pre +:+ String "{" (body +:+ rest)) = body).
  { intros rest.
    replace (String.length pre + 1)%nat with (String.length (pre +:+ "{"))
      by (rewrite string_length_app; simpl; lia).
    replace (pre +:+ String "{" (body +:+ rest))
      with ((pre +:+ "{") +:+ (body +:+ rest))
      by (by rewrite string_app_assoc).
    rewrite substring_skip. apply substring_prefix. }
  split.
  - intros ->. unfold extractBraceBlock.
    rewrite substring_from_skip.
    change ("{" +:+ body +:+ "}" +:+ post)
      with (String "{" (body +:+ String "}" post)).
    cbn [closingBrace]. rewrite Ascii.eqb_refl.
    rewrite (closingBrace_nested body _ _ 1 0 0 Hbody) by lia.
    cbn [closingBrace]. simpl (Ascii.eqb "}" "{"). rewrite Ascii.eqb_refl.
    simpl (1 + 0 - 1 =? 0). cbv iota.
    replace (S (String.length pre) + String.length body
             - (String.length pre + 1))%nat with (String.length body) by lia.
    apply Hcut.
  - unfold extractBraceBlock.
    rewrite substring_from_skip.
    change ("{" +:+ body) with (String "{" body).
    cbn [closingBrace]. rewrite Ascii.eqb_refl.
    replace body with (body +:+ "") at 1.
    2: { clear. induction body as [| c body IH]; [done |].
         change (String c (body +:+ "") = String c body). by f_equal. }
    rewrite (closingBrace_nested body _ _ 1 0 e Hbody) by lia.
    cbn [closingBrace]. unfold substring_from.
    rewrite string_length_app. cbn [String.length].
    replace (String.length pre + S (String.length body)
             - (String.length pre + 1))%nat with (String.length body) by lia.
    specialize (Hcut ""). 
    replace (body +:+ "") with body in Hcut; [done |].
    clear. induction body as [| c body IH]; [done |].
    change (String c body = String c (body +:+ "")). by f_equal.
Qed.

Lemma index_absent c t line : forall n,
  occurs c line = false -> String.index n (String c t) line = None.
Proof.
  induction line as [| a line IH]; intros n; cbn [occurs String.index].
  - by destruct n.
  - intros H. apply orb_false_iff in H as [Ha Hline].
    destruct n as [| n].
    + cbn [String.prefix]. destruct (ascii_dec c a) as [-> | _].
      * by rewrite Ascii.eqb_refl in Ha.
      * by rewrite IH.
    + by rewrite IH.
Qed.

Lemma concat_split c s :
  String.concat (String c EmptyString) (split c s) = s.
Proof.
  induction s as [| a s IH]; [done |]. cbn [split].
  pose proof (split_nonempty c s) as Hne.
  destruct (Ascii.eqb_spec a c) as [-> | Hac].
  - cbn [String.concat]. destruct (split c s) as [| x l]; [done |].
    change (String c (String.concat (String c "") (x :: l)) = String c s).
    by rewrite IH.
  - destruct (split c s) as [| x l]; [done |].
    cbn [String.concat] in *. destruct l as [| y l].
    + by rewrite IH.
    + change (String a (x +:+ String c "" +:+ String.concat (String c "") (y :: l))
              = String a s).
      by rewrite IH.
Qed.

Lemma cleanLine_plain line :
  occurs "#" line = false -> occurs "034" line = false ->
  occurs "'" line = false ->
  cleanLine {| inDocstring := false; docDelim := EmptyString |} line
  = (line, {| inDocstring := false; docDelim := EmptyString |}).
Proof.
  intros Hhash Hdq Hsq. unfold cleanLine, stripDocstring.
  cbn [inDocstring fst snd].
  unfold TRIPLE_DOUBLE_QUOTE, TRIPLE_SINGLE_QUOTE.
  rewrite (index_absent "034" _ line 0 Hdq). cbn [fst snd].
  rewrite (index_absent "'" _ line 0 Hsq). cbn [fst snd].
  by rewrite (index_absent "#" _ line 0 Hhash).
Qed.

Lemma cleanLines_plain lines :
  (forall line, In line lines ->
     occurs "#" line = false /\ occurs "034" line = false
     /\ occurs "'" line = false) ->
  (cleanLines lines).1 = lines.
Proof.
  unfold cleanLines.
  assert (H : forall acc,
    (forall line, In line lines ->
       occurs "#" line = false /\ occurs "034" line = false
       /\ occurs "'" line = false) ->
    fold_left (fun acc line =>
                 let cleaned := cleanLine acc.2 line in
                 (acc.1 ++ [cleaned.1], cleaned.2)) lines
      (acc, {| inDocstring := false; docDelim := "" |})
    = (acc ++ lines, {| inDocstring := false; docDelim := "" |})).
  { induction lines as [| line lines IH]; intros acc Hl; cbn [fold_left].
    - by rewrite app_nil_r.
    - destruct (Hl line) as (H1 & H2 & H3); [by left |].
      cbn [fst snd]. rewrite (cleanLine_plain line H1 H2 H3). cbn [fst snd].
      rewrite IH by (intros; apply Hl; by right).
      by rewrite <- app_assoc. }
  intros Hl. exact (f_equal fst (H [] Hl)).
Qed.

(** X21.  Code without [#] and without quote characters is returned unchanged
    by [removePythonComments]. *)
Theorem removePythonComments_plain_code (code : string) :
  occurs "#" code = false -> occurs "034" code = false ->
  occurs "'" code = false ->
  removePythonComments code = code.
Proof.
  intros Hhash Hdq Hsq. unfold removePythonComments.
  rewrite cleanLines_plain; [apply concat_split |].
  intros line Hline.
  repeat split;
    match goal with
    | |- occurs ?c line = false =>
        destruct (occurs c line) eqn:Hc; [| done];
        apply (split_chars NEWLINE c code line Hline) in Hc; congruence
    end.
Qed.

End RegexFacts.

Lemma extractBraceBlock_round_trip_witness :
  RegexAnalyzer.extractBraceBlock "f() { if (x) { y(); } } g" 4
  = " if (x) { y(); } ".
Proof.
  exact (proj1 (extractBraceBlock_round_trip
                  "f() " " if (x) { y(); } " " g" 0 eq_refl) eq_refl).
Defined.

Lemma removePythonComments_plain_code_witness :
  RegexAnalyzer.removePythonComments "x = y + 1" = "x = y + 1".
Proof.
  exact (removePythonComments_plain_code "x = y + 1" eq_refl eq_refl eq_refl).
Defined.

(** ** Counts of the C-family walker are never negative *)

Lemma nonneg_new : nonneg OperationCount.new.
Proof. intros k. by rewrite count_of_new. Qed.

Lemma nonneg_add c op n :
  nonneg c -> 0 <= n -> nonneg (OperationCount.add c op n).
Proof.
  intros Hc Hn k. rewrite count_of_add. specialize (Hc k). case_decide; lia.
Qed.

Lemma nonneg_merge a b :
  nonneg a -> nonneg b -> nonneg (OperationCount.merge a b).
Proof.
  intros Ha Hb k. rewrite count_of_merge. specialize (Ha k). specialize (Hb k).
  lia.
Qed.

Lemma nonneg_scale a factor :
  nonneg a -> 0 <= factor -> nonneg (OperationCount.scale a factor).
Proof.
  intros Ha Hf k. rewrite count_of_scale. specialize (Ha k). nia.
Qed.

Section Predicates.
Context {A : Type} (P : A -> Prop).

Lemma first_child_pred p kids (k : SyntaxNode -> A) d :
  (forall c, In c kids -> P (k c)) -> P d -> P (first_child p kids k d).
Proof.
  intros Hk Hd. induction kids as [| c kids IH]; simpl; [done |].
  destruct (p c); [apply Hk; by left |]. apply IH. intros; apply Hk; by right.
Qed.

Lemma nth_named_pred i kids (k : SyntaxNode -> A) d :
  (forall c, In c kids -> P (k c)) -> P d -> P (nth_named i kids k d).
Proof.
  intros Hk Hd. unfold nth_named. revert i.
  induction kids as [| c kids IH]; intros i; simpl; [done |].
  destruct (isNamed c).
  - destruct i; [apply Hk; by left |]. apply IH. intros; apply Hk; by right.
  - apply IH. intros; apply Hk; by right.
Qed.

Lemma fold_left_pred {B} (f : A -> B -> A) l a :
  P a -> (forall x a, In x l -> P a -> P (f a x)) -> P (fold_left f l a).
Proof.
  revert a. induction l as [| x l IH]; intros a Ha Hf; simpl; [done |].
  apply IH; [apply Hf; [by left | done] |]. intros; apply Hf; [by right | done].
Qed.

Lemma each_named_pred (f : A -> SyntaxNode -> A) kids a :
  P a -> (forall c a, In c kids -> P a -> P (f a c)) -> P (each_named f kids a).
Proof.
  intros Ha Hf. unfold each_named. apply fold_left_pred; [done |].
  intros c a' Hc Ha'. destruct (isNamed c); [by apply Hf | done].
Qed.

Lemma each_named_if_pred p (f : A -> SyntaxNode -> A) kids a :
  P a -> (forall c a, In c kids -> P a -> P (f a c)) ->
  P (each_named_if p f kids a).
Proof.
  intros Ha Hf. unfold each_named_if. apply each_named_pred; [done |].
  intros c a' Hc Ha'. destruct (p c); [by apply Hf | done].
Qed.

End Predicates.

Lemma nonnegC_new : nonnegC counted_new.
Proof. apply nonneg_new. Qed.

Lemma nonnegC_add st op n :
  nonnegC st -> 0 <= n -> nonnegC (counted_add st op n).
Proof. apply nonneg_add. Qed.

Lemma nonnegC_merge a b : nonnegC a -> nonnegC b -> nonnegC (counted_merge a b).
Proof. apply nonneg_merge. Qed.

Lemma nonnegC_push st line : nonnegC st -> nonnegC (counted_push st line).
Proof. done. Qed.

Section CFamilyNonneg.
Variable numberFloor : string -> option Z.
Variable language : string.
Variable vc : gmap string Z.

Local Abbreviation aN :=
  (CFamilyTreeSitterAnalyzer.analyzeNode numberFloor language vc).
Local Abbreviation aE :=
  (CFamilyTreeSitterAnalyzer.analyzeExpression numberFloor language vc).

Ltac amount :=
  unfold DEFAULT_LOOP_ITERATIONS, namedChildCount;
  repeat match goal with
         | |- context [CFamilyTreeSitterAnalyzer.estimateForIterations ?a ?b ?c] =>
             let H := fresh in
             pose proof (cfamily_for_estimate_nonneg a b c) as H;
             generalize dependent
               (CFamilyTreeSitterAnalyzer.estimateForIterations a b c); intros
         | |- context [CFamilyTreeSitterAnalyzer.estimateWhileIterations ?a ?b ?c] =>
             let H := fresh in
             pose proof (cfamily_while_estimate_pos a b c) as H;
             generalize dependent
               (CFamilyTreeSitterAnalyzer.estimateWhileIterations a b c); intros
         end;
  nia.

Ltac nn_step IH node :=
  match goal with
  | |- nonnegC counted_new => apply nonnegC_new
  | |- nonnegC (counted_add _ _ _) => apply nonnegC_add; [| amount]
  | |- nonnegC (counted_push _ _) => apply nonnegC_push
  | |- nonnegC (counted_merge _ _) => apply nonnegC_merge
  | |- nonnegC (first_child _ _ _ _) =>
      apply (first_child_pred nonnegC); [intros ? ? |]
  | |- nonnegC (nth_named _ _ _ _) =>
      apply (nth_named_pred nonnegC); [intros ? ? |]
  | |- nonnegC (each_named _ _ _) =>
      apply (each_named_pred nonnegC); [| intros ? ? ? ?]
  | |- nonnegC (each_named_if _ _ _ _) =>
      apply (each_named_if_pred nonnegC); [| intros ? ? ? ?]
  | |- nonnegC (if ?b then _ else _) => destruct b
  | |- nonnegC (match ?o with Some _ => _ | None => _ end) => destruct o
  | |- nonnegC (aN _ _) => apply IH; [size_tac node | amount]
  | |- nonnegC (aE _ _) => apply IH; [size_tac node | amount]
  | |- nonnegC _ => assumption
  end.

Lemma cfamily_analyze_nonneg (node : SyntaxNode) :
  (forall m, 0 <= m -> nonnegC (aN node m))
  /\ (forall m, 0 <= m -> nonnegC (aE node m)).
Proof.
  induction node as [node IH] using node_size_ind.
  split; intros m Hm.
  - rewrite cfamily_analyzeNode_unfold.
    unfold CFamilyTreeSitterAnalyzer.analyzeNode_body. cbv zeta.
    repeat nn_step IH node.
  - rewrite cfamily_analyzeExpression_unfold.
    unfold CFamilyTreeSitterAnalyzer.analyzeExpression_body. cbv zeta.
    repeat nn_step IH node.
Qed.

End CFamilyNonneg.

Lemma sumZ_nonneg l : (forall x, In x l -> 0 <= x) -> 0 <= sumZ l.
Proof.
  induction l as [| x l IH]; intros Hl; simpl; [lia |].
  pose proof (Hl x ltac:(by left)). pose proof (IH ltac:(intros; apply Hl; by right)).
  unfold sumZ in *. lia.
Qed.

Lemma weighted_sum_nonneg (f : OpType -> Z) :
  (forall k, 0 <= f k) -> 0 <= weighted_sum f.
Proof.
  intros Hf. unfold weighted_sum. simpl.
  pose proof (Hf ADDITION). pose proof (Hf SUBTRACTION).
  pose proof (Hf MULTIPLICATION). pose proof (Hf DIVISION).
  pose proof (Hf ASSIGNMENT). pose proof (Hf COMPARISON).
  pose proof (Hf ARRAY_ACCESS). pose proof (Hf FUNCTION_CALL).
  pose proof (Hf MEMORY_ALLOC). pose proof (Hf CONDITIONAL).
  pose proof (Hf IO_OPERATION). pose proof (Hf NETWORK_OP). lia.
Qed.

Lemma result_nonneg_totals (r : AnalysisResult) :
  result_nonneg r ->
  nonneg (AnalysisResult.totalOperations r)
  /\ 0 <= AnalysisResult.totalWeightedOps r.
Proof.
  intros [Hg Hf].
  assert (Htotal : nonneg (AnalysisResult.totalOperations r)).
  { intros k. unfold AnalysisResult.totalOperations.
    rewrite count_of_fold_merge, count_of_merge, count_of_new.
    pose proof (Hg k).
    assert (0 <= sumZ (map (fun x => count_of (operations x) k) (functions r))).
    { apply sumZ_nonneg. intros x Hx. apply in_map_iff in Hx as (f & <- & Hin).
      by apply Hf. }
    lia. }
  split; [done |].
  unfold AnalysisResult.totalWeightedOps. rewrite totalWeighted_sum.
  by apply weighted_sum_nonneg.
Qed.

Lemma result_nonneg_fold {A} (step : AnalysisResult -> A -> AnalysisResult)
    (l : list A) (r : AnalysisResult) :
  (forall r x, result_nonneg r -> result_nonneg (step r x)) ->
  result_nonneg r -> result_nonneg (fold_left step l r).
Proof.
  intros Hstep. revert r. induction l as [| x l IH]; intros r Hr; simpl; [done |].
  by apply IH, Hstep.
Qed.

Section CFamilyResult.
Variable numberFloor : string -> option Z.
Variable language : string.

Lemma cfamily_function_nonneg vc node className :
  nonneg (operations (CFamilyTreeSitterAnalyzer.analyzeFunction
                        numberFloor language vc node className).1).
Proof.
  unfold CFamilyTreeSitterAnalyzer.analyzeFunction. simpl.
  assert (Hbody : nonnegC (CFamilyTreeSitterAnalyzer.analyzeBody
                             numberFloor language
                             (CFamilyTreeSitterAnalyzer.extractConstants
                                numberFloor node vc) node)).
  { unfold CFamilyTreeSitterAnalyzer.analyzeBody.
    destruct (CFamilyTreeSitterAnalyzer.getFunctionBody node);
      [| apply nonnegC_new].
    apply (fold_left_pred nonnegC); [apply nonnegC_new |].
    intros stmt st _ Hst. apply nonnegC_merge; [done |].
    by apply cfamily_analyze_nonneg. }
  destruct (CFamilyTreeSitterAnalyzer.containsCallTo node _); [| done].
  apply nonneg_scale; [done |]. unfold DEFAULT_RECURSION_DEPTH. lia.
Qed.

Lemma cfamily_push_nonneg vc r node className :
  result_nonneg r ->
  result_nonneg (CFamilyTreeSitterAnalyzer.push_function
                   numberFloor language vc r node className).
Proof.
  intros [Hg Hf]. split; [done |]. simpl. intros f Hin.
  apply in_app_iff in Hin as [Hin | [<- | []]]; [by apply Hf |].
  apply cfamily_function_nonneg.
Qed.

Lemma cfamily_result_nonneg rootNode filePath :
  result_nonneg (CFamilyTreeSitterAnalyzer.analyze
                   numberFloor language rootNode filePath).
Proof.
  unfold CFamilyTreeSitterAnalyzer.analyze.
  apply result_nonneg_fold.
  - intros r child Hr. unfold CFamilyTreeSitterAnalyzer.analyzeTopLevel.
    destruct (CFamilyTreeSitterAnalyzer.isFunctionDef child);
      [by apply cfamily_push_nonneg |].
    destruct (CFamilyTreeSitterAnalyzer.isClassDef child).
    + unfold CFamilyTreeSitterAnalyzer.analyzeClass.
      destruct (or_else _ _); [| done].
      apply result_nonneg_fold; [| done].
      intros r' item Hr'.
      destruct (CFamilyTreeSitterAnalyzer.isFunctionDef item);
        [by apply cfamily_push_nonneg | done].
    + destruct Hr as [Hg Hf]. split; [| done]. simpl.
      apply nonneg_merge; [done |]. by apply cfamily_analyze_nonneg.
  - split; [apply nonneg_new | by intros f []].
Qed.

End CFamilyResult.

(** X22.  The C-family walker never produces a negative count: at a multiplier
    that is not negative the counts of a node are not negative, and in the
    result of [analyze] neither are the global counts, the counts of the
    functions, the total counts and the weighted total. (A [for] loop whose
    step resolves to 0 is excluded: its estimate is not a number.) *)
Theorem cfamily_counts_never_negative
    (numberFloor : string -> option Z) (language : string)
    (rootNode : SyntaxNode) (filePath : option string) :
  (forall vc,
     every_node
       (fun n => negb (CFamilyTreeSitterAnalyzer.extractStep numberFloor vc n
                       =? 0))
       rootNode = true) ->
  let result :=
    CFamilyTreeSitterAnalyzer.analyze numberFloor language rootNode filePath in
  (forall vc m k,
     0 <= m ->
     0 <= count_of (CFamilyTreeSitterAnalyzer.analyzeNode
                      numberFloor language vc rootNode m).1 k)
  /\ (forall k, 0 <= count_of (globalOperations result) k)
  /\ (forall f k, In f (functions result) -> 0 <= count_of (operations f) k)
  /\ (forall k, 0 <= count_of (AnalysisResult.totalOperations result) k)
  /\ 0 <= AnalysisResult.totalWeightedOps result.
Proof.
  intros _. cbv zeta.
  pose proof (cfamily_result_nonneg numberFloor language rootNode filePath)
    as Hr.
  destruct (result_nonneg_totals _ Hr) as [Ht Hw]. destruct Hr as [Hg Hf].
  split; [| split; [exact Hg | split; [| split; [exact Ht | exact Hw]]]].
  - intros vc m k Hm.
    by apply (cfamily_analyze_nonneg numberFloor language vc rootNode).
  - intros f k Hin. by apply Hf.
Qed.

Lemma cfamily_counts_never_negative_witness :
  0 <= AnalysisResult.totalWeightedOps
         (CFamilyTreeSitterAnalyzer.analyze decimalFloor "c"
            (node "translation_unit" [sample_c_braced]) None).
Proof.
  apply (cfamily_counts_never_negative decimalFloor "c"
           (node "translation_unit" [sample_c_braced]) None).
  intros vc. reflexivity.
Defined.
